(** * SIADA+ Evolución: the timetable engine [generar_horario_optimo]

    A shallow embedding of [src/app.py], lines 45-56 and 295-535: the
    calendar helpers, the CP-SAT model that the engine builds, the call
    to the solver, and the pass that turns a solved assignment into the
    rows of the timetable.  Around the engine it also covers
    [calcular_dias_no_laborables] (lines 80-87), the end of the loader
    [cargar_archivos_basic] (lines 172-176, 215-224 and 250-282) and the
    call of the engine by the page (lines 689-747).

    The OR-Tools solver is not part of the repository.  Its modelling
    interface is represented by the constraints the program hands to it
    (module [CpSat]), and the one call [solver.Solve(model)] is a node of
    the run ([Resuelve]) whose answer is supplied from outside. *)

From Stdlib Require Import ZArith List String Ascii Lia Permutation QArith DecimalString Sorted.
From stdpp Require Import gmap strings list.

Open Scope string_scope.
Open Scope list_scope.
Open Scope Z_scope.

(** ** Exceptions of the Python run *)

Inductive Excepcion : Set :=
| KeyError
| IndexError
| ZeroDivisionError
| OverflowError
| TypeError.

Inductive Resultado (A : Type) : Type :=
| Ok (a : A)
| Lanza (e : Excepcion).

Arguments Ok {A} a.
Arguments Lanza {A} e.

#[global] Instance resultado_bind : MBind Resultado := fun A B f r =>
  match r with
  | Ok a => f a
  | Lanza e => Lanza e
  end.

(** A [for] loop whose body may raise and that collects what each round
    produces: the first exception stops it. *)
Fixpoint recorrer {A B : Type} (f : A -> Resultado (list B)) (l : list A)
  : Resultado (list B) :=
  match l with
  | [] => Ok []
  | x :: r => ys ← f x; zs ← recorrer f r; Ok (ys ++ zs)
  end.

(** [range(a, b)] *)
Definition rango (a b : nat) : list nat := seq a (b - a).

(** [l[i]] for a non-negative index *)
Definition indexar {A : Type} (l : list A) (i : nat) : Resultado A :=
  match nth_error l i with
  | Some x => Ok x
  | None => Lanza IndexError
  end.

(** [a % b] on indices *)
Definition modulo (a b : nat) : Resultado nat :=
  match b with
  | O => Lanza ZeroDivisionError
  | _ => Ok (a mod b)%nat
  end.

(** ** [datetime.date] *)

Module Datetime.

(** A date is its proleptic Gregorian ordinal ([date.toordinal()]):
    1 is 0001-01-01 and [max_ordinal] is 9999-12-31. *)
Definition date := Z.

Definition max_ordinal : Z := 3652059.

Definition valida (f : date) : bool := (1 <=? f) && (f <=? max_ordinal).

(** [f + datetime.timedelta(days=d)] *)
Definition mas_dias (f : date) (d : nat) : Resultado date :=
  let r := f + Z.of_nat d in
  if valida r then Ok r else Lanza OverflowError.

(** [f.weekday()]: Monday is 0 *)
Definition weekday (f : date) : Z := (f + 6) mod 7.

(** Year, month and day of an ordinal. *)
Definition civil (f : date) : Z * Z * Z :=
  let z := f + 305 in
  let era := z / 146097 in
  let doe := z - era * 146097 in
  let yoe := (doe - doe / 1460 + doe / 36524 - doe / 146096) / 365 in
  let doy := doe - (365 * yoe + yoe / 4 - yoe / 100) in
  let mp := (5 * doy + 2) / 153 in
  let d := doy - (153 * mp + 2) / 5 + 1 in
  let m := if mp <? 10 then mp + 3 else mp - 9 in
  let y := yoe + era * 400 + (if m <=? 2 then 1 else 0) in
  (y, m, d).

Definition decimal (n : Z) : string := NilZero.string_of_uint (N.to_uint (Z.to_N n)).

Definition dos_digitos (n : Z) : string :=
  if n <? 10 then "0" +:+ decimal n else decimal n.

(** [f.strftime("%Y-%m-%d")]; the year is printed as the C library
    prints it, without padding. *)
Definition strftime_Ymd (f : date) : string :=
  let '(y, m, d) := civil f in
  decimal y +:+ "-" +:+ dos_digitos m +:+ "-" +:+ dos_digitos d.

End Datetime.

(** [get_dia_semana]: the lookup in [dias_esp] cannot miss, a weekday is
    between 0 and 6. *)
Definition get_dia_semana (fecha : Datetime.date) : string :=
  match Datetime.weekday fecha with
  | 0 => "Lunes"
  | 1 => "Martes"
  | 2 => "Miércoles"
  | 3 => "Jueves"
  | 4 => "Viernes"
  | 5 => "Sábado"
  | _ => "Domingo"
  end.

(** ** The part of [ortools.sat.python.cp_model] the engine uses *)

Module CpSat.

(** The variables of the model, one constructor for each place that
    creates them: [asig_i{i}_d{d}_g{g}], [trabajo_i{i}_d{d}],
    [carga_{i}], [max_carga] and [min_carga]. *)
Inductive Var : Set :=
| VAsig (i d g : nat)
| VTrabajo (i d : nat)
| VCarga (i : nat)
| VMaxCarga
| VMinCarga.

(** A Boolean variable [b] or its negation [b.Not()]. *)
Inductive Literal : Set :=
| Lit (b : Var)
| Not (b : Var).

(** The linear expressions the engine writes: an integer, a variable,
    a Python [sum(...)] of variables, and [a - b]. *)
Inductive Expr : Set :=
| Const (k : Z)
| Ref (v : Var)
| Sum (vs : list Var)
| Minus (a b : Var).

Inductive Rel : Set := LE | GE | EQ.

Inductive Ct : Set :=
| Add (l : Expr) (r : Rel) (k : Expr)
| AddOnlyEnforceIf (l : Expr) (r : Rel) (k : Expr) (b : Literal)
| AddExactlyOne (vs : list Var)
| AddAtMostOne (vs : list Var)
| AddMaxEquality (t : Var) (vs : list Var)
| AddMinEquality (t : Var) (vs : list Var).

(** [NewBoolVar] declares the bounds 0 and 1, [NewIntVar(lb, ub, _)] the
    bounds it is given. *)
Record CpModel : Set := {
  variables : list (Var * (Z * Z));
  restricciones : list Ct;
  minimizar : Expr
}.

Definition NewBoolVar (v : Var) : Var * (Z * Z) := (v, (0, 1)).
Definition NewIntVar (lb ub : Z) (v : Var) : Var * (Z * Z) := (v, (lb, ub)).

(** The integers the modelling layer takes as the bound of a linear
    expression are those of int64. *)
Definition INT_MIN : Z := - 2 ^ 63.
Definition INT_MAX : Z := 2 ^ 63 - 1.

Definition es_int64 (k : Z) : bool := (INT_MIN <=? k) && (k <=? INT_MAX).

(** [model.Add(sum(vs) <= k)].  The [sum] of an empty list is the
    integer 0 and [0 <= k] a Python bool, which [Add] takes as a
    constraint that holds or fails; otherwise [sum(vs) <= k] is a bounded
    linear expression, and comparing with a [k] outside int64 raises
    [TypeError]. *)
Definition add_sum_le (vs : list Var) (k : Z) : Resultado Ct :=
  match vs with
  | [] => Ok (Add (Sum []) LE (Const k))
  | _ => if es_int64 k then Ok (Add (Sum vs) LE (Const k)) else Lanza TypeError
  end.

(** *** What a constraint means for a valuation of the variables *)

Definition Valores := Var -> Z.

Fixpoint suma (val : Valores) (vs : list Var) : Z :=
  match vs with
  | [] => 0
  | v :: r => val v + suma val r
  end.

Definition eval (val : Valores) (e : Expr) : Z :=
  match e with
  | Const k => k
  | Ref v => val v
  | Sum vs => suma val vs
  | Minus a b => val a - val b
  end.

Definition compara (r : Rel) (a b : Z) : bool :=
  match r with
  | LE => a <=? b
  | GE => b <=? a
  | EQ => a =? b
  end.

Definition cierto (val : Valores) (b : Literal) : bool :=
  match b with
  | Lit v => val v =? 1
  | Not v => val v =? 0
  end.

(** The largest (smallest) of a list, none for the empty list. *)
Definition extremo (op : Z -> Z -> Z) (zs : list Z) : option Z :=
  match zs with
  | [] => None
  | z :: r => Some (fold_left op r z)
  end.

(** [AddExactlyOne] and [AddAtMostOne] bound the sum of their literals;
    a max or min equality over no expression has no solution. *)
Definition cumple (val : Valores) (c : Ct) : bool :=
  match c with
  | Add l r k => compara r (eval val l) (eval val k)
  | AddOnlyEnforceIf l r k b =>
      implb (cierto val b) (compara r (eval val l) (eval val k))
  | AddExactlyOne vs => suma val vs =? 1
  | AddAtMostOne vs => suma val vs <=? 1
  | AddMaxEquality t vs =>
      match extremo Z.max (map val vs) with
      | Some z => val t =? z
      | None => false
      end
  | AddMinEquality t vs =>
      match extremo Z.min (map val vs) with
      | Some z => val t =? z
      | None => false
      end
  end.

Definition en_dominio (val : Valores) (decl : Var * (Z * Z)) : bool :=
  let '(v, (lb, ub)) := decl in (lb <=? val v) && (val v <=? ub).

Definition es_solucion (m : CpModel) (val : Valores) : bool :=
  forallb (en_dominio val) (variables m) && forallb (cumple val) (restricciones m).

Definition valor_objetivo (m : CpModel) (val : Valores) : Z :=
  eval val (minimizar m).

(** *** The solver after [Solve] *)

(** The status codes of [cp_model]. *)
Definition UNKNOWN : Z := 0.
Definition MODEL_INVALID : Z := 1.
Definition FEASIBLE : Z := 2.
Definition INFEASIBLE : Z := 3.
Definition OPTIMAL : Z := 4.

(** What the engine reads from the solver once [Solve] has returned:
    the status, [Value], [WallTime()], [NumConflicts()] and
    [NumBranches()]. *)
Record CpSolver : Type := {
  status : Z;
  Value : Var -> Z;
  WallTime : Q;
  NumConflicts : Z;
  NumBranches : Z
}.

(** The contract of [Solve]: a status OPTIMAL or FEASIBLE comes with
    values that satisfy the model, OPTIMAL with values of least
    objective, and INFEASIBLE is only reported for a model without
    solution. *)
Definition entrega_solucion (m : CpModel) (s : CpSolver) : Prop :=
  status s = OPTIMAL \/ status s = FEASIBLE -> es_solucion m (Value s) = true.





End CpSat.

Import CpSat.

(** ** The engine's data *)

(** A Python dict with text keys and text values: a group, an
    instructor or a curriculum session as [cargar_archivos_basic]
    produces them. *)
Abbreviation Dict := (gmap string string).

(** The parameters of [generar_horario_optimo]. *)
Record Args : Type := {
  num_instructores : nat;
  instructores : list Dict;
  num_grupos : nat;
  grupos : list Dict;
  dias_no_laborables : gset nat;
  ambientes : list string;
  curriculo_sessions : list Dict;
  curriculo_por_trimestre : gmap string (list Dict);
  horas_por_asignacion : Z;
  num_dias : nat;
  max_horas_semana : Z;
  max_dias_semana : Z;
  fecha_inicio : option Datetime.date;
  forzar_equidad : bool
}.

(** One row of the timetable, with the columns of the dict appended to
    [resultados]. *)
Record Fila : Set := {
  Fecha : string;
  Dia : string;
  Jornada : string;
  Ficha : string;
  Programa : string;
  Trimestre : string;
  Hora_Inicio : string;
  Hora_Fin : string;
  Municipio : string;
  Asignatura : string;
  Competencia : string;
  Resultados_de_Aprendizaje : string;
  Instructor : string;
  Jornada_del_Instructor : string;
  Ambiente : string;
  Estado : string;
  Notas : string;
  Festivo : string;
  Exclusiones_del_Instructor : string
}.

(** The values stored in [stats]. *)
Inductive Valor : Type :=
| Texto (s : string)
| Entero (z : Z)
| Flotante (q : Q).

(** What the function returns: the rows of the data frame, the status
    name and [stats]. *)
Definition Salida : Type := list Fila * string * gmap string Valor.

(** A run of the function: it returns or raises on its own, or it
    reaches [solver.Solve(model)] and goes on from the solver's answer. *)
Inductive Ejecucion : Type :=
| Retorna (r : Salida)
| Aborta (e : Excepcion)
| Resuelve (model : CpModel) (sigue : CpSolver -> Resultado Salida).

Definition ejecutar (Solve : CpModel -> CpSolver) (e : Ejecucion) : Resultado Salida :=
  match e with
  | Retorna r => Ok r
  | Aborta e => Lanza e
  | Resuelve model sigue => sigue (Solve model)
  end.

(** ** Building the model (lines 316-413) *)

Section Modelo.

Variable a : Args.

#[local] Abbreviation ni := (num_instructores a).
#[local] Abbreviation ng := (num_grupos a).
#[local] Abbreviation nd := (num_dias a).

Definition no_laborable (d : nat) : bool := bool_decide (d ∈ dias_no_laborables a).

Definition dias_laborables : Z :=
  Z.of_nat (num_dias a) - Z.of_nat (size (dias_no_laborables a)).

(** [horas_por_asignacion = max(1, horas_por_asignacion)] *)
Definition horas : Z := Z.max 1 (horas_por_asignacion a).

(** The dict [asignacion], read at a key: it holds the keys of the three
    ranges that filled it. *)
Definition asignacion (i d g : nat) : Resultado Var :=
  if ((i <? ni) && (d <? nd) && (g <? ng))%nat then Ok (VAsig i d g)
  else Lanza KeyError.

Definition vars_asignacion : list (Var * (Z * Z)) :=
  flat_map (fun i =>
    flat_map (fun d =>
      map (fun g => NewBoolVar (VAsig i d g)) (seq 0 ng)) (seq 0 nd)) (seq 0 ni).

(** 1. Nobody works on a non-working day.  The days come from the set,
    so the dict is read at keys it may not have. *)
Definition r_no_laborables : Resultado (list Ct) :=
  recorrer (fun d =>
    recorrer (fun g =>
      recorrer (fun i =>
        v ← asignacion i d g; Ok [Add (Ref v) EQ (Const 0)])
      (seq 0 ni)) (seq 0 ng)) (elements (dias_no_laborables a)).

(** 2. Each group has exactly one instructor on a working day. *)
Definition r_cobertura : list Ct :=
  flat_map (fun d =>
    if no_laborable d then []
    else map (fun g => AddExactlyOne (map (fun i => VAsig i d g) (seq 0 ni)))
             (seq 0 ng)) (seq 0 nd).

(** 3. An instructor teaches at most one group a day. *)
Definition r_exclusividad : list Ct :=
  flat_map (fun i =>
    map (fun d => AddAtMostOne (map (fun g => VAsig i d g) (seq 0 ng)))
        (seq 0 nd)) (seq 0 ni).

(** 4. Weekly limits. *)
Definition max_asignaciones_semana : Z :=
  Z.max 1 (max_horas_semana a / horas).

Definition num_semanas : nat := ((nd + 6) / 7)%nat.

Definition dia_inicio (w : nat) : nat := (w * 7)%nat.
Definition dia_fin (w : nat) : nat := Nat.min (dia_inicio w + 7) nd.

Definition asignaciones_dia (i d : nat) : list Var :=
  map (fun g => VAsig i d g) (seq 0 ng).

Definition asignaciones_semana (i w : nat) : list Var :=
  flat_map (asignaciones_dia i) (rango (dia_inicio w) (dia_fin w)).

(** The days of week [w] that get a [trabajo_dia] variable. *)
Definition laborables_semana (w : nat) : list nat :=
  List.filter (fun d => negb (no_laborable d)) (rango (dia_inicio w) (dia_fin w)).

Definition dias_trabajados_semana (i w : nat) : list Var :=
  map (VTrabajo i) (laborables_semana w).

(** The two constraints of each day that has a [trabajo_dia] variable
    (lines 374-375): their bounds are the constants 1 and 0. *)
Definition r_trabajo_dia (i w : nat) : list Ct :=
  flat_map (fun d =>
    [ AddOnlyEnforceIf (Sum (asignaciones_dia i d)) GE (Const 1) (Lit (VTrabajo i d));
      AddOnlyEnforceIf (Sum (asignaciones_dia i d)) EQ (Const 0) (Not (VTrabajo i d)) ])
    (laborables_semana w).

(** One round of the loops of lines 357-378: the cap of line 367, the
    constraints of the days, and the limit of line 378 when the week has
    a working day.  The two [Add] with a limit can raise. *)
Definition r_semana (i w : nat) : Resultado (list Ct) :=
  tope ← add_sum_le (asignaciones_semana i w) max_asignaciones_semana;
  limite ← match dias_trabajados_semana i w with
           | [] => Ok []
           | ts => c ← add_sum_le ts (max_dias_semana a); Ok [c]
           end;
  Ok (tope :: r_trabajo_dia i w ++ limite).

Definition r_semanales : Resultado (list Ct) :=
  recorrer (fun i => recorrer (r_semana i) (seq 0 num_semanas)) (seq 0 ni).

(** What the rounds add to the model when no [Add] is refused. *)
Definition c_semana (i w : nat) : list Ct :=
  Add (Sum (asignaciones_semana i w)) LE (Const max_asignaciones_semana)
  :: flat_map (fun d =>
       [ AddOnlyEnforceIf (Sum (asignaciones_dia i d)) GE (Const 1) (Lit (VTrabajo i d));
         AddOnlyEnforceIf (Sum (asignaciones_dia i d)) EQ (Const 0) (Not (VTrabajo i d)) ])
       (laborables_semana w)
  ++ match dias_trabajados_semana i w with
     | [] => []
     | ts => [Add (Sum ts) LE (Const (max_dias_semana a))]
     end.

Definition c_semanales : list Ct :=
  flat_map (fun i => flat_map (c_semana i) (seq 0 num_semanas)) (seq 0 ni).

Definition vars_trabajo : list (Var * (Z * Z)) :=
  flat_map (fun i =>
    flat_map (fun w => map NewBoolVar (dias_trabajados_semana i w))
             (seq 0 num_semanas)) (seq 0 ni).

(** 5. Equity of the load. *)
Definition total_asignaciones : Z := Z.of_nat ng * dias_laborables.

Definition min_asign_por_inst : Z :=
  if (0 <? ni)%nat then total_asignaciones / Z.of_nat ni else 0.

Definition max_asign_por_inst : Z :=
  min_asign_por_inst
  + (if (0 <? ni)%nat && negb (total_asignaciones mod Z.of_nat ni =? 0) then 1 else 0).

Definition margen : Z :=
  if 0 <? min_asign_por_inst then Z.max 1 (min_asign_por_inst / 10) else 1.

Definition total_instructor (i : nat) : list Var :=
  flat_map (asignaciones_dia i) (seq 0 nd).

Definition r_equidad : list Ct :=
  flat_map (fun i =>
    if forzar_equidad a && (0 <? ni)%nat then
      [ Add (Sum (total_instructor i)) GE (Const (Z.max 0 (min_asign_por_inst - margen)));
        Add (Sum (total_instructor i)) LE (Const (max_asign_por_inst + margen)) ]
    else []) (seq 0 ni).

(** The objective: the spread of the loads. *)
Definition cargas : list Var := map VCarga (seq 0 ni).

Definition vars_carga : list (Var * (Z * Z)) :=
  map (NewIntVar 0 total_asignaciones) cargas.

Definition r_carga : list Ct :=
  map (fun i => Add (Ref (VCarga i)) EQ (Sum (total_instructor i))) (seq 0 ni).

Definition r_extremos : list Ct :=
  [ AddMaxEquality VMaxCarga cargas; AddMinEquality VMinCarga cargas ].

(** The model.  Building it raises [KeyError] when line 340 reads a key
    that [asignacion] does not have, and [TypeError] when a limit of
    lines 367 or 378 is refused. *)
Definition construir_modelo : Resultado CpModel :=
  r1 ← r_no_laborables;
  r4 ← r_semanales;
  Ok {| variables :=
          vars_asignacion ++ vars_trabajo ++ vars_carga
          ++ [ NewIntVar 0 total_asignaciones VMaxCarga;
               NewIntVar 0 total_asignaciones VMinCarga ];
        restricciones :=
          r1 ++ r_cobertura ++ r_exclusividad ++ r4
          ++ r_equidad ++ r_carga ++ r_extremos;
        minimizar := Minus VMaxCarga VMinCarga |}.

End Modelo.

(** ** From the solver's values to the rows (lines 443-533) *)

(** The placeholder used when no curriculum session is left. *)
Definition sesion_sin_asignatura : Dict :=
  list_to_map
    [ ("asignatura", "Sin asignatura"); ("competencia", "N/A");
      ("resultados", "N/A"); ("hora_inicio", "08:00"); ("hora_fin", "12:00") ].

Definition jornada_options : list string := [ "Mañana"; "Tarde"; "Noche" ].

(** [x or y] on lists *)
Definition o_bien {A : Type} (x y : list A) : list A :=
  match x with
  | [] => y
  | _ => x
  end.

(** The canonical order of the rows: [sort_values] on the columns
    Fecha, Hora Inicio and Programa, text compared code point by code
    point, rows with equal keys left in the order they had.  The three
    columns hold text, so the sort cannot raise and the fallback of the
    [except] branch (lines 530-531) is never taken. *)
Definition antes (x y : string) : bool :=
  match String.compare x y with
  | Lt => true
  | _ => false
  end.

Definition clave_leb (f1 f2 : Fila) : bool :=
  if antes (Fecha f1) (Fecha f2) then true
  else if antes (Fecha f2) (Fecha f1) then false
  else if antes (Hora_Inicio f1) (Hora_Inicio f2) then true
  else if antes (Hora_Inicio f2) (Hora_Inicio f1) then false
  else negb (antes (Programa f2) (Programa f1)).

Fixpoint insertar (f : Fila) (l : list Fila) : list Fila :=
  match l with
  | [] => [f]
  | x :: r => if clave_leb f x then f :: l else x :: insertar f r
  end.

Definition sort_values (l : list Fila) : list Fila := fold_right insertar [] l.

Section Filas.

Variable a : Args.

#[local] Abbreviation ni := (num_instructores a).
#[local] Abbreviation ng := (num_grupos a).
#[local] Abbreviation nd := (num_dias a).

(** The sessions a row chooses from, for the trimester key of its
    group. *)
Definition sesiones_trimestre (grupo_trimestre_key : string) : list Dict :=
  let sesiones :=
    default (curriculo_sessions a)
            (curriculo_por_trimestre a !! grupo_trimestre_key) in
  let sesiones := o_bien sesiones (curriculo_sessions a) in
  match sesiones with
  | [] => [sesion_sin_asignatura]
  | _ => sesiones
  end.

(** The body of the innermost loop, once [solver.Value] was 1. *)
Definition fila (fecha_real : Datetime.date) (grupo_info : Dict) (d g i : nat)
  : Resultado Fila :=
  let dia_semana := get_dia_semana fecha_real in
  let es_festivo := no_laborable a d in
  let grupo_trimestre_key := default "1" (grupo_info !! "Trimestre") in
  instructor_info ← indexar (instructores a) i;
  amb_idx ← modulo (d * ng + g)%nat (length (ambientes a));
  ambiente ← indexar (ambientes a) amb_idx;
  let sesiones := sesiones_trimestre grupo_trimestre_key in
  curr_idx ← modulo (d * ng + g)%nat (length sesiones);
  curr_info ← indexar sesiones curr_idx;
  jornada_idx ← modulo (d + g)%nat (length jornada_options);
  jornada_dia ← indexar jornada_options jornada_idx;
  let '(hora_inicio_str, hora_fin_str) :=
    if String.eqb jornada_dia "Mañana" then ("08:00", "13:00")
    else if String.eqb jornada_dia "Tarde" then ("14:00", "18:00")
    else ("18:00", "22:00") in
  Ok {| Fecha := Datetime.strftime_Ymd fecha_real;
        Dia := dia_semana;
        Jornada := jornada_dia;
        Ficha := default "N/A" (grupo_info !! "Ficha");
        Programa := default "N/A" (grupo_info !! "Programa");
        Trimestre := default "N/A" (grupo_info !! "Trimestre");
        Hora_Inicio := hora_inicio_str;
        Hora_Fin := hora_fin_str;
        Municipio := default "N/A" (grupo_info !! "Municipio");
        Asignatura := default "N/A" (curr_info !! "asignatura");
        Competencia := default "N/A" (curr_info !! "competencia");
        Resultados_de_Aprendizaje := default "N/A" (curr_info !! "resultados");
        Instructor := default "N/A" (instructor_info !! "Nombre");
        Jornada_del_Instructor :=
          default "N/A" (instructor_info !! "Jornada del Instructor");
        Ambiente := ambiente;
        Estado := "Programado";
        Notas := "";
        Festivo := if es_festivo then "Sí" else "No";
        Exclusiones_del_Instructor :=
          default "N/A" (instructor_info !! "Exclusiones del Instructor") |}.

(** The three nested loops over days, groups and instructors. *)
Definition resultados (fecha0 : Datetime.date) (Value : Var -> Z)
  : Resultado (list Fila) :=
  recorrer (fun d =>
    fecha_real ← Datetime.mas_dias fecha0 d;
    recorrer (fun g =>
      grupo_info ← indexar (grupos a) g;
      recorrer (fun i =>
        if Value (VAsig i d g) =? 1 then
          f ← fila fecha_real grupo_info d g i; Ok [f]
        else Ok [])
      (seq 0 ni)) (seq 0 ng)) (seq 0 nd).

(** The rows in their final order. *)
Definition materializar (fecha0 : Datetime.date) (Value : Var -> Z)
  : Resultado (list Fila) :=
  rs ← resultados fecha0 Value; Ok (sort_values rs).

(** The cell (day, group, instructor) of each row, in the order of the
    loops. *)
Definition celdas (Value : Var -> Z) : list (nat * nat * nat) :=
  flat_map (fun d =>
    flat_map (fun g =>
      map (fun i => (d, g, i))
          (List.filter (fun i => Value (VAsig i d g) =? 1) (seq 0 ni)))
      (seq 0 ng)) (seq 0 nd).

(** The row of one cell, computed on its own. *)
Definition fila_de (fecha0 : Datetime.date) (c : nat * nat * nat) : Resultado Fila :=
  let '(d, g, i) := c in
  fecha_real ← Datetime.mas_dias fecha0 d;
  grupo_info ← indexar (grupos a) g;
  fila fecha_real grupo_info d g i.

End Filas.

(** ** [generar_horario_optimo] *)

Definition status_names : gmap Z string :=
  {[ OPTIMAL := "OPTIMAL"; FEASIBLE := "FEASIBLE"; INFEASIBLE := "INFEASIBLE";
     MODEL_INVALID := "MODEL_INVALID"; UNKNOWN := "UNKNOWN" ]}.

(** Lines 425-535: what the function does with the solver once [Solve]
    has returned. *)
Definition tras_resolver (a : Args) (fecha0 : Datetime.date) (solver : CpSolver)
  : Resultado Salida :=
  let status_name := default "UNKNOWN" (status_names !! status solver) in
  let stats : gmap string Valor :=
    {[ "status" := Texto status_name;
       "tiempo_solver" := Flotante (WallTime solver);
       "conflictos" := Entero (NumConflicts solver);
       "ramas" := Entero (NumBranches solver);
       "dias_laborables" := Entero (dias_laborables a);
       "total_asignaciones_esperadas" := Entero (total_asignaciones a) ]} in
  if (status solver =? OPTIMAL) || (status solver =? FEASIBLE) then
    df_resultados ← materializar a fecha0 (Value solver);
    Ok (df_resultados, status_name, stats)
  else Ok ([], status_name, stats).

(** [hoy] is what [datetime.date.today()] answers when no start date is
    given. *)
Definition generar_horario_optimo (hoy : Datetime.date) (a : Args) : Ejecucion :=
  let fecha0 := default hoy (fecha_inicio a) in
  if dias_laborables a <=? 0 then Retorna ([], "NO_DIAS_LABORABLES", ∅)
  else
    match construir_modelo a with
    | Lanza e => Aborta e
    | Ok model => Resuelve model (tras_resolver a fecha0)
    end.

(** ** Vocabulary of the specification *)

(** The working days of the horizon. *)
Definition dias_habiles (a : Args) : list nat :=
  List.filter (fun d => negb (no_laborable a d)) (seq 0 (num_dias a)).

(** The weekly cap as the specification words it:
    floor(max_weekly_hours / max(1, hours_per_session)). *)
Definition tope_segun_spec (a : Args) : Z :=
  max_horas_semana a / Z.max 1 (horas_por_asignacion a).

(** The closed set of status names of the specification. *)
Definition estados_del_solver : list string :=
  [ "OPTIMAL"; "FEASIBLE"; "INFEASIBLE"; "MODEL_INVALID"; "UNKNOWN" ].

(** The sessions of a row as the specification words them: the bucket of
    the trimester key; the full list when the key is absent; one
    placeholder when that list is empty too. *)
Definition sesiones_segun_spec (a : Args) (key : string) : list Dict :=
  match curriculo_por_trimestre a !! key with
  | Some bucket => bucket
  | None =>
      match curriculo_sessions a with
      | [] => [sesion_sin_asignatura]
      | todas => todas
      end
  end.

(** The curriculum session of the row [f] of day [d] and group [g], as
    the specification words it: the session at index
    (d * num_groups + g) mod L of the resolved list of length L. *)
Definition sesion_de_la_celda (a : Args) (d g : nat) (f : Fila) : Prop :=
  exists grupo_info curr_info,
    nth_error (grupos a) g = Some grupo_info /\
    let key := default "1" (grupo_info !! "Trimestre") in
    let L := sesiones_trimestre a key in
    (curriculo_por_trimestre a !! key <> Some [] -> L = sesiones_segun_spec a key) /\
    (curriculo_por_trimestre a !! key = Some [] ->
       L = match curriculo_sessions a with
           | [] => [sesion_sin_asignatura]
           | todas => todas
           end) /\
    (0 < length L)%nat /\
    nth_error L ((d * num_grupos a + g) mod length L)%nat = Some curr_info /\
    Asignatura f = default "N/A" (curr_info !! "asignatura") /\
    Competencia f = default "N/A" (curr_info !! "competencia") /\
    Resultados_de_Aprendizaje f = default "N/A" (curr_info !! "resultados").

(** The horizon stays inside the dates Python can represent. *)
Definition horizonte_valido (fecha0 : Datetime.date) (n : nat) : Prop :=
  1 <= fecha0 /\ fecha0 + Z.of_nat n - 1 <= Datetime.max_ordinal.

(** The same arguments with other weekly limits. *)
Definition con_limites (a : Args) (horas_semana dias_semana : Z) : Args := {|
  num_instructores := num_instructores a;
  instructores := instructores a;
  num_grupos := num_grupos a;
  grupos := grupos a;
  dias_no_laborables := dias_no_laborables a;
  ambientes := ambientes a;
  curriculo_sessions := curriculo_sessions a;
  curriculo_por_trimestre := curriculo_por_trimestre a;
  horas_por_asignacion := horas_por_asignacion a;
  num_dias := num_dias a;
  max_horas_semana := horas_semana;
  max_dias_semana := dias_semana;
  fecha_inicio := fecha_inicio a;
  forzar_equidad := forzar_equidad a
|}.

(** The valuation that sets every variable to 0. *)
Definition val_cero : Valores := fun _ => 0.

(** ** Sample inputs *)

(** One week from Monday 2024-01-01, two instructors, two groups; the
    second group's trimester has no bucket. *)
Definition sesion_algebra : Dict :=
  {[ "asignatura" := "Algebra"; "competencia" := "Razonar"; "trimestre" := "1" ]}.
Definition sesion_redes : Dict :=
  {[ "asignatura" := "Redes"; "resultados" := "Configurar"; "trimestre" := "1" ]}.

Definition a_semana : Args := {|
  num_instructores := 2;
  instructores := [ {[ "Nombre" := "Ana" ]}; {[ "Nombre" := "Luis" ]} ];
  num_grupos := 2;
  grupos := [ {[ "Ficha" := "F1"; "Programa" := "ADSO"; "Trimestre" := "1" ]};
              {[ "Ficha" := "F2"; "Programa" := "Cocina"; "Trimestre" := "3" ]} ];
  dias_no_laborables := {[ 5%nat; 6%nat ]};
  ambientes := [ "A1"; "A2"; "Lab" ];
  curriculo_sessions := [ sesion_algebra; sesion_redes ];
  curriculo_por_trimestre := {[ "1" := [ sesion_algebra; sesion_redes ] ]};
  horas_por_asignacion := 4;
  num_dias := 7;
  max_horas_semana := 40;
  max_dias_semana := 6;
  fecha_inicio := Some 738886;
  forzar_equidad := true
|}.

(** On each working day instructor (d + g) mod 2 takes group g. *)
Definition val_semana : Valores := fun v =>
  match v with
  | VAsig i d g =>
      if ((d <? 5) && (i =? (d + g) mod 2))%nat then 1 else 0
  | VTrabajo _ d => if (d <? 5)%nat then 1 else 0
  | VCarga _ | VMaxCarga | VMinCarga => 5
  end.

(** The same assignment with other values for the auxiliary variables. *)
Definition val_semana' : Valores := fun v =>
  match v with
  | VAsig _ _ _ => val_semana v
  | _ => 99
  end.

Definition solver_semana : CpSolver := {|
  status := OPTIMAL;
  Value := val_semana;
  WallTime := 1 # 4;
  NumConflicts := 0;
  NumBranches := 12
|}.

Definition modelo_vacio : CpModel :=
  {| variables := []; restricciones := []; minimizar := Const 0 |}.

Definition modelo_de (a : Args) : CpModel :=
  match construir_modelo a with
  | Ok m => m
  | Lanza _ => modelo_vacio
  end.

Definition filas_de (r : Resultado (list Fila)) : list Fila :=
  match r with
  | Ok filas => filas
  | Lanza _ => []
  end.

(** Three weekly hours for sessions of four. *)
Definition a_tope : Args := {|
  num_instructores := 1;
  instructores := [ {[ "Nombre" := "Ana" ]} ];
  num_grupos := 1;
  grupos := [ {[ "Ficha" := "F1" ]} ];
  dias_no_laborables := ∅;
  ambientes := [ "A1" ];
  curriculo_sessions := [];
  curriculo_por_trimestre := ∅;
  horas_por_asignacion := 4;
  num_dias := 1;
  max_horas_semana := 3;
  max_dias_semana := 6;
  fecha_inicio := Some 738886;
  forzar_equidad := true
|}.

Definition val_tope : Valores := fun v =>
  match v with
  | VAsig 0 0 0 | VTrabajo 0 0 | VCarga 0 | VMaxCarga | VMinCarga => 1
  | _ => 0
  end.

(** A week-end: Saturday 2024-01-06 and the Sunday after. *)
Definition a_sin_dias : Args := {|
  num_instructores := 1;
  instructores := [ {[ "Nombre" := "Ana" ]} ];
  num_grupos := 1;
  grupos := [ {[ "Ficha" := "F1" ]} ];
  dias_no_laborables := {[ 0%nat; 1%nat ]};
  ambientes := [ "A1" ];
  curriculo_sessions := [];
  curriculo_por_trimestre := ∅;
  horas_por_asignacion := 4;
  num_dias := 2;
  max_horas_semana := 40;
  max_dias_semana := 6;
  fecha_inicio := Some 738891;
  forzar_equidad := true
|}.

(** No group, one instructor, one working day. *)
Definition a_sin_grupos : Args := {|
  num_instructores := 1;
  instructores := [ {[ "Nombre" := "Ana" ]} ];
  num_grupos := 0;
  grupos := [];
  dias_no_laborables := ∅;
  ambientes := [ "A1" ];
  curriculo_sessions := [];
  curriculo_por_trimestre := ∅;
  horas_por_asignacion := 4;
  num_dias := 1;
  max_horas_semana := 40;
  max_dias_semana := 6;
  fecha_inicio := Some 738886;
  forzar_equidad := true
|}.


(** ** [calcular_dias_no_laborables] (lines 80-87) *)

(** The loop over the days: [acc] is the set built so far. *)
Fixpoint marcar_dias (fecha_inicio : Datetime.date) (festivos : gset Datetime.date)
    (dias : list nat) (acc : gset nat) : Resultado (gset nat) :=
  match dias with
  | [] => Ok acc
  | d :: resto =>
      fecha_dia ← Datetime.mas_dias fecha_inicio d;
      if (5 <=? Datetime.weekday fecha_dia) || bool_decide (fecha_dia ∈ festivos)
      then marcar_dias fecha_inicio festivos resto ({[ d ]} ∪ acc)
      else marcar_dias fecha_inicio festivos resto acc
  end.

Definition calcular_dias_no_laborables (fecha_inicio : Datetime.date) (num_dias : nat)
    (festivos : gset Datetime.date) : Resultado (gset nat) :=
  marcar_dias fecha_inicio festivos (seq 0 num_dias) ∅.

(** ** The end of [cargar_archivos_basic] (lines 172-176, 215-224, 250-282)

    The steps that follow the reading of the spreadsheets.  The parsed
    rows, the cleaned environment cells and the hours per session (lines
    226-245, float arithmetic on text) are taken as they come. *)

(** Lines 173-176: [ambientes_limpios] holds [safe_text(x, default=None)]
    of each cell; empty values are dropped and an empty list is replaced. *)
Definition ambientes_cargados (ambientes_limpios : list (option string)) : list string :=
  let ambientes :=
    omap (fun a => match a with
                   | Some s => if String.eqb s "" then None else Some s
                   | None => None
                   end) ambientes_limpios in
  match ambientes with
  | [] => [ "Aula General" ]
  | _ => ambientes
  end.

(** Lines 215-224: the session used when the curriculum is empty. *)
Definition sesion_clase_general : Dict :=
  list_to_map
    [ ("asignatura", "Clase General"); ("competencia", "N/A");
      ("resultados", "N/A"); ("hora_inicio", "08:00"); ("hora_fin", "12:00");
      ("trimestre", "1") ].

Definition sesiones_cargadas (curriculo_sessions : list Dict) : list Dict :=
  match curriculo_sessions with
  | [] => [ sesion_clase_general ]
  | _ => curriculo_sessions
  end.

(** Lines 250-254: the sessions grouped by trimester key, with
    [setdefault(tri_key, []).append(sess)]. *)
Definition tri_key (sess : Dict) : string := default "1" (sess !! "trimestre").

Definition agrupar_por_trimestre (curriculo_sessions : list Dict)
  : gmap string (list Dict) :=
  fold_left
    (fun (curriculo_por_trimestre : gmap string (list Dict)) sess =>
       <[ tri_key sess :=
            default [] (curriculo_por_trimestre !! tri_key sess) ++ [sess] ]>
         curriculo_por_trimestre)
    curriculo_sessions ∅.

Definition del_trimestre (k : string) (sess : Dict) : bool := String.eqb (tri_key sess) k.

(** The dict the function returns. *)
Record Datos : Type := {
  d_num_instructores : nat;
  d_instructores : list Dict;
  d_num_grupos : nat;
  d_grupos : list Dict;
  d_ambientes : list string;
  d_curriculo_sessions : list Dict;
  d_curriculo_por_trimestre : gmap string (list Dict);
  d_horas_por_asignacion : Z
}.

(** Lines 259-282: [None] is returned for no group or no instructor. *)
Definition datos_cargados (grupos instructores : list Dict)
    (ambientes_limpios : list (option string)) (curriculo_sessions : list Dict)
    (horas_por_asignacion : Z) : option Datos :=
  let ambientes := ambientes_cargados ambientes_limpios in
  let curriculo_sessions := sesiones_cargadas curriculo_sessions in
  let curriculo_por_trimestre := agrupar_por_trimestre curriculo_sessions in
  let num_grupos := length grupos in
  let num_instructores := length instructores in
  if (num_grupos =? 0)%nat || (num_instructores =? 0)%nat then None
  else Some {| d_num_instructores := num_instructores;
               d_instructores := instructores;
               d_num_grupos := num_grupos;
               d_grupos := grupos;
               d_ambientes := ambientes;
               d_curriculo_sessions := curriculo_sessions;
               d_curriculo_por_trimestre := curriculo_por_trimestre;
               d_horas_por_asignacion := horas_por_asignacion |}.

(** ** The caller (lines 689-747) *)

(** Lines 725-740: the arguments the button passes to the engine. *)
Definition argumentos (datos : Datos) (dias_no_laborables : gset nat)
    (fecha_inicio : Datetime.date) (num_dias : nat)
    (max_horas_semana max_dias_semana : Z) (forzar_equidad : bool) : Args := {|
  num_instructores := d_num_instructores datos;
  instructores := d_instructores datos;
  num_grupos := d_num_grupos datos;
  grupos := d_grupos datos;
  dias_no_laborables := dias_no_laborables;
  ambientes := d_ambientes datos;
  curriculo_sessions := d_curriculo_sessions datos;
  curriculo_por_trimestre := d_curriculo_por_trimestre datos;
  horas_por_asignacion := d_horas_por_asignacion datos;
  num_dias := num_dias;
  max_horas_semana := max_horas_semana;
  max_dias_semana := max_dias_semana;
  fecha_inicio := Some fecha_inicio;
  forzar_equidad := forzar_equidad
|}.

(** [f + datetime.timedelta(days=dias)] for any number of days *)
Definition mas_timedelta (f : Datetime.date) (dias : Z) : Resultado Datetime.date :=
  if Datetime.valida (f + dias) then Ok (f + dias) else Lanza OverflowError.

(** Lines 689-740, for the holidays [festivos] that were fetched (the
    empty set when the fetch failed): the date after the horizon is
    computed for its year (line 689), then the non-working days (line
    698) and the last date of the horizon (line 721), and the engine is
    called.  The statements that only display values are left out. *)
Definition generar_desde_datos (datos : Datos) (festivos : gset Datetime.date)
    (fecha_inicio : Datetime.date) (num_dias : nat)
    (max_horas_semana max_dias_semana : Z) (forzar_equidad : bool) : Ejecucion :=
  match (_ ← mas_timedelta fecha_inicio (Z.of_nat num_dias);
         dias_no_laborables ← calcular_dias_no_laborables fecha_inicio num_dias festivos;
         _ ← mas_timedelta fecha_inicio (Z.of_nat num_dias - 1);
         Ok dias_no_laborables) with
  | Lanza e => Aborta e
  | Ok dias_no_laborables =>
      generar_horario_optimo fecha_inicio
        (argumentos datos dias_no_laborables fecha_inicio num_dias
                    max_horas_semana max_dias_semana forzar_equidad)
  end.

(** [stats[clave]] *)
Definition subindice (stats : gmap string Valor) (clave : string) : Resultado Valor :=
  match stats !! clave with
  | Some v => Ok v
  | None => Lanza KeyError
  end.

(** Lines 745-747: the three values the page reads from [stats] right
    after the call. *)
Definition metricas_del_solver (stats : gmap string Valor)
  : Resultado (Valor * Valor * Valor) :=
  tiempo ← subindice stats "tiempo_solver";
  conflictos ← subindice stats "conflictos";
  ramas ← subindice stats "ramas";
  Ok (tiempo, conflictos, ramas).

(** ** Further vocabulary *)


(** The days of week [w] on which instructor [i] teaches. *)
Definition dias_con_clase (a : Args) (val : Valores) (i w : nat) : list nat :=
  List.filter (fun d => 1 <=? suma val (asignaciones_dia a i d))
              (rango (dia_inicio w) (dia_fin a w)).

(** The load of instructor [i]: the number of its assignments. *)
Definition carga_de (a : Args) (val : Valores) (i : nat) : Z :=
  suma val (total_instructor a i).

(** ** Further sample inputs *)

(** New Year's Day 2024, the Monday on which the sample week starts. *)
Definition festivos_enero : gset Datetime.date := {[ 738886 ]}.

Definition sesion_cocina : Dict :=
  {[ "asignatura" := "Cocina"; "trimestre" := "3" ]}.


(** One day, one instructor, one group and no environment. *)
Definition a_sin_ambientes : Args := {|
  num_instructores := 1;
  instructores := [ {[ "Nombre" := "Ana" ]} ];
  num_grupos := 1;
  grupos := [ {[ "Ficha" := "F1" ]} ];
  dias_no_laborables := ∅;
  ambientes := [];
  curriculo_sessions := [];
  curriculo_por_trimestre := ∅;
  horas_por_asignacion := 4;
  num_dias := 1;
  max_horas_semana := 40;
  max_dias_semana := 6;
  fecha_inicio := Some 738886;
  forzar_equidad := true
|}.

Definition solver_tope : CpSolver := {|
  status := OPTIMAL;
  Value := val_tope;
  WallTime := 1 # 100;
  NumConflicts := 0;
  NumBranches := 1
|}.

(** The cells of a column of environments: two names, a missing value
    and an empty text. *)
Definition ambientes_leidos : list (option string) :=
  [ Some "A1"; None; Some ""; Some "Lab" ].

(** One Monday with two groups for one instructor. *)
Definition a_dos_grupos : Args := {|
  num_instructores := 1;
  instructores := [ {[ "Nombre" := "Ana" ]} ];
  num_grupos := 2;
  grupos := [ {[ "Ficha" := "F1" ]}; {[ "Ficha" := "F2" ]} ];
  dias_no_laborables := ∅;
  ambientes := [ "A1" ];
  curriculo_sessions := [];
  curriculo_por_trimestre := ∅;
  horas_por_asignacion := 4;
  num_dias := 1;
  max_horas_semana := 40;
  max_dias_semana := 6;
  fecha_inicio := Some 738886;
  forzar_equidad := true
|}.

Definition solver_infactible : CpSolver := {|
  status := INFEASIBLE;
  Value := val_cero;
  WallTime := 1 # 100;
  NumConflicts := 1;
  NumBranches := 0
|}.

(** * Properties *)

(** ** Dates *)

Example strftime_2024_02_29 : Datetime.strftime_Ymd 738945 = "2024-02-29".
Proof. reflexivity. Qed.

Example strftime_0001_01_01 : Datetime.strftime_Ymd 1 = "1-01-01".
Proof. reflexivity. Qed.

Example strftime_9999_12_31 : Datetime.strftime_Ymd 3652059 = "9999-12-31".
Proof. reflexivity. Qed.

Example dia_semana_2000_02_29 : get_dia_semana 730179 = "Martes".
Proof. reflexivity. Qed.

(** ** Loops that may raise *)

Lemma ligar_inv {A B : Type} (r : Resultado A) (f : A -> Resultado B) y :
  r ≫= f = Ok y -> exists x, r = Ok x /\ f x = Ok y.
Proof. destruct r as [x|e]; [|discriminate]. intros H. exists x. auto. Qed.

Lemma ligar_Ok {A B : Type} (x : A) (f : A -> Resultado B) : Ok x ≫= f = f x.
Proof. reflexivity. Qed.

Lemma recorrer_cons {A B : Type} (f : A -> Resultado (list B)) x l :
  recorrer f (x :: l) = (ys ← f x; zs ← recorrer f l; Ok (ys ++ zs)).
Proof. reflexivity. Qed.

Lemma recorrer_total {A B : Type} (f : A -> Resultado (list B)) (h : A -> list B) l :
  (forall x, In x l -> f x = Ok (h x)) ->
  recorrer f l = Ok (flat_map h l).
Proof.
  induction l as [|x l IH]; intros Hf; [reflexivity|].
  rewrite recorrer_cons, (Hf x) by (left; reflexivity).
  rewrite IH by (intros y Hy; apply Hf; right; exact Hy).
  reflexivity.
Qed.

Lemma recorrer_ext {A B : Type} (f f' : A -> Resultado (list B)) l :
  (forall x, In x l -> f x = f' x) ->
  recorrer f l = recorrer f' l.
Proof.
  induction l as [|x l IH]; intros Hf; [reflexivity|].
  rewrite !recorrer_cons, (Hf x) by (left; reflexivity).
  rewrite IH by (intros y Hy; apply Hf; right; exact Hy).
  reflexivity.
Qed.

Lemma recorrer_inv {A B : Type} (f : A -> Resultado (list B)) l out :
  recorrer f l = Ok out ->
  (forall x, In x l -> exists ys, f x = Ok ys) /\
  (forall y, In y out <-> exists x ys, In x l /\ f x = Ok ys /\ In y ys).
Proof.
  revert out; induction l as [|x l IH]; intros out H.
  - injection H as <-. split; [intros x []|].
    intros y; split; [intros []|intros (x & ys & [] & _)].
  - rewrite recorrer_cons in H.
    destruct (f x) as [ys|e] eqn:Hx; [|discriminate].
    destruct (recorrer f l) as [zs|e] eqn:Hl; [|discriminate].
    injection H as <-.
    destruct (IH zs eq_refl) as [IH1 IH2]. split.
    + intros x' [<-|Hin]; [exists ys; exact Hx|apply IH1, Hin].
    + intros y. rewrite in_app_iff, IH2. split.
      * intros [Hy|(x' & ys' & Hin & Hf & Hy)].
        -- exists x, ys. auto with datatypes.
        -- exists x', ys'. auto with datatypes.
      * intros (x' & ys' & [<-|Hin] & Hf & Hy).
        -- left. congruence.
        -- right. exists x', ys'. auto.
Qed.

Lemma recorrer_Forall2 {A B C : Type} (R : C -> B -> Prop)
      (f : A -> Resultado (list B)) (h : A -> list C) l out :
  recorrer f l = Ok out ->
  (forall x ys, In x l -> f x = Ok ys -> Forall2 R (h x) ys) ->
  Forall2 R (flat_map h l) out.
Proof.
  revert out; induction l as [|x l IH]; intros out H Hf.
  - injection H as <-. constructor.
  - rewrite recorrer_cons in H.
    destruct (f x) as [ys|e] eqn:Hx; [|discriminate].
    destruct (recorrer f l) as [zs|e] eqn:Hl; [|discriminate].
    injection H as <-. simpl.
    apply Forall2_app.
    + apply Hf; [left; reflexivity|exact Hx].
    + apply IH; [reflexivity|]. intros y ys' Hy. apply Hf. right; exact Hy.
Qed.

Lemma recorrer_vacio {A B : Type} (f : A -> Resultado (list B)) l :
  (forall x, In x l -> f x = Ok []) -> recorrer f l = Ok [].
Proof.
  induction l as [|x l IH]; intros Hf; [reflexivity|].
  rewrite recorrer_cons, (Hf x) by (left; reflexivity).
  rewrite IH by (intros y Hy; apply Hf; right; exact Hy).
  reflexivity.
Qed.

Lemma recorrer_existe {A B : Type} (f : A -> Resultado (list B)) l :
  (forall x, In x l -> exists ys, f x = Ok ys) -> exists out, recorrer f l = Ok out.
Proof.
  induction l as [|x l IH]; intros Hf; [exists []; reflexivity|].
  destruct (Hf x) as [ys Hys]; [left; reflexivity|].
  destruct IH as [zs Hzs]; [intros y Hy; apply Hf; right; exact Hy|].
  exists (ys ++ zs). rewrite recorrer_cons, Hys, ligar_Ok, Hzs. reflexivity.
Qed.

Lemma flat_map_vacio {A B : Type} (f : A -> list B) l :
  (forall x, In x l -> f x = []) -> flat_map f l = [].
Proof.
  induction l as [|x l IH]; intros Hf; [reflexivity|].
  simpl. rewrite (Hf x) by (left; reflexivity).
  apply IH. intros y Hy. apply Hf. right; exact Hy.
Qed.

(** ** Sums of 0/1 values *)

Lemma suma_app val vs ws : suma val (vs ++ ws) = suma val vs + suma val ws.
Proof. induction vs as [|v vs IH]; simpl; lia. Qed.

Lemma suma_no_negativa val vs :
  (forall v, In v vs -> 0 <= val v) -> 0 <= suma val vs.
Proof.
  induction vs as [|v vs IH]; intros H; simpl; [lia|].
  assert (0 <= val v) by (apply H; left; reflexivity).
  assert (0 <= suma val vs) by (apply IH; intros w Hw; apply H; right; exact Hw).
  lia.
Qed.

Lemma suma_acota val vs w :
  (forall v, In v vs -> 0 <= val v) -> In w vs -> val w <= suma val vs.
Proof.
  induction vs as [|v vs IH]; intros H Hw; [destruct Hw|].
  simpl. assert (0 <= val v) by (apply H; left; reflexivity).
  assert (Hr : forall u, In u vs -> 0 <= val u) by (intros u Hu; apply H; right; exact Hu).
  destruct Hw as [->|Hw].
  - pose proof (suma_no_negativa val vs Hr). lia.
  - specialize (IH Hr Hw). lia.
Qed.

Lemma suma_uno_existe val vs :
  (forall v, In v vs -> 0 <= val v <= 1) ->
  suma val vs = 1 -> exists v, In v vs /\ val v = 1.
Proof.
  induction vs as [|v vs IH]; intros H Hs; simpl in Hs; [lia|].
  assert (Hv : 0 <= val v <= 1) by (apply H; left; reflexivity).
  assert (Hr : forall u, In u vs -> 0 <= val u <= 1) by (intros u Hu; apply H; right; exact Hu).
  destruct (Z.eq_dec (val v) 1) as [E|E].
  - exists v. split; [left; reflexivity|exact E].
  - destruct (IH Hr) as (u & Hu & Eu); [lia|].
    exists u. split; [right; exact Hu|exact Eu].
Qed.

Lemma suma_uno_unico val vs v w :
  List.NoDup vs ->
  (forall u, In u vs -> 0 <= val u) ->
  suma val vs <= 1 ->
  In v vs -> In w vs -> val v = 1 -> val w = 1 -> v = w.
Proof.
  induction vs as [|x vs IH]; intros Hnd H Hs Hv Hw Ev Ew; [destruct Hv|].
  simpl in Hs. apply NoDup_cons_iff in Hnd as [Hx Hnd].
  assert (0 <= val x) by (apply H; left; reflexivity).
  assert (Hr : forall u, In u vs -> 0 <= val u) by (intros u Hu; apply H; right; exact Hu).
  pose proof (suma_no_negativa val vs Hr) as Hpos.
  destruct Hv as [->|Hv], Hw as [->|Hw]; try reflexivity.
  - pose proof (suma_acota val vs w Hr Hw). lia.
  - pose proof (suma_acota val vs v Hr Hv). lia.
  - apply IH; auto. lia.
Qed.

Lemma suma_ext val val' vs :
  (forall v, In v vs -> val v = val' v) -> suma val vs = suma val' vs.
Proof.
  induction vs as [|v vs IH]; intros H; simpl; [reflexivity|].
  rewrite (H v) by (left; reflexivity).
  rewrite IH by (intros u Hu; apply H; right; exact Hu). reflexivity.
Qed.

Lemma suma_cero val vs :
  (forall v, In v vs -> val v = 0) -> suma val vs = 0.
Proof.
  induction vs as [|v vs IH]; intros H; simpl; [reflexivity|].
  rewrite (H v) by (left; reflexivity).
  rewrite IH by (intros u Hu; apply H; right; exact Hu). reflexivity.
Qed.

(** ** Bounds that the model takes or refuses *)

Lemma add_sum_le_inv vs k c :
  add_sum_le vs k = Ok c ->
  c = Add (Sum vs) LE (Const k) /\ (vs = [] \/ es_int64 k = true).
Proof.
  unfold add_sum_le. destruct vs as [|v vs].
  - intros H. injection H as <-. auto.
  - destruct (es_int64 k); [|discriminate]. intros H. injection H as <-. auto.
Qed.

Lemma add_sum_le_total vs k :
  vs = [] \/ es_int64 k = true -> add_sum_le vs k = Ok (Add (Sum vs) LE (Const k)).
Proof.
  unfold add_sum_le. intros [->|E]; [reflexivity|].
  rewrite E. destruct vs; reflexivity.
Qed.

Lemma add_sum_le_Lanza vs k e :
  add_sum_le vs k = Lanza e -> e = TypeError /\ vs <> [] /\ es_int64 k = false.
Proof.
  unfold add_sum_le. destruct vs as [|v vs]; [discriminate|].
  destruct (es_int64 k); [discriminate|]. intros H. injection H as <-.
  repeat split. discriminate.
Qed.

Lemma es_int64_true k : es_int64 k = true <-> INT_MIN <= k <= INT_MAX.
Proof. unfold es_int64. rewrite andb_true_iff, !Z.leb_le. tauto. Qed.


Lemma recorrer_Ok_flat_map {A B : Type} (f : A -> Resultado (list B)) (h : A -> list B) l out :
  recorrer f l = Ok out ->
  (forall x ys, In x l -> f x = Ok ys -> ys = h x) ->
  out = flat_map h l.
Proof.
  revert out; induction l as [|x l IH]; intros out H Hf.
  - injection H as <-. reflexivity.
  - rewrite recorrer_cons in H.
    destruct (f x) as [ys|e] eqn:Hx; [|discriminate].
    destruct (recorrer f l) as [zs|e] eqn:Hl; [|discriminate].
    injection H as <-. simpl. f_equal.
    + apply Hf; [left; reflexivity|exact Hx].
    + apply IH; [reflexivity|]. intros y ys' Hy. apply Hf. right; exact Hy.
Qed.

Lemma ligar_Lanza {A B : Type} (r : Resultado A) (f : A -> Resultado B) e :
  r ≫= f = Lanza e -> r = Lanza e \/ exists x, r = Ok x /\ f x = Lanza e.
Proof.
  destruct r as [x|e']; intros H.
  - right. exists x. auto.
  - left. change (Lanza e' = Lanza e :> Resultado B) in H.
    injection H as ->. reflexivity.
Qed.

Lemma ligar_inv_Lanza {A B : Type} (f : A -> Resultado B) e :
  (Lanza e : Resultado A) ≫= f = Lanza e.
Proof. reflexivity. Qed.

Lemma recorrer_Lanza {A B : Type} (f : A -> Resultado (list B)) l e :
  recorrer f l = Lanza e -> exists x, In x l /\ f x = Lanza e.
Proof.
  induction l as [|x l IH]; [discriminate|].
  rewrite recorrer_cons. intros H.
  apply ligar_Lanza in H as [H|(ys & Hys & H)].
  - exists x. split; [left; reflexivity|exact H].
  - apply ligar_Lanza in H as [H|(zs & _ & H)]; [|discriminate].
    destruct (IH H) as (y & Hy & Hf). exists y. split; [right; exact Hy|exact Hf].
Qed.

Lemma r_semana_inv a i w cs :
  r_semana a i w = Ok cs ->
  cs = c_semana a i w /\
  (asignaciones_semana a i w = [] \/ es_int64 (max_asignaciones_semana a) = true) /\
  (dias_trabajados_semana a i w = [] \/ es_int64 (max_dias_semana a) = true).
Proof.
  unfold r_semana, c_semana, r_trabajo_dia. intros H.
  apply ligar_inv in H as (tope & Ht & H). apply add_sum_le_inv in Ht as [-> Ht].
  apply ligar_inv in H as (limite & Hl & H). injection H as <-.
  destruct (dias_trabajados_semana a i w) as [|t ts] eqn:E.
  - injection Hl as <-. auto.
  - apply ligar_inv in Hl as (c & Hc & Hl). injection Hl as <-.
    apply add_sum_le_inv in Hc as [-> Hc]. auto.
Qed.

Lemma r_semana_total a i w :
  asignaciones_semana a i w = [] \/ es_int64 (max_asignaciones_semana a) = true ->
  dias_trabajados_semana a i w = [] \/ es_int64 (max_dias_semana a) = true ->
  r_semana a i w = Ok (c_semana a i w).
Proof.
  intros H1 H2. unfold r_semana, c_semana, r_trabajo_dia.
  rewrite (add_sum_le_total _ _ H1), ligar_Ok.
  destruct (dias_trabajados_semana a i w) as [|t ts] eqn:E; [reflexivity|].
  rewrite (add_sum_le_total _ _ H2). reflexivity.
Qed.

Lemma r_semana_Lanza a i w e :
  r_semana a i w = Lanza e ->
  e = TypeError /\
  ((asignaciones_semana a i w <> [] /\ es_int64 (max_asignaciones_semana a) = false) \/
   (dias_trabajados_semana a i w <> [] /\ es_int64 (max_dias_semana a) = false)).
Proof.
  unfold r_semana. intros H.
  destruct (add_sum_le (asignaciones_semana a i w) (max_asignaciones_semana a))
    as [tope|e'] eqn:Ht.
  - rewrite ligar_Ok in H.
    destruct (dias_trabajados_semana a i w) as [|t ts] eqn:E; [discriminate|].
    destruct (add_sum_le (t :: ts) (max_dias_semana a)) as [c|e''] eqn:Hc; [discriminate|].
    change (Lanza e'' = Lanza e :> Resultado (list Ct)) in H. injection H as ->.
    apply add_sum_le_Lanza in Hc as (-> & Hne & Hk). split; [reflexivity|]. right. auto.
  - change (Lanza e' = Lanza e :> Resultado (list Ct)) in H. injection H as ->.
    apply add_sum_le_Lanza in Ht as (-> & Hne & Hk). split; [reflexivity|]. left. auto.
Qed.

Lemma r_semanales_inv a r4 : r_semanales a = Ok r4 -> r4 = c_semanales a.
Proof.
  unfold r_semanales, c_semanales. intros H.
  apply (recorrer_Ok_flat_map _ _ _ _ H). intros i ys _ Hi.
  apply (recorrer_Ok_flat_map _ _ _ _ Hi). intros w cs _ Hw.
  apply r_semana_inv in Hw as [-> _]. reflexivity.
Qed.

Lemma r_semanales_total a :
  (forall i w, (i < num_instructores a)%nat -> (w < num_semanas a)%nat ->
     r_semana a i w = Ok (c_semana a i w)) ->
  r_semanales a = Ok (c_semanales a).
Proof.
  intros H. unfold r_semanales, c_semanales.
  apply recorrer_total. intros i Hi. apply in_seq in Hi.
  apply recorrer_total. intros w Hw. apply in_seq in Hw.
  apply H; lia.
Qed.

Lemma r_semanales_Lanza a e :
  r_semanales a = Lanza e ->
  e = TypeError /\
  exists i w, (i < num_instructores a)%nat /\ (w < num_semanas a)%nat /\
    ((asignaciones_semana a i w <> [] /\ es_int64 (max_asignaciones_semana a) = false) \/
     (dias_trabajados_semana a i w <> [] /\ es_int64 (max_dias_semana a) = false)).
Proof.
  unfold r_semanales. intros H.
  apply recorrer_Lanza in H as (i & Hi & H). apply in_seq in Hi.
  apply recorrer_Lanza in H as (w & Hw & H). apply in_seq in Hw.
  apply r_semana_Lanza in H as [-> H]. split; [reflexivity|].
  exists i, w. repeat split; [lia|lia|exact H].
Qed.

(** The weekly cap is an int64 value as soon as the weekly hours are. *)
Lemma max_asignaciones_semana_int64 a :
  max_horas_semana a <= INT_MAX -> es_int64 (max_asignaciones_semana a) = true.
Proof.
  intros H. apply es_int64_true. unfold max_asignaciones_semana, horas.
  assert (Hh : 1 <= Z.max 1 (horas_por_asignacion a)) by lia.
  set (h := Z.max 1 (horas_por_asignacion a)) in *.
  assert (Hq : max_horas_semana a / h <= INT_MAX).
  { destruct (Z.le_gt_cases 0 (max_horas_semana a)) as [Hp|Hn].
    - pose proof (Z.div_le_upper_bound (max_horas_semana a) h (max_horas_semana a)
                    ltac:(lia) ltac:(nia)). lia.
    - pose proof (Z.div_lt_upper_bound (max_horas_semana a) h 0 ltac:(lia) ltac:(lia)).
      unfold INT_MAX. lia. }
  unfold INT_MIN, INT_MAX in *. lia.
Qed.

(** With limits in the int64 range no [Add] is refused. *)
Lemma r_semanales_int64 a :
  max_horas_semana a <= INT_MAX ->
  INT_MIN <= max_dias_semana a <= INT_MAX ->
  r_semanales a = Ok (c_semanales a).
Proof.
  intros Hh Hd. apply r_semanales_total. intros i w _ _.
  apply r_semana_total; right.
  - apply max_asignaciones_semana_int64, Hh.
  - apply es_int64_true, Hd.
Qed.

(** ** The shape of the model *)

Section HechosDelModelo.

Variable a : Args.

#[local] Abbreviation ni := (num_instructores a).
#[local] Abbreviation ng := (num_grupos a).
#[local] Abbreviation nd := (num_dias a).

Lemma construir_modelo_inv m :
  construir_modelo a = Ok m ->
  exists r1, r_no_laborables a = Ok r1 /\
    variables m =
      vars_asignacion a ++ vars_trabajo a ++ vars_carga a
      ++ [ NewIntVar 0 (total_asignaciones a) VMaxCarga;
           NewIntVar 0 (total_asignaciones a) VMinCarga ] /\
    restricciones m =
      r1 ++ r_cobertura a ++ r_exclusividad a ++ c_semanales a
      ++ r_equidad a ++ r_carga a ++ r_extremos a /\
    minimizar m = Minus VMaxCarga VMinCarga.
Proof.
  unfold construir_modelo. intros H.
  destruct (r_no_laborables a) as [r1|e]; [|discriminate].
  rewrite ligar_Ok in H.
  destruct (r_semanales a) as [r4|e] eqn:H4; [|discriminate].
  apply r_semanales_inv in H4 as ->.
  injection H as <-. exists r1. repeat split.
Qed.

Lemma es_solucion_true m val :
  es_solucion m val = true <->
  (forall x, In x (variables m) -> en_dominio val x = true) /\
  (forall c, In c (restricciones m) -> cumple val c = true).
Proof.
  unfold es_solucion. rewrite andb_true_iff, !forallb_forall. reflexivity.
Qed.

Lemma asignacion_en_rango i d g :
  (i < ni)%nat -> (d < nd)%nat -> (g < ng)%nat ->
  asignacion a i d g = Ok (VAsig i d g).
Proof.
  intros Hi Hd Hg. unfold asignacion.
  apply Nat.ltb_lt in Hi, Hd, Hg. rewrite Hi, Hd, Hg. reflexivity.
Qed.

Lemma asignacion_inv i d g v :
  asignacion a i d g = Ok v -> v = VAsig i d g /\ (d < nd)%nat.
Proof.
  unfold asignacion.
  destruct (i <? ni)%nat; [|discriminate].
  destruct (d <? nd)%nat eqn:Hd; [|discriminate].
  destruct (g <? ng)%nat; [|discriminate].
  simpl. intros H. injection H as <-. apply Nat.ltb_lt in Hd. auto.
Qed.

(** The first family exists as soon as no key can be missed. *)
Lemma r_no_laborables_total :
  ni = 0%nat \/ ng = 0%nat \/
  (forall d, d ∈ dias_no_laborables a -> (d < nd)%nat) ->
  exists r1, r_no_laborables a = Ok r1.
Proof.
  intros H. unfold r_no_laborables.
  destruct H as [H|[H|H]].
  - exists []. apply recorrer_vacio.
    intros d _. apply recorrer_vacio.
    intros g _. rewrite H. reflexivity.
  - exists []. apply recorrer_vacio.
    intros d _. rewrite H. reflexivity.
  - eexists.
    apply recorrer_total with
      (h := fun d => flat_map (fun g => flat_map (fun i =>
              [Add (Ref (VAsig i d g)) EQ (Const 0)]) (seq 0 ni)) (seq 0 ng)).
    intros d Hd. apply list_elem_of_In, elem_of_elements, H in Hd.
    apply recorrer_total. intros g Hg. apply in_seq in Hg.
    apply recorrer_total. intros i Hi. apply in_seq in Hi.
    rewrite asignacion_en_rango by lia. reflexivity.
Qed.

Lemma r_no_laborables_contiene r1 i d g :
  r_no_laborables a = Ok r1 ->
  d ∈ dias_no_laborables a -> (i < ni)%nat -> (g < ng)%nat ->
  In (Add (Ref (VAsig i d g)) EQ (Const 0)) r1 /\ (d < nd)%nat.
Proof.
  unfold r_no_laborables. intros H Hd Hi Hg.
  apply recorrer_inv in H as [Hd1 Hd2].
  destruct (Hd1 d) as [ysd Eysd]; [apply list_elem_of_In, elem_of_elements, Hd|].
  pose proof Eysd as Eysd'.
  apply recorrer_inv in Eysd as [Hg1 Hg2].
  destruct (Hg1 g) as [ysg Eysg]; [apply in_seq; lia|].
  pose proof Eysg as Eysg'.
  apply recorrer_inv in Eysg as [Hi1 Hi2].
  destruct (Hi1 i) as [ysi Eysi]; [apply in_seq; lia|].
  destruct (asignacion a i d g) as [v|e] eqn:Ev; [|discriminate].
  apply asignacion_inv in Ev as [-> Hnd].
  injection Eysi as <-.
  split; [|exact Hnd].
  apply Hd2. exists d, ysd. split; [apply list_elem_of_In, elem_of_elements, Hd|].
  split; [exact Eysd'|].
  apply Hg2. exists g, ysg. split; [apply in_seq; lia|]. split; [exact Eysg'|].
  apply Hi2. exists i, [Add (Ref (VAsig i d g)) EQ (Const 0)].
  split; [apply in_seq; lia|]. split; [|left; reflexivity].
  rewrite asignacion_en_rango by lia. reflexivity.
Qed.

Lemma no_laborable_true d : no_laborable a d = true <-> d ∈ dias_no_laborables a.
Proof. unfold no_laborable. apply bool_decide_eq_true. Qed.

Lemma no_laborable_false d : no_laborable a d = false <-> d ∉ dias_no_laborables a.
Proof. unfold no_laborable. apply bool_decide_eq_false. Qed.

(** *** What a solution of the model satisfies *)

Variable m : CpModel.
Variable val : Valores.
Hypothesis Hm : construir_modelo a = Ok m.
Hypothesis Hsol : es_solucion m val = true.

Lemma sol_restriccion c :
  (exists r1, r_no_laborables a = Ok r1 /\ In c r1) \/
  In c (r_cobertura a) \/ In c (r_exclusividad a) \/ In c (c_semanales a) \/
  In c (r_equidad a) \/ In c (r_carga a) \/ In c (r_extremos a) ->
  cumple val c = true.
Proof.
  destruct (construir_modelo_inv m Hm) as (r1 & Hr1 & _ & Hcs & _).
  apply es_solucion_true in Hsol as [_ Hall].
  intros H. apply Hall. rewrite Hcs, !in_app_iff.
  destruct H as [(r1' & Hr1' & Hin)|H]; [|tauto].
  left. congruence.
Qed.

Lemma sol_dominio_asignacion i d g :
  (i < ni)%nat -> (d < nd)%nat -> (g < ng)%nat ->
  0 <= val (VAsig i d g) <= 1.
Proof.
  intros Hi Hd Hg.
  destruct (construir_modelo_inv m Hm) as (r1 & _ & Hvs & _).
  apply es_solucion_true in Hsol as [Hdom _].
  specialize (Hdom (NewBoolVar (VAsig i d g))).
  simpl in Hdom. rewrite andb_true_iff, !Z.leb_le in Hdom. apply Hdom.
  rewrite Hvs, in_app_iff. left. unfold vars_asignacion.
  apply in_flat_map. exists i. split; [apply in_seq; lia|].
  apply in_flat_map. exists d. split; [apply in_seq; lia|].
  apply in_map_iff. exists g. split; [reflexivity|apply in_seq; lia].
Qed.

Lemma sol_no_laborable i d g :
  d ∈ dias_no_laborables a -> (i < ni)%nat -> (g < ng)%nat ->
  val (VAsig i d g) = 0.
Proof.
  intros Hd Hi Hg.
  destruct (construir_modelo_inv m Hm) as (r1 & Hr1 & _).
  destruct (r_no_laborables_contiene r1 i d g Hr1 Hd Hi Hg) as [Hin _].
  assert (H : cumple val (Add (Ref (VAsig i d g)) EQ (Const 0)) = true).
  { apply sol_restriccion. left. exists r1. auto. }
  simpl in H. apply Z.eqb_eq in H. exact H.
Qed.

Lemma sol_cobertura d g :
  (d < nd)%nat -> d ∉ dias_no_laborables a -> (g < ng)%nat ->
  suma val (map (fun i => VAsig i d g) (seq 0 ni)) = 1.
Proof.
  intros Hd Hw Hg.
  assert (H : cumple val (AddExactlyOne (map (fun i => VAsig i d g) (seq 0 ni))) = true).
  { apply sol_restriccion. right; left. unfold r_cobertura.
    apply in_flat_map. exists d. split; [apply in_seq; lia|].
    apply no_laborable_false in Hw. rewrite Hw.
    apply in_map_iff. exists g. split; [reflexivity|apply in_seq; lia]. }
  simpl in H. apply Z.eqb_eq in H. exact H.
Qed.

Lemma sol_exclusividad i d :
  (i < ni)%nat -> (d < nd)%nat ->
  suma val (asignaciones_dia a i d) <= 1.
Proof.
  intros Hi Hd.
  assert (H : cumple val (AddAtMostOne (asignaciones_dia a i d)) = true).
  { apply sol_restriccion. right; right; left. unfold r_exclusividad.
    apply in_flat_map. exists i. split; [apply in_seq; lia|].
    apply in_map_iff. exists d. split; [reflexivity|apply in_seq; lia]. }
  simpl in H. apply Z.leb_le in H. exact H.
Qed.

Lemma sol_tope_semanal i w :
  (i < ni)%nat -> (w < num_semanas a)%nat ->
  suma val (asignaciones_semana a i w) <= max_asignaciones_semana a.
Proof.
  intros Hi Hw.
  assert (H : cumple val (Add (Sum (asignaciones_semana a i w)) LE
                              (Const (max_asignaciones_semana a))) = true).
  { apply sol_restriccion. do 3 right; left. unfold c_semanales.
    apply in_flat_map. exists i. split; [apply in_seq; lia|].
    apply in_flat_map. exists w. split; [apply in_seq; lia|].
    left. reflexivity. }
  simpl in H. apply Z.leb_le in H. exact H.
Qed.

Lemma sol_equidad i :
  forzar_equidad a = true -> (i < ni)%nat ->
  Z.max 0 (min_asign_por_inst a - margen a) <= suma val (total_instructor a i)
  /\ suma val (total_instructor a i) <= max_asign_por_inst a + margen a.
Proof.
  intros Hf Hi.
  assert (Hin : forall c,
    In c [ Add (Sum (total_instructor a i)) GE
               (Const (Z.max 0 (min_asign_por_inst a - margen a)));
           Add (Sum (total_instructor a i)) LE
               (Const (max_asign_por_inst a + margen a)) ] ->
    cumple val c = true).
  { intros c Hc. apply sol_restriccion. do 4 right; left. unfold r_equidad.
    apply in_flat_map. exists i. split; [apply in_seq; lia|].
    rewrite Hf. replace (0 <? ni)%nat with true by (symmetry; apply Nat.ltb_lt; lia).
    exact Hc. }
  split.
  - specialize (Hin _ (or_introl eq_refl)). simpl in Hin. apply Z.leb_le in Hin. exact Hin.
  - specialize (Hin _ (or_intror (or_introl eq_refl))). simpl in Hin.
    apply Z.leb_le in Hin. exact Hin.
Qed.

Lemma sol_carga i :
  (i < ni)%nat -> val (VCarga i) = suma val (total_instructor a i).
Proof.
  intros Hi.
  assert (H : cumple val (Add (Ref (VCarga i)) EQ (Sum (total_instructor a i))) = true).
  { apply sol_restriccion. do 5 right; left. unfold r_carga.
    apply in_map_iff. exists i. split; [reflexivity|apply in_seq; lia]. }
  simpl in H. apply Z.eqb_eq in H. exact H.
Qed.

End HechosDelModelo.

(** When every non-working day lies in the horizon, [dias_laborables]
    counts the working days. *)
Lemma dias_laborables_cuenta a :
  (forall d, d ∈ dias_no_laborables a -> (d < num_dias a)%nat) ->
  dias_laborables a = Z.of_nat (length (dias_habiles a)).
Proof.
  intros Hsub. unfold dias_laborables, dias_habiles.
  pose proof (filter_length (no_laborable a) (seq 0 (num_dias a))) as Hlen.
  rewrite length_seq in Hlen.
  assert (Hperm : elements (dias_no_laborables a)
                  ≡ₚ List.filter (no_laborable a) (seq 0 (num_dias a))).
  { apply NoDup_Permutation.
    - apply NoDup_elements.
    - apply NoDup_ListNoDup, List.NoDup_filter, seq_NoDup.
    - intros d. rewrite elem_of_elements, list_elem_of_In, filter_In, in_seq.
      rewrite no_laborable_true. split; [|tauto].
      intros Hd. specialize (Hsub d Hd). split; [lia|exact Hd]. }
  apply Permutation_length in Hperm.
  change (size (dias_no_laborables a)) with (length (elements (dias_no_laborables a))).
  lia.
Qed.

(** The model can only be built with instructors and groups when the
    non-working days lie in the horizon; the expected total is then the
    number of groups times the number of working days, as it is without
    any group. *)
Lemma total_asignaciones_habiles a m :
  construir_modelo a = Ok m ->
  (0 < num_instructores a)%nat ->
  total_asignaciones a = Z.of_nat (num_grupos a) * Z.of_nat (length (dias_habiles a)).
Proof.
  intros Hm Hni. unfold total_asignaciones.
  destruct (num_grupos a) as [|g'] eqn:Hng; [reflexivity|].
  rewrite dias_laborables_cuenta; [reflexivity|].
  intros d Hd.
  destruct (construir_modelo_inv a m Hm) as (r1 & Hr1 & _).
  apply (r_no_laborables_contiene a r1 0 d 0 Hr1 Hd); lia.
Qed.

(** ** When the model is built *)

(** [dias_laborables] never counts more than the working days of the
    horizon: indices outside the horizon only lower it. *)
Lemma dias_laborables_cota a :
  dias_laborables a <= Z.of_nat (length (dias_habiles a)).
Proof.
  unfold dias_laborables, dias_habiles.
  pose proof (filter_length (no_laborable a) (seq 0 (num_dias a))) as Hlen.
  rewrite length_seq in Hlen.
  assert (Hle : (length (List.filter (no_laborable a) (seq 0 (num_dias a)))
                 <= length (elements (dias_no_laborables a)))%nat).
  { apply NoDup_incl_length; [apply List.NoDup_filter, seq_NoDup|].
    intros d Hd. apply filter_In in Hd as [_ Hd].
    apply no_laborable_true in Hd. apply list_elem_of_In, elem_of_elements, Hd. }
  change (size (dias_no_laborables a)) with (length (elements (dias_no_laborables a))).
  lia.
Qed.

Lemma dias_habiles_In a d :
  In d (dias_habiles a) <-> (d < num_dias a)%nat /\ d ∉ dias_no_laborables a.
Proof.
  unfold dias_habiles. rewrite filter_In, in_seq, negb_true_iff, no_laborable_false.
  split; intros [H1 H2]; split; auto; lia.
Qed.

Lemma hay_dia_habil a :
  0 < dias_laborables a ->
  exists d, (d < num_dias a)%nat /\ d ∉ dias_no_laborables a.
Proof.
  intros H. pose proof (dias_laborables_cota a) as Hc.
  destruct (dias_habiles a) as [|d l] eqn:E; [simpl in Hc; lia|].
  exists d. apply dias_habiles_In. rewrite E. left. reflexivity.
Qed.

Lemma semana_de_un_dia a d :
  (d < num_dias a)%nat ->
  (d / 7 < num_semanas a)%nat /\ In d (rango (dia_inicio (d / 7)) (dia_fin a (d / 7))).
Proof.
  intros Hd. unfold num_semanas, rango, dia_inicio, dia_fin, dia_inicio.
  pose proof (Nat.div_mod_eq d 7) as E.
  pose proof (Nat.mod_upper_bound d 7 ltac:(lia)) as Hlt.
  split.
  - apply Nat.Div0.div_lt_upper_bound.
    pose proof (Nat.div_mod_eq (num_dias a + 6) 7).
    pose proof (Nat.mod_upper_bound (num_dias a + 6) 7 ltac:(lia)). lia.
  - apply in_seq. lia.
Qed.

(** A horizon with a working day has a week with a working day. *)
Lemma hay_semana_habil a :
  0 < dias_laborables a ->
  exists w, (w < num_semanas a)%nat /\ laborables_semana a w <> [].
Proof.
  intros H. destruct (hay_dia_habil a H) as (d & Hd & Hw).
  destruct (semana_de_un_dia a d Hd) as [Hw7 Hin].
  exists (d / 7)%nat. split; [exact Hw7|].
  assert (Hl : In d (laborables_semana a (d / 7))).
  { unfold laborables_semana. apply filter_In. split; [exact Hin|].
    apply negb_true_iff, no_laborable_false, Hw. }
  intros E. rewrite E in Hl. destruct Hl.
Qed.

Lemma construir_modelo_existe a :
  (exists r1, r_no_laborables a = Ok r1) ->
  r_semanales a = Ok (c_semanales a) ->
  exists m, construir_modelo a = Ok m.
Proof.
  intros [r1 Hr1] H4. unfold construir_modelo.
  rewrite Hr1, ligar_Ok, H4, ligar_Ok. eexists. reflexivity.
Qed.

Lemma construir_modelo_Lanza a e :
  construir_modelo a = Lanza e ->
  r_no_laborables a = Lanza e \/
  ((exists r1, r_no_laborables a = Ok r1) /\ r_semanales a = Lanza e).
Proof.
  unfold construir_modelo. intros H.
  destruct (r_no_laborables a) as [r1|e1].
  2:{ left. change (Lanza e1 = Lanza e :> Resultado CpModel) in H.
      injection H as ->. reflexivity. }
  rewrite ligar_Ok in H. right. split; [exists r1; reflexivity|].
  destruct (r_semanales a) as [r4|e4]; [discriminate|].
  change (Lanza e4 = Lanza e :> Resultado CpModel) in H. injection H as ->. reflexivity.
Qed.

(** With limits in the int64 range the model is built as soon as the
    dict [asignacion] is read at keys it has. *)
Lemma construir_modelo_int64 a :
  (exists r1, r_no_laborables a = Ok r1) ->
  max_horas_semana a <= INT_MAX ->
  INT_MIN <= max_dias_semana a <= INT_MAX ->
  exists m, construir_modelo a = Ok m.
Proof.
  intros Hr1 Hh Hd. apply construir_modelo_existe; [exact Hr1|].
  apply r_semanales_int64; assumption.
Qed.

Lemma r_semanales_Ok_inv a r4 i w :
  r_semanales a = Ok r4 ->
  (i < num_instructores a)%nat -> (w < num_semanas a)%nat ->
  exists cs, r_semana a i w = Ok cs.
Proof.
  unfold r_semanales. intros H Hi Hw.
  apply recorrer_inv in H as [H _].
  destruct (H i) as [ys Hys]; [apply in_seq; lia|].
  apply recorrer_inv in Hys as [Hys _].
  apply Hys. apply in_seq. lia.
Qed.

Lemma construir_modelo_semanales a m :
  construir_modelo a = Ok m -> r_semanales a = Ok (c_semanales a).
Proof.
  unfold construir_modelo. intros H.
  apply ligar_inv in H as (r1 & _ & H). apply ligar_inv in H as (r4 & H4 & _).
  rewrite H4. f_equal. apply r_semanales_inv, H4.
Qed.

Lemma construir_modelo_semana a m i w :
  construir_modelo a = Ok m ->
  (i < num_instructores a)%nat -> (w < num_semanas a)%nat ->
  (asignaciones_semana a i w = [] \/ es_int64 (max_asignaciones_semana a) = true) /\
  (dias_trabajados_semana a i w = [] \/ es_int64 (max_dias_semana a) = true).
Proof.
  intros Hm Hi Hw. apply construir_modelo_semanales in Hm.
  destruct (r_semanales_Ok_inv a _ i w Hm Hi Hw) as [cs Hcs].
  apply r_semana_inv in Hcs as (_ & H1 & H2). auto.
Qed.

Lemma sin_grupos_asignaciones_semana a i w :
  num_grupos a = 0%nat -> asignaciones_semana a i w = [].
Proof.
  intros H. unfold asignaciones_semana, asignaciones_dia. rewrite H.
  apply flat_map_vacio. reflexivity.
Qed.

Lemma sin_instructores_r_semanales a :
  num_instructores a = 0%nat -> r_semanales a = Ok (c_semanales a).
Proof. intros H. unfold r_semanales, c_semanales. rewrite H. reflexivity. Qed.

Lemma sin_grupos_r_semanales a :
  num_grupos a = 0%nat ->
  INT_MIN <= max_dias_semana a <= INT_MAX ->
  r_semanales a = Ok (c_semanales a).
Proof.
  intros Hg Hd. apply r_semanales_total. intros i w _ _.
  apply r_semana_total.
  - left. apply sin_grupos_asignaciones_semana, Hg.
  - right. apply es_int64_true, Hd.
Qed.

(** A limit of days outside int64 is refused as soon as there is an
    instructor and a working day. *)
Lemma r_semanales_limite_rechazado a :
  (1 <= num_instructores a)%nat -> 0 < dias_laborables a ->
  ~ INT_MIN <= max_dias_semana a <= INT_MAX ->
  (num_grupos a = 0%nat \/ max_horas_semana a <= INT_MAX) ->
  r_semanales a = Lanza TypeError.
Proof.
  intros Hi Hdl Hd _.
  destruct (r_semanales a) as [r4|e] eqn:H4.
  - exfalso. destruct (hay_semana_habil a Hdl) as (w & Hw & Hne).
    destruct (r_semanales_Ok_inv a r4 0 w H4 ltac:(lia) Hw) as [cs Hcs].
    apply r_semana_inv in Hcs as (_ & _ & [E|E]).
    + unfold dias_trabajados_semana in E. apply map_eq_nil in E. contradiction.
    + apply es_int64_true in E. contradiction.
  - apply r_semanales_Lanza in H4 as [-> _]. reflexivity.
Qed.

Lemma generar_resuelve hoy a m :
  0 < dias_laborables a -> construir_modelo a = Ok m ->
  generar_horario_optimo hoy a = Resuelve m (tras_resolver a (default hoy (fecha_inicio a))).
Proof.
  intros Hd Hm. unfold generar_horario_optimo. rewrite Hm.
  replace (dias_laborables a <=? 0) with false by (symmetry; apply Z.leb_gt; lia).
  reflexivity.
Qed.

Lemma generar_aborta hoy a e :
  0 < dias_laborables a -> construir_modelo a = Lanza e ->
  generar_horario_optimo hoy a = Aborta e.
Proof.
  intros Hd Hm. unfold generar_horario_optimo. rewrite Hm.
  replace (dias_laborables a <=? 0) with false by (symmetry; apply Z.leb_gt; lia).
  reflexivity.
Qed.

Lemma generar_aborta_inv hoy a e :
  generar_horario_optimo hoy a = Aborta e ->
  0 < dias_laborables a /\ construir_modelo a = Lanza e.
Proof.
  unfold generar_horario_optimo.
  destruct (dias_laborables a <=? 0) eqn:E; [discriminate|]. apply Z.leb_gt in E.
  destruct (construir_modelo a) as [m|e']; [discriminate|].
  intros H. injection H as ->. auto.
Qed.

(** ** The cells of the rows *)

Lemma NoDup_flat_map_separados {A B : Type} (f : A -> list B) l :
  List.NoDup l ->
  (forall x, In x l -> List.NoDup (f x)) ->
  (forall x y z, In x l -> In y l -> In z (f x) -> In z (f y) -> x = y) ->
  List.NoDup (flat_map f l).
Proof.
  induction l as [|x l IH]; intros Hl Hf Hsep; simpl; [constructor|].
  apply NoDup_cons_iff in Hl as [Hx Hl].
  apply List.NoDup_app.
  - apply Hf. left; reflexivity.
  - apply IH; [exact Hl| |].
    + intros y Hy. apply Hf. right; exact Hy.
    + intros y y' z Hy Hy'. apply Hsep; right; assumption.
  - intros z Hz Hz'. apply in_flat_map in Hz' as (y & Hy & Hzy).
    apply Hx. rewrite (Hsep x y z); auto with datatypes.
Qed.

Lemma Forall2_permutado {A B : Type} (R : A -> B -> Prop) (l2 l2' : list B) :
  Permutation l2 l2' ->
  forall l1, Forall2 R l1 l2 ->
  exists l1', Permutation l1 l1' /\ Forall2 R l1' l2'.
Proof.
  induction 1 as [|y l2 l2' _ IH|y z l2|l2 l2' l2'' _ IH1 _ IH2]; intros l1 H.
  - inversion H; subst. exists []. split; constructor.
  - inversion H as [|x ? l1t ? Hx Ht]; subst.
    destruct (IH l1t Ht) as (l1' & Hp & Hf).
    exists (x :: l1'). split; constructor; assumption.
  - inversion H as [|x ? l1t ? Hx Ht]; subst.
    inversion Ht as [|x' ? l1u ? Hx' Hu]; subst.
    exists (x' :: x :: l1u). split; [apply perm_swap|].
    repeat constructor; assumption.
  - destruct (IH1 l1 H) as (l1' & Hp & Hf).
    destruct (IH2 l1' Hf) as (l1'' & Hp' & Hf').
    exists l1''. split; [etransitivity; eassumption|exact Hf'].
Qed.

Lemma insertar_perm f l : Permutation (f :: l) (insertar f l).
Proof.
  induction l as [|x l IH]; simpl; [reflexivity|].
  destruct (clave_leb f x); [reflexivity|].
  etransitivity; [apply perm_swap|]. apply perm_skip, IH.
Qed.

Lemma sort_values_perm l : Permutation l (sort_values l).
Proof.
  induction l as [|x l IH]; simpl; [constructor|].
  etransitivity; [apply perm_skip, IH|]. apply insertar_perm.
Qed.

Section Celdas.

Variable a : Args.

#[local] Abbreviation ni := (num_instructores a).
#[local] Abbreviation ng := (num_grupos a).
#[local] Abbreviation nd := (num_dias a).

Lemma celdas_In val d g i :
  In (d, g, i) (celdas a val) <->
  (d < nd)%nat /\ (g < ng)%nat /\ (i < ni)%nat /\ val (VAsig i d g) = 1.
Proof.
  unfold celdas. rewrite in_flat_map. split.
  - intros (d' & Hd & H). apply in_flat_map in H as (g' & Hg & H).
    apply in_map_iff in H as (i' & E & Hi). injection E as -> -> ->.
    apply filter_In in Hi as [Hi Hv].
    apply in_seq in Hd, Hg, Hi. apply Z.eqb_eq in Hv. repeat split; auto; lia.
  - intros (Hd & Hg & Hi & Hv). exists d. split; [apply in_seq; lia|].
    apply in_flat_map. exists g. split; [apply in_seq; lia|].
    apply in_map_iff. exists i. split; [reflexivity|].
    apply filter_In. split; [apply in_seq; lia|apply Z.eqb_eq, Hv].
Qed.

Lemma celdas_NoDup val : List.NoDup (celdas a val).
Proof.
  unfold celdas. apply NoDup_flat_map_separados; [apply seq_NoDup| |].
  - intros d _. apply NoDup_flat_map_separados; [apply seq_NoDup| |].
    + intros g _. apply Finite.Injective_map_NoDup.
      * intros i i' E. congruence.
      * apply List.NoDup_filter, seq_NoDup.
    + intros g g' [[d1 g1] i1] _ _ H H'.
      apply in_map_iff in H as (i & E & _), H' as (i' & E' & _). congruence.
  - intros d d' [[d1 g1] i1] _ _ H H'.
    apply in_flat_map in H as (g & _ & H), H' as (g' & _ & H').
    apply in_map_iff in H as (i & E & _), H' as (i' & E' & _). congruence.
Qed.

(** The rows follow the cells one by one. *)
Lemma resultados_celdas fecha0 val rs :
  resultados a fecha0 val = Ok rs ->
  Forall2 (fun c f => fila_de a fecha0 c = Ok f) (celdas a val) rs.
Proof.
  unfold resultados, celdas. intros H.
  eapply recorrer_Forall2; [exact H|]. clear H rs.
  intros d rs _ H. apply ligar_inv in H as (fecha_real & Ef & H).
  eapply recorrer_Forall2; [exact H|]. clear H rs.
  intros g rs _ H. apply ligar_inv in H as (grupo_info & Eg & H).
  revert rs H. generalize (seq 0 ni) as l.
  induction l as [|i l IH]; intros rs H.
  - injection H as <-. constructor.
  - rewrite recorrer_cons in H. simpl.
    apply ligar_inv in H as (ys & Hys & H).
    apply ligar_inv in H as (zs & Hzs & H). injection H as <-.
    destruct (val (VAsig i d g) =? 1).
    + apply ligar_inv in Hys as (f & Efi & Hys). injection Hys as <-.
      simpl. constructor; [|apply IH, Hzs].
      unfold fila_de. rewrite Ef, ligar_Ok, Eg, ligar_Ok. exact Efi.
    + injection Hys as <-. apply IH, Hzs.
Qed.

End Celdas.

(** ** The status name *)

Lemma status_name_casos (s : Z) :
  default "UNKNOWN" (status_names !! s) =
    if s =? OPTIMAL then "OPTIMAL"
    else if s =? FEASIBLE then "FEASIBLE"
    else if s =? INFEASIBLE then "INFEASIBLE"
    else if s =? MODEL_INVALID then "MODEL_INVALID"
    else "UNKNOWN".
Proof.
  unfold status_names.
  destruct (s =? OPTIMAL) eqn:E4; [apply Z.eqb_eq in E4; subst; reflexivity|].
  destruct (s =? FEASIBLE) eqn:E2; [apply Z.eqb_eq in E2; subst; reflexivity|].
  destruct (s =? INFEASIBLE) eqn:E3; [apply Z.eqb_eq in E3; subst; reflexivity|].
  destruct (s =? MODEL_INVALID) eqn:E1; [apply Z.eqb_eq in E1; subst; reflexivity|].
  destruct (s =? UNKNOWN) eqn:E0; [apply Z.eqb_eq in E0; subst; reflexivity|].
  apply Z.eqb_neq in E4, E2, E3, E1, E0.
  rewrite !lookup_insert_ne by congruence.
  rewrite lookup_singleton_ne by congruence. reflexivity.
Qed.

(** ** Runs of the function *)

Lemma ejecutar_generar_inv Solve hoy a out :
  ejecutar Solve (generar_horario_optimo hoy a) = Ok out ->
  (dias_laborables a <= 0 /\ out = ([], "NO_DIAS_LABORABLES", ∅)) \/
  (0 < dias_laborables a /\
   exists m, construir_modelo a = Ok m /\
     tras_resolver a (default hoy (fecha_inicio a)) (Solve m) = Ok out).
Proof.
  unfold generar_horario_optimo.
  destruct (dias_laborables a <=? 0) eqn:E.
  - apply Z.leb_le in E. simpl. intros H. injection H as <-. left. auto.
  - apply Z.leb_gt in E. destruct (construir_modelo a) as [m|e]; [|discriminate].
    simpl. intros H. right. split; [exact E|]. exists m. auto.
Qed.

Lemma tras_resolver_resuelto a fecha0 solver filas nombre stats :
  tras_resolver a fecha0 solver = Ok (filas, nombre, stats) ->
  nombre = "OPTIMAL" \/ nombre = "FEASIBLE" ->
  (status solver = OPTIMAL \/ status solver = FEASIBLE) /\
  materializar a fecha0 (Value solver) = Ok filas.
Proof.
  unfold tras_resolver. rewrite status_name_casos. intros H Hn.
  destruct (status solver =? OPTIMAL) eqn:E4.
  - apply Z.eqb_eq in E4. simpl in H.
    apply ligar_inv in H as (df & Hdf & H). injection H as <- _ _. auto.
  - destruct (status solver =? FEASIBLE) eqn:E2.
    + apply Z.eqb_eq in E2. simpl in H.
      apply ligar_inv in H as (df & Hdf & H). injection H as <- _ _. auto.
    + simpl in H. injection H as _ <- _.
      destruct (status solver =? INFEASIBLE);
        [|destruct (status solver =? MODEL_INVALID)];
        destruct Hn; discriminate.
Qed.

(** ** Coverage *)

(** C1.  In a run that returns with status OPTIMAL or FEASIBLE, the rows
    are the rows of a duplicate-free list of cells (day, group,
    instructor), one row per cell: each working day and group has
    exactly one cell, no instructor has two cells on one day, and no
    cell lies on a non-working day.  The solver is assumed to report
    these two statuses only with values that satisfy the model. *)
Theorem cobertura_del_horario Solve hoy a filas nombre stats :
  (forall m, construir_modelo a = Ok m -> entrega_solucion m (Solve m)) ->
  ejecutar Solve (generar_horario_optimo hoy a) = Ok (filas, nombre, stats) ->
  nombre = "OPTIMAL" \/ nombre = "FEASIBLE" ->
  exists cs : list (nat * nat * nat),
    Forall2 (fun c f => fila_de a (default hoy (fecha_inicio a)) c = Ok f) cs filas /\
    List.NoDup cs /\
    (forall d g, (d < num_dias a)%nat -> d ∉ dias_no_laborables a ->
                 (g < num_grupos a)%nat ->
                 (exists! i, In (d, g, i) cs)) /\
    (forall d g g' i, In (d, g, i) cs -> In (d, g', i) cs -> g = g') /\
    (forall d g i, In (d, g, i) cs ->
                   (d ∉ dias_no_laborables a) /\ (d < num_dias a)%nat /\
                   (g < num_grupos a)%nat /\ (i < num_instructores a)%nat).
Proof.
  intros Hsolve Hrun Hn.
  apply ejecutar_generar_inv in Hrun as [[_ E]|(_ & m & Hm & Hrun)].
  { injection E as _ -> _. destruct Hn; discriminate. }
  apply tras_resolver_resuelto in Hrun as [Hst Hmat]; [|exact Hn].
  pose proof (Hsolve m Hm Hst) as Hsol.
  set (val := Value (Solve m)) in *.
  apply ligar_inv in Hmat as (rs & Hrs & Hmat). injection Hmat as <-.
  apply resultados_celdas in Hrs.
  destruct (Forall2_permutado _ _ _ (sort_values_perm rs) _ Hrs) as (cs & Hp & Hcs).
  assert (Hin : forall c, In c cs <-> In c (celdas a val)).
  { intros c. split; apply Permutation_in; [symmetry|]; exact Hp. }
  exists cs. split; [exact Hcs|]. split.
  { eapply Permutation_NoDup; [exact Hp|apply celdas_NoDup]. }
  assert (Hdom : forall i d g, (i < num_instructores a)%nat -> (d < num_dias a)%nat ->
                    (g < num_grupos a)%nat -> 0 <= val (VAsig i d g) <= 1)
    by (intros; eapply sol_dominio_asignacion; eassumption).
  split; [|split].
  - intros d g Hd Hw Hg.
    pose proof (sol_cobertura a m val Hm Hsol d g Hd Hw Hg) as Hsum.
    assert (Hvs : forall v, In v (map (fun i => VAsig i d g) (seq 0 (num_instructores a))) ->
                    0 <= val v <= 1).
    { intros v Hv. apply in_map_iff in Hv as (i & <- & Hi). apply in_seq in Hi.
      apply Hdom; lia. }
    destruct (suma_uno_existe val _ Hvs Hsum) as (v & Hv & Ev).
    apply in_map_iff in Hv as (i & <- & Hi). apply in_seq in Hi.
    exists i. split.
    + apply Hin, celdas_In. repeat split; auto; lia.
    + intros i' Hi'. apply Hin, celdas_In in Hi' as (_ & _ & Hi' & Ev').
      assert (E : VAsig i d g = VAsig i' d g); [|congruence].
      apply (suma_uno_unico val (map (fun i => VAsig i d g) (seq 0 (num_instructores a))));
        [| |lia| | |exact Ev|exact Ev'].
      * apply Finite.Injective_map_NoDup; [|apply seq_NoDup]. intros x y E. congruence.
      * intros u Hu. apply Hvs, Hu.
      * apply (in_map (fun i => VAsig i d g)), in_seq. lia.
      * apply (in_map (fun i => VAsig i d g)), in_seq. lia.
  - intros d g g' i H H'.
    apply Hin, celdas_In in H as (Hd & Hg & Hi & Ev).
    apply Hin, celdas_In in H' as (_ & Hg' & _ & Ev').
    pose proof (sol_exclusividad a m val Hm Hsol i d Hi Hd) as Hsum.
    assert (E : VAsig i d g = VAsig i d g'); [|congruence].
    apply (suma_uno_unico val (asignaciones_dia a i d));
      [| |exact Hsum| | |exact Ev|exact Ev'].
    + apply Finite.Injective_map_NoDup; [|apply seq_NoDup]. intros x y E. congruence.
    + intros u Hu. apply in_map_iff in Hu as (g0 & <- & Hg0). apply in_seq in Hg0.
      apply Hdom; lia.
    + apply (in_map (fun g => VAsig i d g)), in_seq. lia.
    + apply (in_map (fun g => VAsig i d g)), in_seq. lia.
  - intros d g i H. apply Hin, celdas_In in H as (Hd & Hg & Hi & Ev).
    repeat split; auto. intros Hnl.
    pose proof (sol_no_laborable a m val Hm Hsol i d g Hnl Hi Hg). lia.
Qed.

(** ** Weekly cap *)

(** C2, as stated, fails: with 3 weekly hours and sessions of 4 hours the
    model accepts one session in the week, above floor(3/4) = 0. *)
Lemma tope_semanal_contraejemplo :
  exists m, construir_modelo a_tope = Ok m /\
    es_solucion m val_tope = true /\
    ~ suma val_tope (asignaciones_semana a_tope 0 0) <= tope_segun_spec a_tope.
Proof.
  eexists. split; [reflexivity|]. split; [reflexivity|].
  vm_compute. intros H. apply H. reflexivity.
Qed.

(** C2, amended.  In every solution of the model, each instructor has in
    each window of 7 days (the last one may be shorter) at most
    max(1, floor(max_weekly_hours / max(1, hours_per_session)))
    assignments; the windows cover every day of the horizon. *)
Theorem tope_semanal a m val :
  construir_modelo a = Ok m ->
  es_solucion m val = true ->
  (forall i w, (i < num_instructores a)%nat -> (w < num_semanas a)%nat ->
     suma val (flat_map (fun d => map (fun g => VAsig i d g) (seq 0 (num_grupos a)))
                        (rango (w * 7) (Nat.min (w * 7 + 7) (num_dias a))))
     <= Z.max 1 (tope_segun_spec a)) /\
  (forall d, (d < num_dias a)%nat ->
     (d / 7 < num_semanas a)%nat /\
     In d (rango (d / 7 * 7) (Nat.min (d / 7 * 7 + 7) (num_dias a)))).
Proof.
  intros Hm Hsol. split.
  - intros i w Hi Hw. exact (sol_tope_semanal a m val Hm Hsol i w Hi Hw).
  - intros d Hd. unfold num_semanas, rango.
    pose proof (Nat.div_mod_eq d 7) as E.
    pose proof (Nat.mod_upper_bound d 7 ltac:(lia)) as Hlt.
    split.
    + apply Nat.Div0.div_lt_upper_bound.
      pose proof (Nat.div_mod_eq (num_dias a + 6) 7).
      pose proof (Nat.mod_upper_bound (num_dias a + 6) 7 ltac:(lia)). lia.
    + apply in_seq. lia.
Qed.

(** ** Equity band *)

(** C3.  With [forzar_equidad], the model carries for every instructor
    the two bounds on the total load, and every solution keeps the load
    between max(0, target_low - margin) and target_high + margin, for
    the targets and the margin as the claim computes them from the
    number of groups and the number of working days of the horizon. *)
Theorem banda_de_equidad a m val i :
  forzar_equidad a = true ->
  construir_modelo a = Ok m ->
  es_solucion m val = true ->
  (i < num_instructores a)%nat ->
  let load := flat_map (fun d => map (fun g => VAsig i d g) (seq 0 (num_grupos a)))
                       (seq 0 (num_dias a)) in
  let num_working_days := Z.of_nat (length (dias_habiles a)) in
  let total_required := Z.of_nat (num_grupos a) * num_working_days in
  let target_low := total_required / Z.of_nat (num_instructores a) in
  let target_high :=
    if total_required mod Z.of_nat (num_instructores a) =? 0 then target_low
    else target_low + 1 in
  let margin := Z.max 1 (target_low / 10) in
  In (Add (Sum load) GE (Const (Z.max 0 (target_low - margin)))) (restricciones m) /\
  In (Add (Sum load) LE (Const (target_high + margin))) (restricciones m) /\
  Z.max 0 (target_low - margin) <= suma val load <= target_high + margin.
Proof.
  intros Hf Hm Hsol Hi load num_working_days total_required target_low target_high margin.
  assert (Hpos : (0 <? num_instructores a)%nat = true) by (apply Nat.ltb_lt; lia).
  assert (Etot : total_asignaciones a = total_required)
    by (apply (total_asignaciones_habiles a m Hm); lia).
  assert (Elo : min_asign_por_inst a = target_low).
  { unfold min_asign_por_inst. rewrite Hpos, Etot. reflexivity. }
  assert (Ehi : max_asign_por_inst a = target_high).
  { unfold max_asign_por_inst. rewrite Elo, Hpos, Etot. unfold target_high.
    destruct (total_required mod Z.of_nat (num_instructores a) =? 0); simpl; lia. }
  assert (Emg : margen a = margin).
  { unfold margen. rewrite Elo. unfold margin.
    destruct (0 <? target_low) eqn:E; [reflexivity|].
    apply Z.ltb_ge in E.
    assert (target_low / 10 <= 0) by (apply Z.div_le_upper_bound; lia). lia. }
  assert (Hin : forall c,
    In c [ Add (Sum load) GE (Const (Z.max 0 (target_low - margin)));
           Add (Sum load) LE (Const (target_high + margin)) ] ->
    In c (restricciones m)).
  { intros c Hc. destruct (construir_modelo_inv a m Hm) as (r1 & _ & _ & -> & _).
    rewrite !in_app_iff. do 4 right; left. unfold r_equidad.
    apply in_flat_map. exists i. split; [apply in_seq; lia|].
    rewrite Hf, Hpos, Elo, Ehi, Emg. exact Hc. }
  split; [apply Hin; left; reflexivity|].
  split; [apply Hin; right; left; reflexivity|].
  pose proof (sol_equidad a m val Hm Hsol i Hf Hi) as H.
  rewrite Elo, Ehi, Emg in H. exact H.
Qed.

(** ** Status and rejection *)

Lemma status_name_cerrado (s : Z) :
  In (default "UNKNOWN" (status_names !! s)) estados_del_solver.
Proof.
  rewrite status_name_casos. unfold estados_del_solver.
  destruct (s =? OPTIMAL); [|destruct (s =? FEASIBLE);
    [|destruct (s =? INFEASIBLE); [|destruct (s =? MODEL_INVALID)]]];
    simpl; auto 6.
Qed.

Lemma tras_resolver_nombre a fecha0 solver filas nombre stats :
  tras_resolver a fecha0 solver = Ok (filas, nombre, stats) ->
  nombre = default "UNKNOWN" (status_names !! status solver) /\
  stats = {[ "status" := Texto nombre;
             "tiempo_solver" := Flotante (WallTime solver);
             "conflictos" := Entero (NumConflicts solver);
             "ramas" := Entero (NumBranches solver);
             "dias_laborables" := Entero (dias_laborables a);
             "total_asignaciones_esperadas" := Entero (total_asignaciones a) ]}.
Proof.
  unfold tras_resolver. intros H.
  destruct ((status solver =? OPTIMAL) || (status solver =? FEASIBLE)).
  - apply ligar_inv in H as (df & _ & H). injection H as _ <- <-. auto.
  - injection H as _ <- <-. auto.
Qed.

(** C4, as stated, fails: a horizon without working day returns the
    status NO_DIAS_LABORABLES, which is outside the closed set. *)
Lemma estado_contraejemplo :
  ejecutar (fun _ => solver_semana) (generar_horario_optimo 738891 a_sin_dias)
    = Ok ([], "NO_DIAS_LABORABLES", ∅) /\
  ~ In "NO_DIAS_LABORABLES" estados_del_solver.
Proof.
  split; [reflexivity|].
  unfold estados_del_solver. simpl. intros H.
  repeat (destruct H as [H|H]; [discriminate|]). exact H.
Qed.

(** C4, amended.  The status of a run that returns is NO_DIAS_LABORABLES
    when the horizon has no working day, and otherwise one of OPTIMAL,
    FEASIBLE, INFEASIBLE, MODEL_INVALID, UNKNOWN, whatever code the
    solver reports. *)
Theorem estado_devuelto Solve hoy a filas nombre stats :
  ejecutar Solve (generar_horario_optimo hoy a) = Ok (filas, nombre, stats) ->
  (dias_laborables a <= 0 /\ nombre = "NO_DIAS_LABORABLES") \/
  (0 < dias_laborables a /\ In nombre estados_del_solver).
Proof.
  intros H. apply ejecutar_generar_inv in H as [[Hd E]|(Hd & m & _ & H)].
  - injection E as _ -> _. left. auto.
  - apply tras_resolver_nombre in H as [-> _]. right.
    split; [exact Hd|apply status_name_cerrado].
Qed.

(** C5, as stated, fails: with no group, one instructor and one working
    day the function neither returns nor raises before the solver; it
    hands a model to [Solve]. *)
Lemma rechazo_contraejemplo :
  num_grupos a_sin_grupos = 0%nat /\ 0 < dias_laborables a_sin_grupos /\
  ~ (exists r, generar_horario_optimo 738886 a_sin_grupos = Retorna r) /\
  ~ (exists e, generar_horario_optimo 738886 a_sin_grupos = Aborta e) /\
  exists m, generar_horario_optimo 738886 a_sin_grupos
              = Resuelve m (tras_resolver a_sin_grupos 738886).
Proof.
  split; [reflexivity|]. split; [reflexivity|]. split; [|split].
  - intros [r H]. discriminate H.
  - intros [e H]. discriminate H.
  - eexists. reflexivity.
Qed.

(** C5, amended.  The function itself rejects only a horizon without
    working day.  With at least one working day and no instructor or no
    group it builds the model and makes the solve attempt, provided the
    weekly limit of days is an int64 value when there is an instructor:
    it never reads the dict [asignacion] then, and the weekly cap is
    compared with the integer 0.  With an instructor, no group and a
    limit of days outside int64, building the model raises [TypeError]
    at line 378. *)
Theorem sin_instructores_o_grupos_resuelve hoy a :
  0 < dias_laborables a ->
  num_instructores a = 0%nat \/ num_grupos a = 0%nat ->
  (num_instructores a = 0%nat \/ INT_MIN <= max_dias_semana a <= INT_MAX ->
   exists m,
     construir_modelo a = Ok m /\
     generar_horario_optimo hoy a
       = Resuelve m (tras_resolver a (default hoy (fecha_inicio a))) /\
     forall Solve,
       ejecutar Solve (generar_horario_optimo hoy a)
         = tras_resolver a (default hoy (fecha_inicio a)) (Solve m)) /\
  ((1 <= num_instructores a)%nat ->
   ~ INT_MIN <= max_dias_semana a <= INT_MAX ->
   generar_horario_optimo hoy a = Aborta TypeError).
Proof.
  intros Hd H0.
  assert (Hr1 : exists r1, r_no_laborables a = Ok r1)
    by (apply r_no_laborables_total; tauto).
  split.
  - intros Hlim.
    assert (H4 : r_semanales a = Ok (c_semanales a)).
    { destruct Hlim as [Hi|Hlim]; [apply sin_instructores_r_semanales, Hi|].
      destruct H0 as [Hi|Hg]; [apply sin_instructores_r_semanales, Hi|].
      apply sin_grupos_r_semanales; assumption. }
    destruct (construir_modelo_existe a Hr1 H4) as [m Hm].
    exists m. split; [exact Hm|].
    rewrite (generar_resuelve hoy a m Hd Hm). split; reflexivity.
  - intros Hi Hlim.
    assert (Hg : num_grupos a = 0%nat) by lia.
    apply generar_aborta; [exact Hd|].
    destruct Hr1 as [r1 Hr1]. unfold construir_modelo.
    rewrite Hr1, ligar_Ok.
    rewrite (r_semanales_limite_rechazado a Hi Hd Hlim (or_introl Hg)). reflexivity.
Qed.

(** ** The short circuit *)

(** C10.  Without working day the function returns no row, the status
    NO_DIAS_LABORABLES and an empty [stats]; a run that goes through the
    solver returns [stats] with the solver time, the conflicts, the
    branches, the working days and the expected assignments. *)
Theorem sin_dias_laborables hoy a :
  (dias_laborables a <= 0 ->
     generar_horario_optimo hoy a = Retorna ([], "NO_DIAS_LABORABLES", ∅) /\
     forall k, (∅ : gmap string Valor) !! k = None) /\
  (forall Solve filas nombre stats,
     0 < dias_laborables a ->
     ejecutar Solve (generar_horario_optimo hoy a) = Ok (filas, nombre, stats) ->
     exists m, construir_modelo a = Ok m /\
       stats !! "tiempo_solver" = Some (Flotante (WallTime (Solve m))) /\
       stats !! "conflictos" = Some (Entero (NumConflicts (Solve m))) /\
       stats !! "ramas" = Some (Entero (NumBranches (Solve m))) /\
       stats !! "dias_laborables" = Some (Entero (dias_laborables a)) /\
       stats !! "total_asignaciones_esperadas" = Some (Entero (total_asignaciones a))).
Proof.
  split.
  - intros Hd. unfold generar_horario_optimo.
    replace (dias_laborables a <=? 0) with true by (symmetry; apply Z.leb_le; lia).
    split; [reflexivity|]. intros k. apply lookup_empty.
  - intros Solve filas nombre stats Hd H.
    apply ejecutar_generar_inv in H as [[Hd' _]|(_ & m & Hm & H)]; [lia|].
    apply tras_resolver_nombre in H as [_ ->].
    exists m. split; [exact Hm|]. repeat split; by simplify_map_eq.
Qed.

(** ** Curriculum fallbacks *)

Lemma indexar_total {A : Type} (l : list A) i :
  (i < length l)%nat -> exists x, indexar l i = Ok x.
Proof.
  intros H. unfold indexar.
  destruct (nth_error l i) as [x|] eqn:E; [exists x; reflexivity|].
  apply nth_error_None in E. lia.
Qed.

Lemma indexar_inv {A : Type} (l : list A) i x :
  indexar l i = Ok x -> nth_error l i = Some x.
Proof. unfold indexar. destruct (nth_error l i); [congruence|discriminate]. Qed.

Lemma modulo_inv n k r : modulo n k = Ok r -> k <> 0%nat /\ r = (n mod k)%nat.
Proof. destruct k; [discriminate|]. intros H. injection H as <-. auto. Qed.

Lemma modulo_total n k : k <> 0%nat -> modulo n k = Ok (n mod k)%nat.
Proof. destruct k; [congruence|reflexivity]. Qed.

Lemma sesiones_trimestre_no_vacia a key : sesiones_trimestre a key <> [].
Proof.
  unfold sesiones_trimestre.
  destruct (o_bien _ _) eqn:E; [discriminate|]. discriminate.
Qed.

Lemma sesiones_trimestre_segun_spec a key :
  curriculo_por_trimestre a !! key <> Some [] ->
  sesiones_trimestre a key = sesiones_segun_spec a key.
Proof.
  unfold sesiones_trimestre, sesiones_segun_spec. intros H.
  destruct (curriculo_por_trimestre a !! key) as [[|s bucket]|]; simpl.
  - congruence.
  - reflexivity.
  - destruct (curriculo_sessions a); reflexivity.
Qed.

Lemma mas_dias_total fecha0 n d :
  horizonte_valido fecha0 n -> (d < n)%nat ->
  Datetime.mas_dias fecha0 d = Ok (fecha0 + Z.of_nat d).
Proof.
  intros [H1 H2] Hd. unfold Datetime.mas_dias, Datetime.valida.
  replace (1 <=? fecha0 + Z.of_nat d) with true by (symmetry; apply Z.leb_le; lia).
  replace (fecha0 + Z.of_nat d <=? Datetime.max_ordinal) with true
    by (symmetry; apply Z.leb_le; lia).
  reflexivity.
Qed.

Lemma fila_total a fecha_real grupo_info d g i :
  ambientes a <> [] -> (i < length (instructores a))%nat ->
  exists f, fila a fecha_real grupo_info d g i = Ok f.
Proof.
  intros Hamb Hi. unfold fila.
  destruct (indexar_total (instructores a) i Hi) as [instructor_info ->].
  rewrite ligar_Ok.
  assert (Hlen : length (ambientes a) <> 0%nat) by (destruct (ambientes a); simpl; congruence).
  rewrite (modulo_total _ _ Hlen), ligar_Ok.
  destruct (indexar_total (ambientes a) ((d * num_grupos a + g) mod length (ambientes a))%nat)
    as [ambiente ->]; [apply Nat.mod_upper_bound, Hlen|].
  rewrite ligar_Ok.
  set (ss := sesiones_trimestre a _).
  assert (Hss : length ss <> 0%nat).
  { pose proof (sesiones_trimestre_no_vacia a (default "1" (grupo_info !! "Trimestre"))) as H.
    fold ss in H. destruct ss; simpl; congruence. }
  rewrite (modulo_total _ _ Hss), ligar_Ok.
  destruct (indexar_total ss ((d * num_grupos a + g) mod length ss)%nat)
    as [curr_info ->]; [apply Nat.mod_upper_bound, Hss|].
  rewrite ligar_Ok.
  rewrite (modulo_total _ (length jornada_options)) by discriminate.
  rewrite ligar_Ok.
  destruct (indexar_total jornada_options ((d + g) mod length jornada_options)%nat)
    as [jornada_dia ->]; [apply Nat.mod_upper_bound; discriminate|].
  rewrite ligar_Ok.
  destruct (if String.eqb jornada_dia "Mañana" then _ else _) as [h1 h2].
  eexists. reflexivity.
Qed.

Lemma fila_de_sesion a fecha0 d g i f :
  fila_de a fecha0 (d, g, i) = Ok f -> sesion_de_la_celda a d g f.
Proof.
  intros H. unfold fila_de in H.
  apply ligar_inv in H as (fecha_real & _ & H).
  apply ligar_inv in H as (grupo_info & Hg & H).
  apply indexar_inv in Hg. unfold fila in H.
  apply ligar_inv in H as (instructor_info & _ & H).
  apply ligar_inv in H as (amb_idx & _ & H).
  apply ligar_inv in H as (ambiente & _ & H).
  apply ligar_inv in H as (curr_idx & Hidx & H).
  apply modulo_inv in Hidx as [Hlen ->].
  apply ligar_inv in H as (curr_info & Hcurr & H).
  apply indexar_inv in Hcurr.
  apply ligar_inv in H as (jornada_idx & _ & H).
  apply ligar_inv in H as (jornada_dia & _ & H).
  destruct (if String.eqb jornada_dia "Mañana" then _ else _) as [h1 h2].
  injection H as <-.
  exists grupo_info, curr_info. split; [exact Hg|]. simpl.
  split; [apply sesiones_trimestre_segun_spec|].
  split.
  { intros E. unfold sesiones_trimestre. rewrite E. simpl.
    destruct (curriculo_sessions a); reflexivity. }
  split; [lia|]. split; [exact Hcurr|]. auto.
Qed.

(** C6.  The rows that the pass returns are, one for one, the rows of
    the cells (day, group, instructor) at which the solver's value is 1,
    and the row of a cell takes its curriculum fields from the session
    at index (d * num_groups + g) mod L of the resolved list, which is
    never empty and is the list the specification describes (bucket of
    the group's trimester key, else the full list, else one placeholder),
    an empty bucket being treated like an absent one.  Whatever the
    curriculum data, the pass returns its rows as soon as there is an
    environment, the groups and instructors are as many as announced and
    the dates stay in range. *)
Theorem sesion_de_cada_fila a fecha0 Value :
  (forall filas,
     materializar a fecha0 Value = Ok filas ->
     exists cs,
       Permutation (celdas a Value) cs /\
       Forall2 (fun c f =>
                  fila_de a fecha0 c = Ok f /\
                  sesion_de_la_celda a (fst (fst c)) (snd (fst c)) f) cs filas) /\
  (ambientes a <> [] ->
   (num_grupos a <= length (grupos a))%nat ->
   (num_instructores a <= length (instructores a))%nat ->
   horizonte_valido fecha0 (num_dias a) ->
   exists filas, materializar a fecha0 Value = Ok filas).
Proof.
  split.
  - intros filas H. apply ligar_inv in H as (rs & Hrs & H). injection H as <-.
    pose proof (resultados_celdas a fecha0 Value rs Hrs) as Hf.
    destruct (Forall2_permutado _ _ _ (sort_values_perm rs) _ Hf) as (cs & Hp & Hcs).
    exists cs. split; [exact Hp|].
    eapply Forall2_impl; [exact Hcs|].
    intros [[d g] i] f Hc. split; [exact Hc|]. simpl.
    exact (fila_de_sesion a fecha0 d g i f Hc).
  - intros Hamb Hg Hi Hh. unfold materializar, resultados.
    match goal with |- context [recorrer ?f ?l] =>
      destruct (recorrer_existe f l) as [rs Hrs] end.
    2:{ rewrite Hrs, ligar_Ok. eexists. reflexivity. }
    intros d Hd. apply in_seq in Hd.
    rewrite (mas_dias_total fecha0 (num_dias a) d Hh) by lia. rewrite ligar_Ok.
    apply recorrer_existe. intros g Hgin. apply in_seq in Hgin.
    destruct (indexar_total (grupos a) g) as [grupo_info ->]; [lia|].
    rewrite ligar_Ok.
    apply recorrer_existe. intros i Hin. apply in_seq in Hin.
    destruct (Value (VAsig i d g) =? 1); [|eexists; reflexivity].
    destruct (fila_total a (fecha0 + Z.of_nat d) grupo_info d g i) as [f ->];
      [exact Hamb|lia|].
    rewrite ligar_Ok. eexists. reflexivity.
Qed.

(** ** Relaxing the weekly limits *)

Lemma max_asignaciones_semana_crece a hs ds :
  max_horas_semana a <= hs ->
  max_asignaciones_semana a <= max_asignaciones_semana (con_limites a hs ds).
Proof.
  intros H. unfold max_asignaciones_semana, horas. simpl.
  assert (max_horas_semana a / Z.max 1 (horas_por_asignacion a)
          <= hs / Z.max 1 (horas_por_asignacion a))
    by (apply Z.div_le_mono; lia).
  lia.
Qed.

Lemma r_semana_relajada a hs ds val i w :
  max_horas_semana a <= hs -> max_dias_semana a <= ds ->
  (forall c, In c (c_semana a i w) -> cumple val c = true) ->
  forall c, In c (c_semana (con_limites a hs ds) i w) -> cumple val c = true.
Proof.
  intros Hhs Hds Hall c Hc.
  unfold c_semana in Hc. simpl in Hc. rewrite in_app_iff in Hc.
  destruct Hc as [<-|[Hc|Hc]].
  - assert (H : cumple val (Add (Sum (asignaciones_semana a i w)) LE
                                (Const (max_asignaciones_semana a))) = true)
      by (apply Hall; left; reflexivity).
    simpl in H |- *. apply Z.leb_le in H. apply Z.leb_le.
    pose proof (max_asignaciones_semana_crece a hs ds Hhs).
    change (asignaciones_semana (con_limites a hs ds) i w) with (asignaciones_semana a i w).
    lia.
  - apply Hall. unfold c_semana. right. apply in_app_iff. left. exact Hc.
  - change (dias_trabajados_semana (con_limites a hs ds) i w)
      with (dias_trabajados_semana a i w) in Hc.
    destruct (dias_trabajados_semana a i w) as [|t ts] eqn:E; [destruct Hc|].
    destruct Hc as [<-|[]].
    assert (H : cumple val (Add (Sum (t :: ts)) LE (Const (max_dias_semana a))) = true).
    { apply Hall. unfold c_semana. right. apply in_app_iff. right.
      rewrite E. left. reflexivity. }
    simpl in H |- *. apply Z.leb_le in H. apply Z.leb_le. lia.
Qed.

(** C7, as stated, fails: the sample week has a solution, and raising
    its weekly hours to 2^65 leaves no model at all, the cap 2^63 being
    refused at line 367. *)
Lemma relajar_limites_contraejemplo :
  max_horas_semana a_semana <= 2 ^ 65 /\
  (exists m, construir_modelo a_semana = Ok m /\ es_solucion m val_semana = true) /\
  construir_modelo (con_limites a_semana (2 ^ 65) (max_dias_semana a_semana))
    = Lanza TypeError /\
  ~ (exists m', construir_modelo (con_limites a_semana (2 ^ 65) (max_dias_semana a_semana))
                = Ok m').
Proof.
  assert (H : construir_modelo (con_limites a_semana (2 ^ 65) (max_dias_semana a_semana))
              = Lanza TypeError) by (vm_compute; reflexivity).
  split; [simpl; lia|]. split; [|split].
  - exists (modelo_de a_semana). split; vm_compute; reflexivity.
  - exact H.
  - intros [m' Hm']. rewrite H in Hm'. discriminate Hm'.
Qed.

(** C7, amended.  Raising [max_horas_semana] or [max_dias_semana] to
    values that are not above the largest int64, all else fixed, keeps
    the model buildable, and every solution of the model before is a
    solution of the model after: a feasible configuration stays
    feasible. *)
Theorem relajar_limites_conserva_factibilidad a hs ds m :
  max_horas_semana a <= hs ->
  max_dias_semana a <= ds ->
  hs <= INT_MAX ->
  ds <= INT_MAX ->
  construir_modelo a = Ok m ->
  exists m',
    construir_modelo (con_limites a hs ds) = Ok m' /\
    (forall val, es_solucion m val = true -> es_solucion m' val = true) /\
    ((exists val, es_solucion m val = true) -> exists val, es_solucion m' val = true).
Proof.
  intros Hhs Hds Hhmax Hdmax Hm.
  destruct (construir_modelo_inv a m Hm) as (r1 & Hr1 & Hvs & Hcs & _).
  assert (H4 : r_semanales (con_limites a hs ds) = Ok (c_semanales (con_limites a hs ds))).
  { apply r_semanales_total. intros i w Hi Hw.
    destruct (construir_modelo_semana a m i w Hm Hi Hw) as [H1 H2].
    apply r_semana_total.
    - right. apply max_asignaciones_semana_int64. exact Hhmax.
    - change (dias_trabajados_semana (con_limites a hs ds) i w)
        with (dias_trabajados_semana a i w).
      destruct H2 as [H2|H2]; [left; exact H2|right].
      apply es_int64_true in H2. apply es_int64_true. simpl. lia. }
  assert (Hm' : construir_modelo (con_limites a hs ds) =
    Ok {| variables := variables m;
          restricciones :=
            r1 ++ r_cobertura a ++ r_exclusividad a
            ++ c_semanales (con_limites a hs ds)
            ++ r_equidad a ++ r_carga a ++ r_extremos a;
          minimizar := Minus VMaxCarga VMinCarga |}).
  { unfold construir_modelo.
    change (r_no_laborables (con_limites a hs ds)) with (r_no_laborables a).
    rewrite Hr1, ligar_Ok, H4, ligar_Ok, Hvs. reflexivity. }
  eexists. split; [exact Hm'|].
  assert (Hmono : forall val, es_solucion m val = true ->
            es_solucion
              {| variables := variables m;
                 restricciones :=
                   r1 ++ r_cobertura a ++ r_exclusividad a
                   ++ c_semanales (con_limites a hs ds)
                   ++ r_equidad a ++ r_carga a ++ r_extremos a;
                 minimizar := Minus VMaxCarga VMinCarga |} val = true).
  { intros val Hsol. apply es_solucion_true in Hsol as [Hdom Hall].
    apply es_solucion_true. simpl. split; [exact Hdom|].
    intros c Hc. rewrite !in_app_iff in Hc.
    destruct Hc as [Hc|[Hc|[Hc|[Hc|Hc]]]];
      try (apply Hall; rewrite Hcs, !in_app_iff; tauto).
    unfold c_semanales in Hc.
    apply in_flat_map in Hc as (i & Hi & Hc).
    apply in_flat_map in Hc as (w & Hw & Hc).
    change (num_semanas (con_limites a hs ds)) with (num_semanas a) in Hw.
    change (num_instructores (con_limites a hs ds)) with (num_instructores a) in Hi.
    revert c Hc. apply r_semana_relajada; [exact Hhs|exact Hds|].
    intros c Hc. apply Hall. rewrite Hcs, !in_app_iff. do 3 right; left.
    unfold c_semanales. apply in_flat_map. exists i. split; [exact Hi|].
    apply in_flat_map. exists w. split; [exact Hw|exact Hc]. }
  split; [exact Hmono|].
  intros [val Hval]. exists val. apply Hmono, Hval.
Qed.

(** ** Determinism of the rows *)

(** C8.  The rows and their order are a function of the static inputs
    and of the values of the assignment variables of the model: two
    valuations that agree on them give the same output, with the same
    rows at the same places, or the same exception. *)
Theorem materializar_determinista a fecha0 (Value1 Value2 : Var -> Z) :
  (forall i d g, (i < num_instructores a)%nat -> (d < num_dias a)%nat ->
                 (g < num_grupos a)%nat ->
                 Value1 (VAsig i d g) = Value2 (VAsig i d g)) ->
  materializar a fecha0 Value1 = materializar a fecha0 Value2.
Proof.
  intros H. unfold materializar. f_equal. unfold resultados.
  apply recorrer_ext. intros d Hd. apply in_seq in Hd.
  destruct (Datetime.mas_dias fecha0 d) as [fecha_real|e]; [|reflexivity].
  rewrite !ligar_Ok.
  apply recorrer_ext. intros g Hg. apply in_seq in Hg.
  destruct (indexar (grupos a) g) as [grupo_info|e]; [|reflexivity].
  rewrite !ligar_Ok.
  apply recorrer_ext. intros i Hi. apply in_seq in Hi.
  rewrite H by lia. reflexivity.
Qed.

(** ** No group at all *)



Section SinGrupos.

Variable a : Args.
Hypothesis Hng : num_grupos a = 0%nat.










End SinGrupos.




(** ** The sample inputs, run *)

(** A run that reaches the solver and gets OPTIMAL back. *)
Lemma ejecutar_optimo Solve hoy a m filas :
  0 < dias_laborables a ->
  construir_modelo a = Ok m ->
  status (Solve m) = OPTIMAL ->
  materializar a (default hoy (fecha_inicio a)) (Value (Solve m)) = Ok filas ->
  ejecutar Solve (generar_horario_optimo hoy a) =
    Ok (filas, "OPTIMAL",
        {[ "status" := Texto "OPTIMAL";
           "tiempo_solver" := Flotante (WallTime (Solve m));
           "conflictos" := Entero (NumConflicts (Solve m));
           "ramas" := Entero (NumBranches (Solve m));
           "dias_laborables" := Entero (dias_laborables a);
           "total_asignaciones_esperadas" := Entero (total_asignaciones a) ]}).
Proof.
  intros Hd Hm Hst Hmat. unfold generar_horario_optimo. rewrite Hm.
  replace (dias_laborables a <=? 0) with false by (symmetry; apply Z.leb_gt; lia).
  unfold ejecutar, tras_resolver. rewrite status_name_casos, Hst, Hmat. reflexivity.
Qed.

Lemma modelo_semana : construir_modelo a_semana = Ok (modelo_de a_semana).
Proof. vm_compute. reflexivity. Qed.

Lemma val_semana_solucion : es_solucion (modelo_de a_semana) val_semana = true.
Proof. vm_compute. reflexivity. Qed.

Lemma materializar_semana :
  materializar a_semana 738886 val_semana = Ok (filas_de (materializar a_semana 738886 val_semana)).
Proof. vm_compute. reflexivity. Qed.

Lemma solver_semana_entrega m :
  construir_modelo a_semana = Ok m -> entrega_solucion m solver_semana.
Proof.
  intros Hm. rewrite modelo_semana in Hm. injection Hm as <-.
  intros _. exact val_semana_solucion.
Qed.

Lemma ejecutar_semana :
  ejecutar (fun _ => solver_semana) (generar_horario_optimo 1 a_semana) =
    Ok (filas_de (materializar a_semana 738886 val_semana), "OPTIMAL",
        {[ "status" := Texto "OPTIMAL";
           "tiempo_solver" := Flotante (1 # 4);
           "conflictos" := Entero 0;
           "ramas" := Entero 12;
           "dias_laborables" := Entero 5;
           "total_asignaciones_esperadas" := Entero 10 ]}).
Proof.
  apply (ejecutar_optimo (fun _ => solver_semana) 1 a_semana (modelo_de a_semana)).
  - reflexivity.
  - exact modelo_semana.
  - reflexivity.
  - exact materializar_semana.
Qed.

Lemma cobertura_del_horario_testigo :
  length (filas_de (materializar a_semana 738886 val_semana)) = 10%nat /\
  exists cs : list (nat * nat * nat),
    Forall2 (fun c f => fila_de a_semana 738886 c = Ok f) cs
            (filas_de (materializar a_semana 738886 val_semana)) /\
    List.NoDup cs /\
    (forall d g, (d < 7)%nat -> d ∉ dias_no_laborables a_semana -> (g < 2)%nat ->
                 (exists! i, In (d, g, i) cs)) /\
    (forall d g g' i, In (d, g, i) cs -> In (d, g', i) cs -> g = g') /\
    (forall d g i, In (d, g, i) cs ->
                   (d ∉ dias_no_laborables a_semana) /\ (d < 7)%nat /\
                   (g < 2)%nat /\ (i < 2)%nat).
Proof.
  split; [vm_compute; reflexivity|].
  eapply (cobertura_del_horario (fun _ => solver_semana) 1 a_semana).
  - exact solver_semana_entrega.
  - exact ejecutar_semana.
  - left. reflexivity.
Defined.

Lemma tope_semanal_testigo :
  construir_modelo a_semana = Ok (modelo_de a_semana) /\
  es_solucion (modelo_de a_semana) val_semana = true /\
  suma val_semana (asignaciones_semana a_semana 0 0) <= 10.
Proof.
  split; [exact modelo_semana|]. split; [exact val_semana_solucion|].
  apply (proj1 (tope_semanal a_semana (modelo_de a_semana) val_semana
                  modelo_semana val_semana_solucion) 0%nat 0%nat).
  - simpl. lia.
  - unfold num_semanas. simpl. lia.
Defined.

Lemma banda_de_equidad_testigo :
  forzar_equidad a_semana = true /\
  4 <= suma val_semana (total_instructor a_semana 0) <= 6.
Proof.
  split; [reflexivity|].
  apply (banda_de_equidad a_semana (modelo_de a_semana) val_semana 0).
  - reflexivity.
  - exact modelo_semana.
  - exact val_semana_solucion.
  - simpl. lia.
Defined.

Lemma estado_devuelto_testigo :
  (dias_laborables a_semana <= 0 /\ "OPTIMAL" = "NO_DIAS_LABORABLES") \/
  (0 < dias_laborables a_semana /\ In "OPTIMAL" estados_del_solver).
Proof.
  eapply (estado_devuelto (fun _ => solver_semana) 1 a_semana).
  exact ejecutar_semana.
Defined.

Lemma sin_instructores_o_grupos_resuelve_testigo :
  (exists m,
     construir_modelo a_sin_grupos = Ok m /\
     generar_horario_optimo 738886 a_sin_grupos
       = Resuelve m (tras_resolver a_sin_grupos 738886) /\
     forall Solve,
       ejecutar Solve (generar_horario_optimo 738886 a_sin_grupos)
         = tras_resolver a_sin_grupos 738886 (Solve m)) /\
  generar_horario_optimo 738886 (con_limites a_sin_grupos 40 (2 ^ 63)) = Aborta TypeError.
Proof.
  split.
  - apply (proj1 (sin_instructores_o_grupos_resuelve 738886 a_sin_grupos
                    ltac:(reflexivity) (or_intror eq_refl))).
    right. unfold INT_MIN, INT_MAX. simpl. lia.
  - apply (proj2 (sin_instructores_o_grupos_resuelve 738886
                    (con_limites a_sin_grupos 40 (2 ^ 63))
                    ltac:(reflexivity) (or_intror eq_refl))).
    + simpl. lia.
    + unfold INT_MIN, INT_MAX. simpl. lia.
Defined.

Lemma sesion_de_cada_fila_testigo :
  (exists cs,
     Permutation (celdas a_semana val_semana) cs /\
     Forall2 (fun c f =>
                fila_de a_semana 738886 c = Ok f /\
                sesion_de_la_celda a_semana (fst (fst c)) (snd (fst c)) f)
             cs (filas_de (materializar a_semana 738886 val_semana))) /\
  (exists filas, materializar a_semana 738886 val_semana = Ok filas).
Proof.
  split.
  - apply (proj1 (sesion_de_cada_fila a_semana 738886 val_semana)).
    exact materializar_semana.
  - apply (proj2 (sesion_de_cada_fila a_semana 738886 val_semana)).
    + discriminate.
    + simpl. lia.
    + simpl. lia.
    + split; simpl; [lia|unfold Datetime.max_ordinal; lia].
Defined.

Lemma relajar_limites_testigo :
  exists m',
    construir_modelo (con_limites a_semana 48 7) = Ok m' /\
    (forall val, es_solucion (modelo_de a_semana) val = true -> es_solucion m' val = true) /\
    ((exists val, es_solucion (modelo_de a_semana) val = true) ->
     exists val, es_solucion m' val = true).
Proof.
  apply (relajar_limites_conserva_factibilidad a_semana 48 7 (modelo_de a_semana)).
  - simpl. lia.
  - simpl. lia.
  - unfold INT_MAX. lia.
  - unfold INT_MAX. lia.
  - exact modelo_semana.
Defined.

Lemma materializar_determinista_testigo :
  val_semana VMaxCarga <> val_semana' VMaxCarga /\
  materializar a_semana 738886 val_semana = materializar a_semana 738886 val_semana'.
Proof.
  split; [discriminate|].
  apply (materializar_determinista a_semana 738886 val_semana val_semana').
  intros i d g _ _ _. reflexivity.
Defined.


Lemma sin_dias_laborables_testigo :
  generar_horario_optimo 738891 a_sin_dias = Retorna ([], "NO_DIAS_LABORABLES", ∅) /\
  exists m, construir_modelo a_semana = Ok m /\
    ({[ "status" := Texto "OPTIMAL";
        "tiempo_solver" := Flotante (1 # 4);
        "conflictos" := Entero 0;
        "ramas" := Entero 12;
        "dias_laborables" := Entero 5;
        "total_asignaciones_esperadas" := Entero 10 ]} : gmap string Valor)
      !! "tiempo_solver" = Some (Flotante (WallTime solver_semana)).
Proof.
  split.
  - apply (proj1 (sin_dias_laborables 738891 a_sin_dias)). vm_compute. discriminate.
  - destruct (proj2 (sin_dias_laborables 1 a_semana) (fun _ => solver_semana) _ _ _
                ltac:(reflexivity) ejecutar_semana) as (m & Hm & Ht & _).
    exists m. split; [exact Hm|exact Ht].
Defined.

(** * Further properties *)

(** ** The calendar *)

Lemma marcar_dias_inv fecha_inicio festivos dias acc dnl :
  marcar_dias fecha_inicio festivos dias acc = Ok dnl ->
  (forall d, In d dias -> exists f, Datetime.mas_dias fecha_inicio d = Ok f) /\
  (forall d, d ∈ dnl <->
     d ∈ acc \/
     (In d dias /\
      exists f, Datetime.mas_dias fecha_inicio d = Ok f /\
        (5 <= Datetime.weekday f \/ f ∈ festivos))).
Proof.
  revert acc. induction dias as [|x dias IH]; intros acc H.
  - injection H as <-. split; [intros d []|].
    intros d. split; [auto|]. intros [Hd|[[] _]]. exact Hd.
  - simpl in H. apply ligar_inv in H as (fx & Hfx & H).
    set (c := (5 <=? Datetime.weekday fx) || bool_decide (fx ∈ festivos)) in H.
    assert (Hc : c = true <-> 5 <= Datetime.weekday fx \/ fx ∈ festivos).
    { unfold c. rewrite orb_true_iff, Z.leb_le, bool_decide_eq_true. reflexivity. }
    destruct c eqn:Ec.
    + apply IH in H as [H1 H2]. split.
      * intros d [<-|Hd]; [exists fx; exact Hfx|apply H1, Hd].
      * intros d. rewrite H2, elem_of_union, elem_of_singleton. split.
        -- intros [[->|Hd]|(Hd & f & Hf & Hw)]; [right|left; exact Hd|right].
           ++ split; [left; reflexivity|]. exists fx. split; [exact Hfx|apply Hc; reflexivity].
           ++ split; [right; exact Hd|]. exists f. auto.
        -- intros [Hd|([<-|Hd] & f & Hf & Hw)]; [left; right; exact Hd|left; left; reflexivity|].
           right. split; [exact Hd|]. exists f. auto.
    + apply IH in H as [H1 H2]. split.
      * intros d [<-|Hd]; [exists fx; exact Hfx|apply H1, Hd].
      * intros d. rewrite H2. split.
        -- intros [Hd|(Hd & f & Hf & Hw)]; [left; exact Hd|].
           right. split; [right; exact Hd|]. exists f. auto.
        -- intros [Hd|([<-|Hd] & f & Hf & Hw)]; [left; exact Hd| |].
           ++ assert (f = fx) by congruence. subst f.
              apply Hc in Hw. discriminate Hw.
           ++ right. split; [exact Hd|]. exists f. auto.
Qed.

Lemma marcar_dias_total fecha_inicio festivos dias acc :
  (forall d, In d dias -> exists f, Datetime.mas_dias fecha_inicio d = Ok f) ->
  exists dnl, marcar_dias fecha_inicio festivos dias acc = Ok dnl.
Proof.
  revert acc. induction dias as [|x dias IH]; intros acc H; [exists acc; reflexivity|].
  destruct (H x) as [fx Hfx]; [left; reflexivity|].
  simpl. rewrite Hfx, ligar_Ok.
  destruct (_ || _); apply IH; intros d Hd; apply H; right; exact Hd.
Qed.

Lemma calcular_total fecha_inicio num_dias festivos :
  horizonte_valido fecha_inicio num_dias ->
  exists dnl, calcular_dias_no_laborables fecha_inicio num_dias festivos = Ok dnl.
Proof.
  intros Hh. unfold calcular_dias_no_laborables.
  apply marcar_dias_total. intros d Hd. apply in_seq in Hd.
  exists (fecha_inicio + Z.of_nat d).
  apply (mas_dias_total fecha_inicio num_dias d Hh). lia.
Qed.

(** X1.  On a horizon whose dates Python can represent,
    [calcular_dias_no_laborables] returns the set of the day indices of
    the horizon that fall on a Saturday, on a Sunday or on a holiday:
    nothing outside [0, num_dias) is ever in the set. *)
Theorem dias_no_laborables_calculados fecha_inicio num_dias festivos :
  horizonte_valido fecha_inicio num_dias ->
  exists dnl,
    calcular_dias_no_laborables fecha_inicio num_dias festivos = Ok dnl /\
    forall d, d ∈ dnl <->
      (d < num_dias)%nat /\
      (5 <= Datetime.weekday (fecha_inicio + Z.of_nat d) \/
       fecha_inicio + Z.of_nat d ∈ festivos).
Proof.
  intros Hh.
  destruct (calcular_total fecha_inicio num_dias festivos Hh)
    as [dnl Hdnl].
  exists dnl. split; [exact Hdnl|].
  apply marcar_dias_inv in Hdnl as [_ H]. intros d. rewrite H. split.
  - intros [Hd|(Hd & f & Hf & Hw)]; [set_solver|].
    apply in_seq in Hd.
    rewrite (mas_dias_total fecha_inicio num_dias d Hh) in Hf by lia.
    injection Hf as <-. split; [lia|exact Hw].
  - intros [Hd Hw]. right. split; [apply in_seq; lia|].
    exists (fecha_inicio + Z.of_nat d). split; [|exact Hw].
    apply (mas_dias_total fecha_inicio num_dias d Hh). lia.
Qed.

(** The set, when it is returned, lies in the horizon. *)
Lemma calcular_en_horizonte fecha_inicio num_dias festivos dnl :
  calcular_dias_no_laborables fecha_inicio num_dias festivos = Ok dnl ->
  forall d, d ∈ dnl ->
    (d < num_dias)%nat /\
    exists f, Datetime.mas_dias fecha_inicio d = Ok f /\
      (5 <= Datetime.weekday f \/ f ∈ festivos).
Proof.
  intros H d Hd. apply marcar_dias_inv in H as [_ H].
  apply H in Hd as [Hd|(Hd & f & Hf & Hw)]; [set_solver|].
  apply in_seq in Hd. split; [lia|]. exists f. auto.
Qed.

Lemma calcular_fuera fecha_inicio num_dias festivos dnl d f :
  calcular_dias_no_laborables fecha_inicio num_dias festivos = Ok dnl ->
  (d < num_dias)%nat -> d ∉ dnl ->
  Datetime.mas_dias fecha_inicio d = Ok f ->
  Datetime.weekday f < 5 /\ f ∉ festivos.
Proof.
  intros H Hd Hn Hf. apply marcar_dias_inv in H as [_ H].
  split.
  - destruct (Z.lt_ge_cases (Datetime.weekday f) 5) as [Hlt|Hge]; [exact Hlt|].
    exfalso. apply Hn, H. right. split; [apply in_seq; lia|]. exists f. auto.
  - intros Hin. apply Hn, H. right. split; [apply in_seq; lia|]. exists f. auto.
Qed.

Lemma mas_dias_inv fecha_inicio d f :
  Datetime.mas_dias fecha_inicio d = Ok f -> f = fecha_inicio + Z.of_nat d.
Proof.
  unfold Datetime.mas_dias. destruct (Datetime.valida _); [|discriminate].
  intros H. injection H as <-. reflexivity.
Qed.

Lemma calcular_fechas fecha_inicio num_dias festivos dnl d :
  calcular_dias_no_laborables fecha_inicio num_dias festivos = Ok dnl ->
  (d < num_dias)%nat ->
  Datetime.mas_dias fecha_inicio d = Ok (fecha_inicio + Z.of_nat d).
Proof.
  intros H Hd. apply marcar_dias_inv in H as [H _].
  destruct (H d) as [f Hf]; [apply in_seq; lia|].
  rewrite Hf. f_equal. apply (mas_dias_inv _ _ _ Hf).
Qed.

Lemma modelo_con_calendario fecha0 festivos a :
  calcular_dias_no_laborables fecha0 (num_dias a) festivos = Ok (dias_no_laborables a) ->
  (exists r1, r_no_laborables a = Ok r1) /\
  dias_laborables a = Z.of_nat (length (dias_habiles a)).
Proof.
  intros H.
  assert (Hsub : forall d, d ∈ dias_no_laborables a -> (d < num_dias a)%nat).
  { intros d Hd. apply (calcular_en_horizonte _ _ _ _ H d Hd). }
  split; [|apply dias_laborables_cuenta, Hsub].
  apply r_no_laborables_total. auto.
Qed.

(** X2.  With the set that [calcular_dias_no_laborables] returns, the
    engine never misses a key of [asignacion] and [dias_laborables] is
    the number of working days of the horizon: the only exception it can
    raise before the solver is the [TypeError] of a weekly limit outside
    int64, and with limits in the int64 range the model is built and
    nothing is raised. *)
Theorem calendario_y_motor fecha0 festivos a :
  calcular_dias_no_laborables fecha0 (num_dias a) festivos = Ok (dias_no_laborables a) ->
  dias_laborables a = Z.of_nat (length (dias_habiles a)) /\
  (forall hoy e, generar_horario_optimo hoy a = Aborta e -> e = TypeError) /\
  (max_horas_semana a <= INT_MAX ->
   INT_MIN <= max_dias_semana a <= INT_MAX ->
   (exists m, construir_modelo a = Ok m) /\
   (forall hoy e, generar_horario_optimo hoy a <> Aborta e)).
Proof.
  intros H. destruct (modelo_con_calendario fecha0 festivos a H) as [[r1 Hr1] Hdl].
  split; [exact Hdl|]. split.
  - intros hoy e Hab. apply generar_aborta_inv in Hab as [_ Hab].
    apply construir_modelo_Lanza in Hab as [Hab|[_ Hab]].
    + rewrite Hr1 in Hab. discriminate Hab.
    + apply r_semanales_Lanza in Hab as [-> _]. reflexivity.
  - intros Hh Hd.
    destruct (construir_modelo_int64 a (ex_intro _ r1 Hr1) Hh Hd) as [m Hm].
    split; [exists m; exact Hm|].
    intros hoy e Hab. apply generar_aborta_inv in Hab as [_ Hab].
    rewrite Hm in Hab. discriminate Hab.
Qed.

(** X3.  When none of the first three days of the horizon is a holiday,
    the set of [calcular_dias_no_laborables] leaves a working day: the
    engine does not answer NO_DIAS_LABORABLES, and with weekly limits in
    the int64 range it reaches the solver. *)
Theorem tres_dias_sin_festivo fecha0 festivos a :
  calcular_dias_no_laborables fecha0 (num_dias a) festivos = Ok (dias_no_laborables a) ->
  (3 <= num_dias a)%nat ->
  (forall d, (d < 3)%nat -> fecha0 + Z.of_nat d ∉ festivos) ->
  0 < dias_laborables a /\
  (forall hoy r, generar_horario_optimo hoy a <> Retorna r) /\
  (max_horas_semana a <= INT_MAX ->
   INT_MIN <= max_dias_semana a <= INT_MAX ->
   forall hoy, exists m sigue, generar_horario_optimo hoy a = Resuelve m sigue).
Proof.
  intros H Hn Hfest.
  destruct (modelo_con_calendario fecha0 festivos a H) as (Hr1 & Hdl).
  assert (Hd : exists d, (d < 3)%nat /\ Datetime.weekday (fecha0 + Z.of_nat d) < 5).
  { unfold Datetime.weekday.
    pose proof (Z.mod_pos_bound (fecha0 + 6) 7 ltac:(lia)) as Hw.
    destruct (Z.lt_ge_cases ((fecha0 + 6) mod 7) 5) as [Hlt|Hge].
    - exists 0%nat. split; [lia|]. rewrite Z.add_0_r. exact Hlt.
    - destruct (Z.eq_dec ((fecha0 + 6) mod 7) 5) as [E5|E5].
      + exists 2%nat. split; [lia|].
        replace (fecha0 + Z.of_nat 2 + 6) with ((fecha0 + 6) + 2) by lia.
        rewrite <- Zplus_mod_idemp_l, E5. reflexivity.
      + exists 1%nat. split; [lia|].
        replace (fecha0 + Z.of_nat 1 + 6) with ((fecha0 + 6) + 1) by lia.
        rewrite <- Zplus_mod_idemp_l.
        replace ((fecha0 + 6) mod 7) with 6 by lia. reflexivity. }
  destruct Hd as (d & Hd3 & Hwd).
  assert (Hhab : In d (dias_habiles a)).
  { apply dias_habiles_In. split; [lia|]. intros Hin.
    destruct (calcular_en_horizonte _ _ _ _ H d Hin) as (_ & f & Hf & [Hw|Hw]).
    - apply mas_dias_inv in Hf. subst f. lia.
    - apply mas_dias_inv in Hf. subst f. apply (Hfest d Hd3 Hw). }
  assert (Hpos : 0 < dias_laborables a).
  { rewrite Hdl. destruct (dias_habiles a); [destruct Hhab|simpl; lia]. }
  split; [exact Hpos|]. split.
  - intros hoy r. unfold generar_horario_optimo.
    replace (dias_laborables a <=? 0) with false by (symmetry; apply Z.leb_gt; lia).
    destruct (construir_modelo a); discriminate.
  - intros Hh Hlim hoy.
    destruct (construir_modelo_int64 a Hr1 Hh Hlim) as [m Hm].
    rewrite (generar_resuelve hoy a m Hpos Hm). eexists. eexists. reflexivity.
Qed.

(** ** More on the solutions of the model *)

Lemma extremo_max zs z :
  extremo Z.max zs = Some z -> (forall x, In x zs -> x <= z) /\ In z zs.
Proof.
  destruct zs as [|z0 zs]; [discriminate|]. simpl. intros H. injection H as <-.
  revert z0. induction zs as [|y zs IH]; intros z0.
  - simpl. split; [intros x [<-|[]]; lia|left; reflexivity].
  - simpl. destruct (IH (Z.max z0 y)) as [H1 H2]. split.
    + intros x [<-|[<-|Hx]].
      * specialize (H1 (Z.max z0 y) (or_introl eq_refl)). lia.
      * specialize (H1 (Z.max z0 y) (or_introl eq_refl)). lia.
      * apply H1. right. exact Hx.
    + destruct H2 as [H2|H2]; [|right; right; exact H2].
      rewrite <- H2. destruct (Z.max_spec z0 y) as [[_ ->]|[_ ->]]; auto.
Qed.

Lemma extremo_min zs z :
  extremo Z.min zs = Some z -> (forall x, In x zs -> z <= x) /\ In z zs.
Proof.
  destruct zs as [|z0 zs]; [discriminate|]. simpl. intros H. injection H as <-.
  revert z0. induction zs as [|y zs IH]; intros z0.
  - simpl. split; [intros x [<-|[]]; lia|left; reflexivity].
  - simpl. destruct (IH (Z.min z0 y)) as [H1 H2]. split.
    + intros x [<-|[<-|Hx]].
      * specialize (H1 (Z.min z0 y) (or_introl eq_refl)). lia.
      * specialize (H1 (Z.min z0 y) (or_introl eq_refl)). lia.
      * apply H1. right. exact Hx.
    + destruct H2 as [H2|H2]; [|right; right; exact H2].
      rewrite <- H2. destruct (Z.min_spec z0 y) as [[_ ->]|[_ ->]]; auto.
Qed.

(** Counting the indices whose variable is at 1. *)
Lemma cuenta_de_unos (val : Valores) (F : nat -> Var) (l : list nat) :
  (forall x, In x l -> 0 <= val (F x) <= 1) ->
  Z.of_nat (length (List.filter (fun x => val (F x) =? 1) l)) = suma val (map F l).
Proof.
  induction l as [|x l IH]; intros H; [reflexivity|].
  assert (Hx : 0 <= val (F x) <= 1) by (apply H; left; reflexivity).
  assert (Hr : forall y, In y l -> 0 <= val (F y) <= 1) by (intros y Hy; apply H; right; exact Hy).
  specialize (IH Hr). cbn [List.filter map suma].
  destruct (val (F x) =? 1) eqn:E.
  - apply Z.eqb_eq in E. cbn [length]. lia.
  - apply Z.eqb_neq in E. lia.
Qed.

Lemma suma_flat_map (val : Valores) {A : Type} (f : A -> list Var) (l : list A) :
  suma val (flat_map f l) = fold_right (fun x acc => suma val (f x) + acc) 0 l.
Proof.
  induction l as [|x l IH]; [reflexivity|].
  simpl. rewrite suma_app, IH. reflexivity.
Qed.

(** A double sum over instructors and groups, in either order. *)
Lemma suma_intercambio (val : Valores) (F : nat -> nat -> Var) (ins gs : list nat) :
  suma val (flat_map (fun i => map (fun g => F i g) gs) ins)
  = suma val (flat_map (fun g => map (fun i => F i g) ins) gs).
Proof.
  revert ins. induction gs as [|g gs IH]; intros ins.
  - simpl. apply suma_cero. intros v Hv.
    apply in_flat_map in Hv as (i & _ & []).
  - cbn [flat_map]. rewrite suma_app, <- IH. clear IH.
    induction ins as [|i ins IHi]; [reflexivity|].
    simpl in *. rewrite !suma_app, IHi. lia.
Qed.

Section MasHechos.

Variable a : Args.
Variable m : CpModel.
Variable val : Valores.
Hypothesis Hm : construir_modelo a = Ok m.
Hypothesis Hsol : es_solucion m val = true.

#[local] Abbreviation ni := (num_instructores a).
#[local] Abbreviation ng := (num_grupos a).
#[local] Abbreviation nd := (num_dias a).

Lemma sol_r_semana i w c :
  (i < ni)%nat -> (w < num_semanas a)%nat -> In c (c_semana a i w) ->
  cumple val c = true.
Proof.
  intros Hi Hw Hc. apply (sol_restriccion a m val Hm Hsol). do 3 right; left.
  unfold c_semanales. apply in_flat_map. exists i. split; [apply in_seq; lia|].
  apply in_flat_map. exists w. split; [apply in_seq; lia|exact Hc].
Qed.

Lemma sol_trabajo_dominio i w d :
  (i < ni)%nat -> (w < num_semanas a)%nat -> In d (laborables_semana a w) ->
  0 <= val (VTrabajo i d) <= 1.
Proof.
  intros Hi Hw Hd.
  destruct (construir_modelo_inv a m Hm) as (r1 & _ & Hvs & _).
  apply es_solucion_true in Hsol as [Hdom _].
  specialize (Hdom (NewBoolVar (VTrabajo i d))).
  simpl in Hdom. rewrite andb_true_iff, !Z.leb_le in Hdom. apply Hdom.
  rewrite Hvs, !in_app_iff. right; left. unfold vars_trabajo.
  apply in_flat_map. exists i. split; [apply in_seq; lia|].
  apply in_flat_map. exists w. split; [apply in_seq; lia|].
  apply in_map, in_map, Hd.
Qed.

(** The indicator of a working day is 1 exactly when the instructor
    teaches that day. *)
Lemma sol_trabajo_enlace i w d :
  (i < ni)%nat -> (w < num_semanas a)%nat -> In d (laborables_semana a w) ->
  (val (VTrabajo i d) = 1 <-> 1 <= suma val (asignaciones_dia a i d)) /\
  (val (VTrabajo i d) = 0 <-> suma val (asignaciones_dia a i d) = 0).
Proof.
  intros Hi Hw Hd.
  pose proof (sol_trabajo_dominio i w d Hi Hw Hd) as Hdom.
  assert (H1 : cumple val (AddOnlyEnforceIf (Sum (asignaciones_dia a i d)) GE (Const 1)
                             (Lit (VTrabajo i d))) = true).
  { apply (sol_r_semana i w); [exact Hi|exact Hw|]. unfold c_semana.
    right. apply in_app_iff. left. apply in_flat_map. exists d.
    split; [exact Hd|left; reflexivity]. }
  assert (H0 : cumple val (AddOnlyEnforceIf (Sum (asignaciones_dia a i d)) EQ (Const 0)
                             (Not (VTrabajo i d))) = true).
  { apply (sol_r_semana i w); [exact Hi|exact Hw|]. unfold c_semana.
    right. apply in_app_iff. left. apply in_flat_map. exists d.
    split; [exact Hd|right; left; reflexivity]. }
  cbn [cumple cierto eval compara] in H1, H0.
  destruct (Z.eqb_spec (val (VTrabajo i d)) 1) as [E1|E1];
    destruct (Z.eqb_spec (val (VTrabajo i d)) 0) as [E0|E0];
    cbn [implb] in H1, H0;
    rewrite ?Z.leb_le in H1; rewrite ?Z.eqb_eq in H0; lia.
Qed.

Lemma sol_tope_dias i w :
  (i < ni)%nat -> (w < num_semanas a)%nat ->
  laborables_semana a w <> [] ->
  suma val (dias_trabajados_semana a i w) <= max_dias_semana a.
Proof.
  intros Hi Hw Hne.
  destruct (dias_trabajados_semana a i w) as [|t ts] eqn:E.
  { unfold dias_trabajados_semana in E. destruct (laborables_semana a w); [congruence|discriminate]. }
  assert (H : cumple val (Add (Sum (t :: ts)) LE (Const (max_dias_semana a))) = true).
  { apply (sol_r_semana i w); [exact Hi|exact Hw|]. unfold c_semana.
    right. apply in_app_iff. right. rewrite E. left. reflexivity. }
  cbn [cumple eval compara] in H. apply Z.leb_le in H. exact H.
Qed.

Lemma sol_dia_no_laborable_sin_clase i d :
  (i < ni)%nat -> d ∈ dias_no_laborables a ->
  suma val (asignaciones_dia a i d) = 0.
Proof.
  intros Hi Hd. apply suma_cero. intros v Hv.
  apply in_map_iff in Hv as (g & <- & Hg). apply in_seq in Hg.
  apply (sol_no_laborable a m val Hm Hsol); [exact Hd|exact Hi|lia].
Qed.

Lemma sol_extremos :
  (1 <= ni)%nat ->
  (forall i, (i < ni)%nat -> val VMinCarga <= carga_de a val i <= val VMaxCarga) /\
  (exists i, (i < ni)%nat /\ carga_de a val i = val VMaxCarga) /\
  (exists i, (i < ni)%nat /\ carga_de a val i = val VMinCarga).
Proof.
  intros Hni.
  assert (Hmax : cumple val (AddMaxEquality VMaxCarga (cargas a)) = true).
  { apply (sol_restriccion a m val Hm Hsol). do 6 right. left. reflexivity. }
  assert (Hmin : cumple val (AddMinEquality VMinCarga (cargas a)) = true).
  { apply (sol_restriccion a m val Hm Hsol). do 6 right. right; left. reflexivity. }
  cbn [cumple] in Hmax, Hmin.
  destruct (extremo Z.max (map val (cargas a))) as [zmax|] eqn:Emax; [|discriminate].
  destruct (extremo Z.min (map val (cargas a))) as [zmin|] eqn:Emin; [|discriminate].
  apply Z.eqb_eq in Hmax, Hmin.
  apply extremo_max in Emax as [Hle Hin]. apply extremo_min in Emin as [Hge Hin'].
  assert (Hc : forall i, (i < ni)%nat -> In (carga_de a val i) (map val (cargas a))).
  { intros i Hi. unfold carga_de. rewrite <- (sol_carga a m val Hm Hsol i Hi).
    apply in_map. unfold cargas. apply in_map, in_seq. lia. }
  assert (Hc' : forall z, In z (map val (cargas a)) ->
                  exists i, (i < ni)%nat /\ carga_de a val i = z).
  { intros z Hz. apply in_map_iff in Hz as (v & <- & Hv).
    unfold cargas in Hv. apply in_map_iff in Hv as (i & <- & Hi). apply in_seq in Hi.
    exists i. split; [lia|]. unfold carga_de.
    symmetry. apply (sol_carga a m val Hm Hsol). lia. }
  split; [|split].
  - intros i Hi. specialize (Hc i Hi). specialize (Hle _ Hc). specialize (Hge _ Hc). lia.
  - rewrite Hmax. apply Hc', Hin.
  - rewrite Hmin. apply Hc', Hin'.
Qed.

End MasHechos.

(** X4.  In every solution of the model, an instructor teaches in each
    window of 7 days on at most [max_dias_semana] days (on none when the
    limit is negative or the window has no working day), and never on a
    non-working day. *)
Theorem tope_de_dias_trabajados a m val i w :
  construir_modelo a = Ok m ->
  es_solucion m val = true ->
  (i < num_instructores a)%nat ->
  (w < num_semanas a)%nat ->
  Z.of_nat (length (dias_con_clase a val i w)) <= Z.max 0 (max_dias_semana a) /\
  forall d, In d (dias_con_clase a val i w) -> d ∉ dias_no_laborables a.
Proof.
  intros Hm Hsol Hi Hw.
  assert (Hfuera : forall d, In d (dias_con_clase a val i w) -> d ∉ dias_no_laborables a).
  { intros d Hd Hnl. unfold dias_con_clase in Hd. apply filter_In in Hd as [_ Hd].
    apply Z.leb_le in Hd.
    rewrite (sol_dia_no_laborable_sin_clase a m val Hm Hsol i d Hi Hnl) in Hd. lia. }
  split; [|exact Hfuera].
  assert (Hcount : Z.of_nat (length (dias_con_clase a val i w))
                   <= suma val (dias_trabajados_semana a i w)).
  { unfold dias_con_clase, dias_trabajados_semana.
    assert (Hlab : forall d, In d (laborables_semana a w) ->
              0 <= val (VTrabajo i d) <= 1 /\
              (1 <= suma val (asignaciones_dia a i d) -> val (VTrabajo i d) = 1)).
    { intros d Hd. split; [apply (sol_trabajo_dominio a m val Hm Hsol i w d Hi Hw Hd)|].
      apply (sol_trabajo_enlace a m val Hm Hsol i w d Hi Hw Hd). }
    assert (Hnl : forall d, 1 <= suma val (asignaciones_dia a i d) ->
              no_laborable a d = false).
    { intros d Hd. apply no_laborable_false. intros Hin.
      rewrite (sol_dia_no_laborable_sin_clase a m val Hm Hsol i d Hi Hin) in Hd. lia. }
    unfold laborables_semana in Hlab |- *.
    induction (rango (dia_inicio w) (dia_fin a w)) as [|d l IH]; [reflexivity|].
    assert (IH' := IH (fun x Hx => Hlab x ltac:(
      apply filter_In in Hx as [Hx1 Hx2]; apply filter_In; split; [right; exact Hx1|exact Hx2]))).
    clear IH. cbn [List.filter].
    destruct (1 <=? suma val (asignaciones_dia a i d)) eqn:E.
    - apply Z.leb_le in E. rewrite (Hnl d E). cbn [negb length map suma].
      destruct (Hlab d) as [_ Ht].
      { apply filter_In. split; [left; reflexivity|]. rewrite (Hnl d E). reflexivity. }
      rewrite (Ht E). lia.
    - destruct (no_laborable a d) eqn:En; cbn [negb map suma]; [exact IH'|].
      destruct (Hlab d) as [Hd _].
      { apply filter_In. split; [left; reflexivity|]. rewrite En. reflexivity. }
      lia. }
  destruct (laborables_semana a w) as [|d0 l0] eqn:E.
  - unfold dias_trabajados_semana in Hcount. rewrite E in Hcount. simpl in Hcount. lia.
  - pose proof (sol_tope_dias a m val Hm Hsol i w Hi Hw) as Ht.
    rewrite E in Ht. specialize (Ht ltac:(discriminate)). lia.
Qed.

(** X5.  In every solution of a model with an instructor, [max_carga]
    and [min_carga] are the largest and the smallest load, each reached
    by some instructor, so the objective is the spread of the loads and
    is never negative. *)
Theorem objetivo_es_el_desbalance a m val :
  construir_modelo a = Ok m ->
  es_solucion m val = true ->
  (1 <= num_instructores a)%nat ->
  (forall i, (i < num_instructores a)%nat ->
     val VMinCarga <= carga_de a val i <= val VMaxCarga) /\
  (exists i, (i < num_instructores a)%nat /\ carga_de a val i = val VMaxCarga) /\
  (exists i, (i < num_instructores a)%nat /\ carga_de a val i = val VMinCarga) /\
  valor_objetivo m val = val VMaxCarga - val VMinCarga /\
  0 <= valor_objetivo m val.
Proof.
  intros Hm Hsol Hni.
  destruct (sol_extremos a m val Hm Hsol Hni) as (Hb & Hmax & Hmin).
  split; [exact Hb|]. split; [exact Hmax|]. split; [exact Hmin|].
  destruct (construir_modelo_inv a m Hm) as (_ & _ & _ & _ & Hobj).
  unfold valor_objetivo. rewrite Hobj. cbn [eval]. split; [reflexivity|].
  destruct Hmax as (i & Hi & _). specialize (Hb i Hi). lia.
Qed.

(** ** Counting assignments *)

Lemma suma_bloques_eq (val : Valores) {A : Type} (f : A -> list Var) (l : list A) c :
  (forall x, In x l -> suma val (f x) = c) ->
  suma val (flat_map f l) = c * Z.of_nat (length l).
Proof.
  induction l as [|x l IH]; intros H; [simpl; lia|].
  cbn [flat_map length]. rewrite suma_app, (H x) by (left; reflexivity).
  rewrite IH by (intros y Hy; apply H; right; exact Hy). lia.
Qed.

Lemma suma_bloques_le (val : Valores) {A : Type} (f : A -> list Var) (l : list A) c :
  (forall x, In x l -> suma val (f x) <= c) ->
  suma val (flat_map f l) <= c * Z.of_nat (length l).
Proof.
  induction l as [|x l IH]; intros H; [simpl; lia|].
  cbn [flat_map length]. rewrite suma_app.
  assert (suma val (f x) <= c) by (apply H; left; reflexivity).
  assert (suma val (flat_map f l) <= c * Z.of_nat (length l))
    by (apply IH; intros y Hy; apply H; right; exact Hy).
  lia.
Qed.

Lemma suma_flat_map_app (val : Valores) {A : Type} (f h : A -> list Var) (l : list A) :
  suma val (flat_map (fun x => f x ++ h x) l)
  = suma val (flat_map f l) + suma val (flat_map h l).
Proof.
  induction l as [|x l IH]; [reflexivity|].
  cbn [flat_map]. rewrite !suma_app, IH. lia.
Qed.

(** All the assignments of a list of days, summed instructor by
    instructor or day by day. *)
Lemma suma_por_instructor (val : Valores) (ins ds gs : list nat) :
  suma val (flat_map (fun i => flat_map (fun d => map (fun g => VAsig i d g) gs) ds) ins)
  = suma val (flat_map (fun d => flat_map (fun g => map (fun i => VAsig i d g) ins) gs) ds).
Proof.
  induction ds as [|d ds IH].
  - simpl. apply suma_cero. intros v Hv. apply in_flat_map in Hv as (i & _ & []).
  - cbn [flat_map]. rewrite suma_app, <- IH.
    rewrite <- (suma_intercambio val (fun i g => VAsig i d g) ins gs).
    apply (suma_flat_map_app val (fun i => map (fun g => VAsig i d g) gs)
             (fun i => flat_map (fun d0 => map (fun g => VAsig i d0 g) gs) ds)).
Qed.

Section Conteo.

Variable a : Args.
Variable m : CpModel.
Variable val : Valores.
Hypothesis Hm : construir_modelo a = Ok m.
Hypothesis Hsol : es_solucion m val = true.

#[local] Abbreviation ni := (num_instructores a).
#[local] Abbreviation ng := (num_grupos a).
#[local] Abbreviation nd := (num_dias a).

(** The assignments of one day: one per group on a working day, none
    otherwise. *)
Lemma suma_de_un_dia d :
  (d < nd)%nat ->
  suma val (flat_map (fun g => map (fun i => VAsig i d g) (seq 0 ni)) (seq 0 ng))
  = if no_laborable a d then 0 else Z.of_nat ng.
Proof.
  intros Hd. destruct (no_laborable a d) eqn:E.
  - apply no_laborable_true in E. apply suma_cero. intros v Hv.
    apply in_flat_map in Hv as (g & Hg & Hv). apply in_map_iff in Hv as (i & <- & Hi).
    apply in_seq in Hg, Hi.
    apply (sol_no_laborable a m val Hm Hsol); [exact E|lia|lia].
  - apply no_laborable_false in E.
    rewrite (suma_bloques_eq val _ _ 1), length_seq; [lia|].
    intros g Hg. apply in_seq in Hg.
    apply (sol_cobertura a m val Hm Hsol); [exact Hd|exact E|lia].
Qed.

Lemma suma_por_dias ds :
  (forall d, In d ds -> (d < nd)%nat) ->
  suma val (flat_map (fun d => flat_map (fun g => map (fun i => VAsig i d g) (seq 0 ni))
                                         (seq 0 ng)) ds)
  = Z.of_nat ng * Z.of_nat (length (List.filter (fun d => negb (no_laborable a d)) ds)).
Proof.
  induction ds as [|d ds IH]; intros H; [simpl; lia|].
  cbn [flat_map List.filter]. rewrite suma_app, suma_de_un_dia by (apply H; left; reflexivity).
  rewrite IH by (intros x Hx; apply H; right; exact Hx).
  destruct (no_laborable a d); cbn [negb length]; lia.
Qed.

Lemma rango_semana_en_horizonte w d :
  In d (rango (dia_inicio w) (dia_fin a w)) -> (d < nd)%nat.
Proof. unfold rango, dia_fin. intros H. apply in_seq in H. lia. Qed.

Lemma suma_cargas :
  suma val (flat_map (total_instructor a) (seq 0 ni))
  = Z.of_nat ng * Z.of_nat (length (dias_habiles a)).
Proof.
  unfold total_instructor, asignaciones_dia, dias_habiles.
  rewrite suma_por_instructor. apply suma_por_dias.
  intros d Hd. apply in_seq in Hd. lia.
Qed.

Lemma suma_semana w :
  suma val (flat_map (fun i => asignaciones_semana a i w) (seq 0 ni))
  = Z.of_nat ng * Z.of_nat (length (laborables_semana a w)).
Proof.
  unfold asignaciones_semana, asignaciones_dia, laborables_semana.
  rewrite suma_por_instructor. apply suma_por_dias. apply rango_semana_en_horizonte.
Qed.

End Conteo.

(** X6.  In every solution of the model the loads of the instructors add
    up to the number of groups times the number of working days of the
    horizon: every session that is due is given, and no other. *)
Theorem las_cargas_suman_el_total a m val :
  construir_modelo a = Ok m ->
  es_solucion m val = true ->
  fold_right (fun i acc => carga_de a val i + acc) 0 (seq 0 (num_instructores a))
  = Z.of_nat (num_grupos a) * Z.of_nat (length (dias_habiles a)).
Proof.
  intros Hm Hsol. rewrite <- (suma_cargas a m val Hm Hsol).
  unfold carga_de. symmetry. apply suma_flat_map.
Qed.

(** X7.  The model has no solution unless the instructors can carry the
    groups: whenever it has one, a horizon with a working day has at
    most as many groups as instructors, and in every week the groups
    times the working days of the week are at most the instructors times
    the weekly cap of sessions. *)
Theorem capacidad_necesaria a m val :
  construir_modelo a = Ok m ->
  es_solucion m val = true ->
  (0 < dias_laborables a -> (num_grupos a <= num_instructores a)%nat) /\
  (forall w, (w < num_semanas a)%nat ->
     Z.of_nat (num_grupos a) * Z.of_nat (length (laborables_semana a w))
     <= Z.of_nat (num_instructores a) * max_asignaciones_semana a).
Proof.
  intros Hm Hsol. split.
  - intros Hdl. destruct (hay_dia_habil a Hdl) as (d & Hd & Hw).
    pose proof (suma_de_un_dia a m val Hm Hsol d Hd) as Hdia.
    apply no_laborable_false in Hw. rewrite Hw in Hdia.
    rewrite <- (suma_intercambio val (fun i g => VAsig i d g)) in Hdia.
    pose proof (suma_bloques_le val
                  (fun i => map (fun g => VAsig i d g) (seq 0 (num_grupos a)))
                  (seq 0 (num_instructores a)) 1) as Hle.
    rewrite length_seq in Hle.
    assert (suma val (flat_map (fun i => map (fun g => VAsig i d g) (seq 0 (num_grupos a)))
                               (seq 0 (num_instructores a)))
            <= 1 * Z.of_nat (num_instructores a)).
    { apply Hle. intros i Hi. apply in_seq in Hi.
      apply (sol_exclusividad a m val Hm Hsol i d); [lia|exact Hd]. }
    lia.
  - intros w Hw. rewrite <- (suma_semana a m val Hm Hsol w).
    pose proof (suma_bloques_le val (fun i => asignaciones_semana a i w)
                  (seq 0 (num_instructores a)) (max_asignaciones_semana a)) as Hle.
    rewrite length_seq in Hle. rewrite Z.mul_comm. apply Hle.
    intros i Hi. apply in_seq in Hi.
    apply (sol_tope_semanal a m val Hm Hsol i w); [lia|exact Hw].
Qed.

(** ** The rows of a solved run *)

Lemma Forall2_In_r {A B : Type} (R : A -> B -> Prop) l1 l2 y :
  Forall2 R l1 l2 -> In y l2 -> exists x, In x l1 /\ R x y.
Proof.
  induction 1 as [|x y' l1 l2 Hxy _ IH]; intros Hy; [destruct Hy|].
  destruct Hy as [<-|Hy].
  - exists x. split; [left; reflexivity|exact Hxy].
  - destruct (IH Hy) as (x' & Hx' & HR). exists x'. split; [right; exact Hx'|exact HR].
Qed.

Lemma Forall2_longitud {A B : Type} (R : A -> B -> Prop) l1 l2 :
  Forall2 R l1 l2 -> length l1 = length l2.
Proof. induction 1; simpl; congruence. Qed.

(** What a row holds, read back from the cell it was built for. *)
Lemma fila_de_inv a fecha0 d g i f :
  fila_de a fecha0 (d, g, i) = Ok f ->
  exists grupo_info instructor_info,
    nth_error (grupos a) g = Some grupo_info /\
    nth_error (instructores a) i = Some instructor_info /\
    Datetime.valida (fecha0 + Z.of_nat d) = true /\
    Fecha f = Datetime.strftime_Ymd (fecha0 + Z.of_nat d) /\
    Dia f = get_dia_semana (fecha0 + Z.of_nat d) /\
    Festivo f = (if no_laborable a d then "Sí" else "No") /\
    Estado f = "Programado" /\ Notas f = "" /\
    ambientes a <> [] /\
    nth_error (ambientes a) ((d * num_grupos a + g) mod length (ambientes a))%nat
      = Some (Ambiente f) /\
    nth_error jornada_options ((d + g) mod 3)%nat = Some (Jornada f) /\
    In (Jornada f, Hora_Inicio f, Hora_Fin f)
       [ ("Mañana", "08:00", "13:00"); ("Tarde", "14:00", "18:00");
         ("Noche", "18:00", "22:00") ] /\
    Ficha f = default "N/A" (grupo_info !! "Ficha") /\
    Programa f = default "N/A" (grupo_info !! "Programa") /\
    Trimestre f = default "N/A" (grupo_info !! "Trimestre") /\
    Instructor f = default "N/A" (instructor_info !! "Nombre").
Proof.
  intros H. unfold fila_de in H.
  apply ligar_inv in H as (fecha_real & Hf & H).
  assert (Hval : Datetime.valida (fecha0 + Z.of_nat d) = true).
  { unfold Datetime.mas_dias in Hf. destruct (Datetime.valida _); [reflexivity|discriminate]. }
  apply mas_dias_inv in Hf. subst fecha_real.
  apply ligar_inv in H as (grupo_info & Hg & H). apply indexar_inv in Hg.
  unfold fila in H.
  apply ligar_inv in H as (instructor_info & Hi & H). apply indexar_inv in Hi.
  apply ligar_inv in H as (amb_idx & Hidx & H). apply modulo_inv in Hidx as [Hlen ->].
  apply ligar_inv in H as (ambiente & Hamb & H). apply indexar_inv in Hamb.
  apply ligar_inv in H as (curr_idx & _ & H).
  apply ligar_inv in H as (curr_info & _ & H).
  apply ligar_inv in H as (jornada_idx & Hj & H). apply modulo_inv in Hj as [_ ->].
  apply ligar_inv in H as (jornada_dia & Hjd & H). apply indexar_inv in Hjd.
  change (length jornada_options) with 3%nat in Hjd.
  assert (Hk : ((d + g) mod 3 < 3)%nat) by (apply Nat.mod_upper_bound; lia).
  exists grupo_info, instructor_info.
  assert (Hne : ambientes a <> []) by (destruct (ambientes a); [contradiction|discriminate]).
  destruct ((d + g) mod 3)%nat as [|[|[|k]]]; [| | |lia];
    simpl in Hjd; injection Hjd as <-; simpl in H; injection H as <-; simpl;
    repeat split; auto 10.
Qed.

(** A run that returns a solved status: its rows follow a rearrangement
    of the cells of the solver's values, which satisfy the model. *)
Lemma corrida_resuelta Solve hoy a filas nombre stats :
  (forall m, construir_modelo a = Ok m -> entrega_solucion m (Solve m)) ->
  ejecutar Solve (generar_horario_optimo hoy a) = Ok (filas, nombre, stats) ->
  nombre = "OPTIMAL" \/ nombre = "FEASIBLE" ->
  exists m cs rs,
    construir_modelo a = Ok m /\ 0 < dias_laborables a /\
    es_solucion m (Value (Solve m)) = true /\
    resultados a (default hoy (fecha_inicio a)) (Value (Solve m)) = Ok rs /\
    filas = sort_values rs /\
    Permutation (celdas a (Value (Solve m))) cs /\
    Forall2 (fun c f => fila_de a (default hoy (fecha_inicio a)) c = Ok f) cs filas /\
    stats !! "total_asignaciones_esperadas" = Some (Entero (total_asignaciones a)).
Proof.
  intros Hsolve Hrun Hn.
  apply ejecutar_generar_inv in Hrun as [[_ E]|(Hdl & m & Hm & Hrun)].
  { injection E as _ -> _. destruct Hn; discriminate. }
  pose proof (tras_resolver_nombre _ _ _ _ _ _ Hrun) as [_ Hstats].
  apply tras_resolver_resuelto in Hrun as [Hst Hmat]; [|exact Hn].
  pose proof (Hsolve m Hm Hst) as Hsol.
  apply ligar_inv in Hmat as (rs & Hrs & Hmat). injection Hmat as <-.
  pose proof (resultados_celdas _ _ _ _ Hrs) as Hcel.
  destruct (Forall2_permutado _ _ _ (sort_values_perm rs) _ Hcel) as (cs & Hp & Hcs).
  exists m, cs, rs. repeat split; auto.
  rewrite Hstats. by simplify_map_eq.
Qed.

Lemma longitud_celdas_dia (val : Valores) (d : nat) (gs ins : list nat) :
  (forall g i, In g gs -> In i ins -> 0 <= val (VAsig i d g) <= 1) ->
  Z.of_nat (length (flat_map (fun g =>
      map (fun i => (d, g, i)) (List.filter (fun i => val (VAsig i d g) =? 1) ins)) gs))
  = suma val (flat_map (fun g => map (fun i => VAsig i d g) ins) gs).
Proof.
  induction gs as [|g gs IH]; intros Hdom; [reflexivity|].
  cbn [flat_map]. rewrite length_app, Nat2Z.inj_add, suma_app.
  rewrite IH by (intros g' i Hg' Hi; apply Hdom; [right; exact Hg'|exact Hi]).
  f_equal. rewrite length_map.
  apply (cuenta_de_unos val (fun i => VAsig i d g)).
  intros i Hi. apply Hdom; [left; reflexivity|exact Hi].
Qed.

Lemma longitud_celdas a (val : Valores) :
  (forall i d g, (i < num_instructores a)%nat -> (d < num_dias a)%nat ->
                 (g < num_grupos a)%nat -> 0 <= val (VAsig i d g) <= 1) ->
  Z.of_nat (length (celdas a val))
  = suma val (flat_map (fun d => flat_map (fun g =>
        map (fun i => VAsig i d g) (seq 0 (num_instructores a)))
      (seq 0 (num_grupos a))) (seq 0 (num_dias a))).
Proof.
  intros Hdom. unfold celdas.
  assert (Hd : forall d, In d (seq 0 (num_dias a)) -> (d < num_dias a)%nat)
    by (intros d Hd; apply in_seq in Hd; lia).
  revert Hd. generalize (seq 0 (num_dias a)) as ds.
  induction ds as [|d ds IHd]; intros Hd; [reflexivity|].
  cbn [flat_map]. rewrite length_app, Nat2Z.inj_add, suma_app.
  rewrite IHd by (intros x Hx; apply Hd; right; exact Hx). f_equal.
  apply longitud_celdas_dia. intros g i Hg Hi. apply in_seq in Hg, Hi.
  apply Hdom; [lia|apply Hd; left; reflexivity|lia].
Qed.

Lemma sol_grupos_le_instructores a m val :
  construir_modelo a = Ok m -> es_solucion m val = true ->
  0 < dias_laborables a -> (num_grupos a <= num_instructores a)%nat.
Proof.
  intros Hm Hsol Hdl. destruct (hay_dia_habil a Hdl) as (d & Hd & Hw).
  pose proof (suma_de_un_dia a m val Hm Hsol d Hd) as Hdia.
  apply no_laborable_false in Hw. rewrite Hw in Hdia.
  rewrite <- (suma_intercambio val (fun i g => VAsig i d g)) in Hdia.
  pose proof (suma_bloques_le val
                (fun i => map (fun g => VAsig i d g) (seq 0 (num_grupos a)))
                (seq 0 (num_instructores a)) 1) as Hle.
  rewrite length_seq in Hle.
  assert (suma val (flat_map (fun i => map (fun g => VAsig i d g) (seq 0 (num_grupos a)))
                             (seq 0 (num_instructores a)))
          <= 1 * Z.of_nat (num_instructores a)).
  { apply Hle. intros i Hi. apply in_seq in Hi.
    apply (sol_exclusividad a m val Hm Hsol i d); [lia|exact Hd]. }
  lia.
Qed.

(** X8.  A run that returns with status OPTIMAL or FEASIBLE returns as
    many rows as there are groups times working days in the horizon, and
    that number is the one it reports under
    [total_asignaciones_esperadas]. *)
Theorem filas_esperadas Solve hoy a filas nombre stats :
  (forall m, construir_modelo a = Ok m -> entrega_solucion m (Solve m)) ->
  ejecutar Solve (generar_horario_optimo hoy a) = Ok (filas, nombre, stats) ->
  nombre = "OPTIMAL" \/ nombre = "FEASIBLE" ->
  length filas = (num_grupos a * length (dias_habiles a))%nat /\
  stats !! "total_asignaciones_esperadas" = Some (Entero (Z.of_nat (length filas))).
Proof.
  intros Hsolve Hrun Hn.
  destruct (corrida_resuelta _ _ _ _ _ _ Hsolve Hrun Hn)
    as (m & cs & rs & Hm & Hdl & Hsol & _ & _ & Hp & Hcs & Hst).
  assert (Hlen : Z.of_nat (length filas)
                 = Z.of_nat (num_grupos a) * Z.of_nat (length (dias_habiles a))).
  { rewrite <- (Forall2_longitud _ _ _ Hcs), <- (Permutation_length Hp).
    rewrite longitud_celdas
      by (intros; eapply sol_dominio_asignacion; eassumption).
    apply (suma_por_dias a m _ Hm Hsol). intros d Hd. apply in_seq in Hd. lia. }
  split; [lia|]. rewrite Hst, Hlen. do 2 f_equal.
  destruct (Nat.eq_dec (num_grupos a) 0%nat) as [Eg|Eg].
  - unfold total_asignaciones. rewrite Eg. reflexivity.
  - apply (total_asignaciones_habiles a m Hm).
    pose proof (sol_grupos_le_instructores a m _ Hm Hsol Hdl). lia.
Qed.

(** X9.  In a run that returns with status OPTIMAL or FEASIBLE, no row
    is flagged as holiday: every row has Festivo "No" and Estado
    "Programado", and its time slot is one of the three fixed ones, the
    hours of the curriculum session being never used. *)
Theorem filas_programadas Solve hoy a filas nombre stats f :
  (forall m, construir_modelo a = Ok m -> entrega_solucion m (Solve m)) ->
  ejecutar Solve (generar_horario_optimo hoy a) = Ok (filas, nombre, stats) ->
  nombre = "OPTIMAL" \/ nombre = "FEASIBLE" ->
  In f filas ->
  Festivo f = "No" /\ Estado f = "Programado" /\
  In (Jornada f, Hora_Inicio f, Hora_Fin f)
     [ ("Mañana", "08:00", "13:00"); ("Tarde", "14:00", "18:00");
       ("Noche", "18:00", "22:00") ].
Proof.
  intros Hsolve Hrun Hn Hf.
  destruct (corrida_resuelta _ _ _ _ _ _ Hsolve Hrun Hn)
    as (m & cs & rs & Hm & Hdl & Hsol & _ & _ & Hp & Hcs & _).
  destruct (Forall2_In_r _ _ _ _ Hcs Hf) as ([[d g] i] & Hc & Hfila).
  apply (Permutation_in _ (Permutation_sym Hp)), celdas_In in Hc as (Hd & Hg & Hi & Ev).
  destruct (fila_de_inv _ _ _ _ _ _ Hfila)
    as (gi & ii & _ & _ & _ & _ & _ & Hfest & Hest & _ & _ & _ & _ & Hslot & _).
  split; [|split; [exact Hest|exact Hslot]].
  rewrite Hfest. destruct (no_laborable a d) eqn:E; [|reflexivity].
  apply no_laborable_true in E.
  pose proof (sol_no_laborable a m _ Hm Hsol i d g E Hi Hg). lia.
Qed.

(** X10.  On one day the groups rotate through the environments without
    meeting: with no more groups than environments and no environment
    listed twice, the rows of two different groups on the same day never
    name the same environment. *)
Theorem ambientes_sin_choque a fecha0 d g g' i i' f f' :
  (num_grupos a <= length (ambientes a))%nat ->
  List.NoDup (ambientes a) ->
  (g < num_grupos a)%nat -> (g' < num_grupos a)%nat -> g <> g' ->
  fila_de a fecha0 (d, g, i) = Ok f ->
  fila_de a fecha0 (d, g', i') = Ok f' ->
  Ambiente f <> Ambiente f'.
Proof.
  intros Hcap Hnd Hg Hg' Hne Hf Hf' E.
  destruct (fila_de_inv _ _ _ _ _ _ Hf)
    as (_ & _ & _ & _ & _ & _ & _ & _ & _ & _ & Hamb & Ha & _).
  destruct (fila_de_inv _ _ _ _ _ _ Hf')
    as (_ & _ & _ & _ & _ & _ & _ & _ & _ & _ & _ & Ha' & _).
  rewrite <- E in Ha'.
  set (n := length (ambientes a)) in *.
  assert (Hn : n <> 0%nat) by (unfold n; destruct (ambientes a); [contradiction|discriminate]).
  assert (Hidx : ((d * num_grupos a + g) mod n = (d * num_grupos a + g') mod n)%nat).
  { apply (proj1 (NoDup_nth_error (ambientes a)) Hnd).
    - apply Nat.mod_upper_bound, Hn.
    - rewrite Ha, Ha'. reflexivity. }
  apply Hne.
  assert (Hsym : forall x y, (x < y)%nat -> (y < num_grupos a)%nat ->
            ((d * num_grupos a + x) mod n <> (d * num_grupos a + y) mod n)%nat).
  { intros x y Hxy Hy Heq.
    replace (d * num_grupos a + y)%nat with ((d * num_grupos a + x) + (y - x))%nat in Heq by lia.
    set (b := (d * num_grupos a + x)%nat) in *.
    pose proof (Nat.div_mod_eq b n) as Hb.
    pose proof (Nat.mod_upper_bound b n Hn) as Hbm.
    pose proof (Nat.div_mod_eq (b + (y - x)) n) as Hc.
    pose proof (Nat.mod_upper_bound (b + (y - x)) n Hn) as Hcm.
    rewrite <- Heq in Hc.
    assert (Hq : (n * ((b + (y - x)) / n) = n * (b / n) + (y - x))%nat) by lia.
    assert (Hlt : (b / n < (b + (y - x)) / n)%nat) by nia.
    nia. }
  destruct (Nat.lt_trichotomy g g') as [Hlt|[Heq|Hgt]]; [|exact Heq|].
  - exfalso. apply (Hsym g g' Hlt Hg' Hidx).
  - exfalso. apply (Hsym g' g Hgt Hg). symmetry. exact Hidx.
Qed.

(** ** The order of the rows *)

Lemma ascii_compare_lt_trans (a b c : ascii) :
  Ascii.compare a b = Lt -> Ascii.compare b c = Lt -> Ascii.compare a c = Lt.
Proof.
  unfold Ascii.compare. rewrite !N.compare_lt_iff. apply N.lt_trans.
Qed.

Lemma string_compare_lt_trans (s t u : string) :
  String.compare s t = Lt -> String.compare t u = Lt -> String.compare s u = Lt.
Proof.
  revert t u. induction s as [|a s IH]; intros [|b t] [|c u]; simpl; try (intros; congruence).
  destruct (Ascii.compare a b) eqn:Eab; try discriminate;
    destruct (Ascii.compare b c) eqn:Ebc; try discriminate; intros H1 H2.
  - apply Ascii.compare_eq_iff in Eab, Ebc. subst.
    replace (Ascii.compare c c) with Eq; [eapply IH; eassumption|].
    symmetry. unfold Ascii.compare. apply N.compare_refl.
  - apply Ascii.compare_eq_iff in Eab. subst. rewrite Ebc. reflexivity.
  - apply Ascii.compare_eq_iff in Ebc. subst. rewrite Eab. reflexivity.
  - rewrite (ascii_compare_lt_trans a b c Eab Ebc). reflexivity.
Qed.

Lemma antes_trans x y z : antes x y = true -> antes y z = true -> antes x z = true.
Proof.
  unfold antes.
  destruct (String.compare x y) eqn:E1; try discriminate.
  destruct (String.compare y z) eqn:E2; try discriminate.
  rewrite (string_compare_lt_trans x y z E1 E2). reflexivity.
Qed.

Lemma antes_asim x y : antes x y = true -> antes y x = false.
Proof.
  unfold antes. rewrite (String.compare_antisym x y).
  destruct (String.compare y x); simpl; intros; congruence.
Qed.

Lemma antes_tricotomia x y :
  antes x y = false -> antes y x = false -> x = y.
Proof.
  unfold antes. rewrite (String.compare_antisym x y).
  destruct (String.compare y x) eqn:E; simpl; try discriminate.
  intros _ _. symmetry. apply String.compare_eq_iff, E.
Qed.

(** [clave_leb] is the lexicographic order of the three columns. *)
Lemma clave_leb_spec f1 f2 :
  clave_leb f1 f2 = true <->
  antes (Fecha f1) (Fecha f2) = true \/
  (Fecha f1 = Fecha f2 /\
   (antes (Hora_Inicio f1) (Hora_Inicio f2) = true \/
    (Hora_Inicio f1 = Hora_Inicio f2 /\ antes (Programa f2) (Programa f1) = false))).
Proof.
  unfold clave_leb.
  destruct (antes (Fecha f1) (Fecha f2)) eqn:F12; [tauto|].
  destruct (antes (Fecha f2) (Fecha f1)) eqn:F21.
  { split; [discriminate|]. intros [H|[H _]]; [discriminate|].
    rewrite H in F21. rewrite (antes_asim _ _ F21) in F21. discriminate. }
  pose proof (antes_tricotomia _ _ F12 F21) as EF.
  destruct (antes (Hora_Inicio f1) (Hora_Inicio f2)) eqn:H12; [tauto|].
  destruct (antes (Hora_Inicio f2) (Hora_Inicio f1)) eqn:H21.
  { split; [discriminate|]. intros [H|[_ [H|[H _]]]]; try discriminate.
    rewrite H in H21. rewrite (antes_asim _ _ H21) in H21. discriminate. }
  pose proof (antes_tricotomia _ _ H12 H21) as EH.
  rewrite negb_true_iff. split.
  - intros H. right. split; [exact EF|]. right. split; [exact EH|exact H].
  - intros [H|[_ [H|[_ H]]]]; [discriminate|discriminate|exact H].
Qed.

Lemma clave_leb_total f1 f2 : clave_leb f1 f2 = false -> clave_leb f2 f1 = true.
Proof.
  intros H. apply clave_leb_spec.
  assert (Hn : ~ clave_leb f1 f2 = true) by congruence.
  rewrite clave_leb_spec in Hn.
  destruct (antes (Fecha f2) (Fecha f1)) eqn:F21; [tauto|]. right.
  destruct (antes (Fecha f1) (Fecha f2)) eqn:F12; [tauto|].
  pose proof (antes_tricotomia _ _ F12 F21) as EF. split; [congruence|].
  destruct (antes (Hora_Inicio f2) (Hora_Inicio f1)) eqn:H21; [tauto|]. right.
  destruct (antes (Hora_Inicio f1) (Hora_Inicio f2)) eqn:H12; [tauto|].
  pose proof (antes_tricotomia _ _ H12 H21) as EH. split; [congruence|].
  destruct (antes (Programa f1) (Programa f2)) eqn:P12; [|reflexivity].
  exfalso. apply Hn. right. split; [exact EF|]. right. split; [exact EH|].
  apply antes_asim, P12.
Qed.

Lemma antes_negado_trans x y z :
  antes y x = false -> antes z y = false -> antes z x = false.
Proof.
  intros H1 H2. destruct (antes z x) eqn:E; [|reflexivity].
  destruct (antes x y) eqn:Exy.
  - rewrite (antes_trans z x y E Exy) in H2. discriminate.
  - rewrite (antes_tricotomia x y Exy H1) in E. congruence.
Qed.

Lemma clave_leb_trans f1 f2 f3 :
  clave_leb f1 f2 = true -> clave_leb f2 f3 = true -> clave_leb f1 f3 = true.
Proof.
  rewrite !clave_leb_spec.
  intros [F12|[EF12 H12]] [F23|[EF23 H23]].
  - left. eapply antes_trans; eassumption.
  - left. rewrite <- EF23. exact F12.
  - left. rewrite EF12. exact F23.
  - right. split; [congruence|].
    destruct H12 as [H12|[EH12 P12]], H23 as [H23|[EH23 P23]].
    + left. eapply antes_trans; eassumption.
    + left. rewrite <- EH23. exact H12.
    + left. rewrite EH12. exact H23.
    + right. split; [congruence|]. eapply antes_negado_trans; eassumption.
Qed.

Lemma insertar_In f x l : In x (insertar f l) <-> x = f \/ In x l.
Proof.
  split.
  - intros H. apply (Permutation_in _ (Permutation_sym (insertar_perm f l))) in H.
    destruct H as [<-|H]; auto.
  - intros H. apply (Permutation_in _ (insertar_perm f l)).
    destruct H as [->|H]; [left; reflexivity|right; exact H].
Qed.

Lemma insertar_ordenada f l :
  StronglySorted (fun x y => clave_leb x y = true) l ->
  StronglySorted (fun x y => clave_leb x y = true) (insertar f l).
Proof.
  induction 1 as [|x l Hl IH Hx]; simpl; [repeat constructor|].
  destruct (clave_leb f x) eqn:E.
  - constructor; [constructor; assumption|].
    constructor; [exact E|].
    apply List.Forall_forall. intros y Hy. rewrite List.Forall_forall in Hx.
    eapply clave_leb_trans; [exact E|apply Hx, Hy].
  - constructor; [exact IH|].
    apply List.Forall_forall. intros y Hy. apply insertar_In in Hy as [->|Hy].
    + apply clave_leb_total, E.
    + rewrite List.Forall_forall in Hx. apply Hx, Hy.
Qed.

Lemma sort_values_ordenada l :
  StronglySorted (fun x y => clave_leb x y = true) (sort_values l).
Proof.
  induction l as [|x l IH]; simpl; [constructor|]. apply insertar_ordenada, IH.
Qed.



(** X11.  The rows come out ordered by date text, then start time, then
    programme, each row no later than every row after it, and they are
    the rows of the loops rearranged: none is lost, none is added. *)
Theorem orden_de_las_filas a fecha0 Value filas :
  materializar a fecha0 Value = Ok filas ->
  StronglySorted (fun f1 f2 => clave_leb f1 f2 = true) filas /\
  exists rs, resultados a fecha0 Value = Ok rs /\ Permutation rs filas.
Proof.
  intros H. apply ligar_inv in H as (rs & Hrs & H). injection H as <-.
  split; [apply sort_values_ordenada|].
  exists rs. split; [exact Hrs|apply sort_values_perm].
Qed.


(** ** When the engine raises *)



Lemma hay_celda a m val :
  construir_modelo a = Ok m -> es_solucion m val = true ->
  0 < dias_laborables a -> (0 < num_grupos a)%nat ->
  exists c, In c (celdas a val).
Proof.
  intros Hm Hsol Hdl Hg. destruct (hay_dia_habil a Hdl) as (d & Hd & Hw).
  pose proof (sol_cobertura a m val Hm Hsol d 0 Hd Hw Hg) as Hsum.
  destruct (suma_uno_existe val
              (map (fun i => VAsig i d 0) (seq 0 (num_instructores a))))
    as (v & Hv & Ev); [|exact Hsum|].
  { intros v Hv. apply in_map_iff in Hv as (i & <- & Hi). apply in_seq in Hi.
    apply (sol_dominio_asignacion a m val Hm Hsol); [lia|exact Hd|exact Hg]. }
  apply in_map_iff in Hv as (i & <- & Hi). apply in_seq in Hi.
  exists (d, 0%nat, i). apply celdas_In. repeat split; auto; lia.
Qed.

(** X14.  With an empty list of environments a solved run cannot give
    its rows: when the model is built, with a group and a working day,
    and the solver answers OPTIMAL or FEASIBLE with values that satisfy
    it, the data of groups and instructors being complete and the dates
    representable, the run raises [ZeroDivisionError]. *)
Theorem sin_ambientes_division_por_cero Solve hoy a m :
  construir_modelo a = Ok m ->
  entrega_solucion m (Solve m) ->
  status (Solve m) = OPTIMAL \/ status (Solve m) = FEASIBLE ->
  ambientes a = [] ->
  0 < dias_laborables a -> (0 < num_grupos a)%nat ->
  (num_grupos a <= length (grupos a))%nat ->
  (num_instructores a <= length (instructores a))%nat ->
  horizonte_valido (default hoy (fecha_inicio a)) (num_dias a) ->
  ejecutar Solve (generar_horario_optimo hoy a) = Lanza ZeroDivisionError.
Proof.
  intros Hm Hent Hst Hamb Hdl Hg Hgr Hin Hh.
  rewrite (generar_resuelve hoy a m Hdl Hm).
  pose proof (Hent Hst) as Hsol.
  cbn [ejecutar]. unfold tras_resolver.
  replace ((status (Solve m) =? OPTIMAL) || (status (Solve m) =? FEASIBLE)) with true
    by (symmetry; apply orb_true_iff; rewrite !Z.eqb_eq; exact Hst).
  unfold materializar.
  destruct (resultados a (default hoy (fecha_inicio a)) (Value (Solve m))) as [rs|e] eqn:Hrs.
  - exfalso. apply resultados_celdas in Hrs.
    destruct (hay_celda a m _ Hm Hsol Hdl Hg) as ([[d g] i] & Hc).
    destruct (celdas a (Value (Solve m))) as [|c0 cs0] eqn:Ec; [destruct Hc|].
    inversion Hrs as [|? f0 ? ? Hf0 _]; subst.
    destruct c0 as [[d0 g0] i0].
    destruct (fila_de_inv _ _ _ _ _ _ Hf0)
      as (_ & _ & _ & _ & _ & _ & _ & _ & _ & _ & Hne & _).
    contradiction.
  - rewrite ligar_inv_Lanza.
    unfold resultados in Hrs.
    apply recorrer_Lanza in Hrs as (d & Hd & H). apply in_seq in Hd.
    rewrite (mas_dias_total _ _ d Hh) in H by lia. rewrite ligar_Ok in H.
    apply recorrer_Lanza in H as (g & Hgg & H). apply in_seq in Hgg.
    destruct (indexar_total (grupos a) g) as [grupo_info Hgi]; [lia|].
    rewrite Hgi, ligar_Ok in H.
    apply recorrer_Lanza in H as (i & Hi & H). apply in_seq in Hi.
    destruct (Value (Solve m) (VAsig i d g) =? 1); [|discriminate].
    apply ligar_Lanza in H as [H|(f & _ & H)]; [|discriminate].
    unfold fila in H.
    destruct (indexar_total (instructores a) i) as [instructor_info Hii]; [lia|].
    rewrite Hii, ligar_Ok, Hamb in H. simpl in H. injection H as <-. reflexivity.
Qed.

(** ** The loaded data *)

Lemma agrupar_paso (ss : list Dict) (acc : gmap string (list Dict)) (k : string) :
  fold_left
    (fun (cpt : gmap string (list Dict)) sess =>
       <[ tri_key sess := default [] (cpt !! tri_key sess) ++ [sess] ]> cpt)
    ss acc !! k
  = match acc !! k, List.filter (del_trimestre k) ss with
    | Some bucket, l => Some (bucket ++ l)
    | None, [] => None
    | None, l => Some l
    end.
Proof.
  revert acc. induction ss as [|s ss IH]; intros acc.
  - simpl. destruct (acc !! k); [rewrite app_nil_r|]; reflexivity.
  - cbn [fold_left List.filter]. rewrite IH.
    destruct (String.eqb_spec (tri_key s) k) as [E|E].
    + replace (del_trimestre k s) with true
        by (symmetry; unfold del_trimestre; apply String.eqb_eq, E).
      rewrite E, lookup_insert_eq.
      destruct (acc !! k) as [bucket|]; simpl.
      * rewrite <- app_assoc. reflexivity.
      * reflexivity.
    + replace (del_trimestre k s) with false
        by (symmetry; unfold del_trimestre; apply String.eqb_neq, E).
      rewrite lookup_insert_ne by exact E. reflexivity.
Qed.

Lemma agrupar_lookup (ss : list Dict) (k : string) :
  agrupar_por_trimestre ss !! k
  = match List.filter (del_trimestre k) ss with
    | [] => None
    | l => Some l
    end.
Proof. unfold agrupar_por_trimestre. rewrite agrupar_paso, lookup_empty. reflexivity. Qed.

(** X15.  The trimester index built by the loader holds, under each key,
    the sessions of that key in the order of the file: no bucket is
    empty, a key without session has no bucket, and every session is in
    the bucket of its own key. *)
Theorem indice_por_trimestre (curriculo_sessions : list Dict) :
  (forall k bucket,
     agrupar_por_trimestre curriculo_sessions !! k = Some bucket ->
     bucket <> [] /\
     bucket = List.filter (fun sess => String.eqb (tri_key sess) k) curriculo_sessions) /\
  (forall k,
     agrupar_por_trimestre curriculo_sessions !! k = None <->
     forall sess, In sess curriculo_sessions -> tri_key sess <> k) /\
  (forall sess, In sess curriculo_sessions ->
     exists bucket,
       agrupar_por_trimestre curriculo_sessions !! tri_key sess = Some bucket /\
       In sess bucket).
Proof.
  split; [|split].
  - intros k bucket H. rewrite agrupar_lookup in H.
    destruct (List.filter (del_trimestre k) curriculo_sessions) as [|s l] eqn:E;
      [discriminate|].
    injection H as <-. split; [discriminate|]. symmetry. exact E.
  - intros k. rewrite agrupar_lookup. split.
    + intros H sess Hs Hk.
      assert (Hin : In sess (List.filter (del_trimestre k) curriculo_sessions)).
      { apply filter_In. split; [exact Hs|]. unfold del_trimestre.
        apply String.eqb_eq, Hk. }
      destruct (List.filter (del_trimestre k) curriculo_sessions); [destruct Hin|discriminate].
    + intros H.
      destruct (List.filter (del_trimestre k) curriculo_sessions) as [|s l] eqn:E;
        [reflexivity|].
      assert (Hin : In s (List.filter (del_trimestre k) curriculo_sessions))
        by (rewrite E; left; reflexivity).
      apply filter_In in Hin as [Hs Hk]. apply String.eqb_eq in Hk.
      exfalso. apply (H s Hs Hk).
  - intros sess Hs. rewrite agrupar_lookup.
    assert (Hin : In sess (List.filter (del_trimestre (tri_key sess)) curriculo_sessions)).
    { apply filter_In. split; [exact Hs|]. unfold del_trimestre. apply String.eqb_refl. }
    destruct (List.filter (del_trimestre (tri_key sess)) curriculo_sessions) as [|s l] eqn:E;
      [destruct Hin|].
    eexists. split; [reflexivity|exact Hin].
Qed.

(** X16.  With the index of the loader and a curriculum that is not
    empty, a row chooses among the sessions of its group's trimester
    when there are some, and among all the sessions otherwise: the
    placeholder session is never used, and a group whose trimester has
    sessions never gets a session of another trimester. *)
Theorem sesiones_con_indice_cargado a key :
  curriculo_por_trimestre a = agrupar_por_trimestre (curriculo_sessions a) ->
  curriculo_sessions a <> [] ->
  sesiones_trimestre a key
    = match List.filter (fun sess => String.eqb (tri_key sess) key) (curriculo_sessions a) with
      | [] => curriculo_sessions a
      | del_grupo => del_grupo
      end /\
  (forall sess, In sess (sesiones_trimestre a key) -> In sess (curriculo_sessions a)) /\
  ((exists sess, In sess (curriculo_sessions a) /\ tri_key sess = key) ->
   forall sess, In sess (sesiones_trimestre a key) -> tri_key sess = key).
Proof.
  intros Hidx Hne.
  assert (E : sesiones_trimestre a key
    = match List.filter (del_trimestre key) (curriculo_sessions a) with
      | [] => curriculo_sessions a
      | del_grupo => del_grupo
      end).
  { unfold sesiones_trimestre. rewrite Hidx, agrupar_lookup.
    destruct (List.filter (del_trimestre key) (curriculo_sessions a)) as [|s l]; simpl.
    - destruct (curriculo_sessions a); [congruence|reflexivity].
    - reflexivity. }
  split; [exact E|]. rewrite E. split.
  - intros sess Hs.
    destruct (List.filter (del_trimestre key) (curriculo_sessions a)) as [|s l] eqn:El;
      [exact Hs|].
    rewrite <- El in Hs. apply filter_In in Hs. tauto.
  - intros (s0 & Hs0 & Hk0) sess Hs.
    assert (Hin : In s0 (List.filter (del_trimestre key) (curriculo_sessions a))).
    { apply filter_In. split; [exact Hs0|]. unfold del_trimestre. apply String.eqb_eq, Hk0. }
    destruct (List.filter (del_trimestre key) (curriculo_sessions a)) as [|s l] eqn:El;
      [destruct Hin|].
    rewrite <- El in Hs. apply filter_In in Hs as [_ Hs]. apply String.eqb_eq, Hs.
Qed.

Lemma ambientes_cargados_no_vacio ambientes_limpios :
  ambientes_cargados ambientes_limpios <> [] /\
  forall x, In x (ambientes_cargados ambientes_limpios) -> x <> "".
Proof.
  unfold ambientes_cargados.
  set (l := omap _ ambientes_limpios).
  assert (Hl : forall x, In x l -> x <> "").
  { intros x Hx. apply list_elem_of_In, list_elem_of_omap in Hx as (o & _ & Ho).
    destruct o as [s|]; [|discriminate].
    destruct (String.eqb_spec s "") as [E|E]; [discriminate|]. congruence. }
  destruct l as [|x l']; [|split; [discriminate|exact Hl]].
  split; [discriminate|]. intros x [<-|[]]. discriminate.
Qed.

(** X17.  The loader answers [None] exactly when there is no group or no
    instructor.  Otherwise the counts it hands over are the lengths of
    the lists and are positive, there is an environment and none is
    empty text, there is a session, and the trimester index is the one
    of the sessions it hands over. *)
Theorem datos_cargados_validos grupos instructores ambientes_limpios sesiones horas :
  (datos_cargados grupos instructores ambientes_limpios sesiones horas = None <->
   grupos = [] \/ instructores = []) /\
  (forall datos,
     datos_cargados grupos instructores ambientes_limpios sesiones horas = Some datos ->
     d_num_grupos datos = length (d_grupos datos) /\
     d_num_instructores datos = length (d_instructores datos) /\
     (0 < d_num_grupos datos)%nat /\ (0 < d_num_instructores datos)%nat /\
     d_ambientes datos <> [] /\
     (forall x, In x (d_ambientes datos) -> x <> "") /\
     d_curriculo_sessions datos <> [] /\
     (sesiones <> [] -> d_curriculo_sessions datos = sesiones) /\
     d_curriculo_por_trimestre datos = agrupar_por_trimestre (d_curriculo_sessions datos)).
Proof.
  unfold datos_cargados. split.
  - destruct grupos as [|g gs], instructores as [|i ins]; simpl; split;
      try (intros _; auto; fail); try discriminate; intros [H|H]; discriminate.
  - intros datos H.
    destruct grupos as [|g gs]; [discriminate|].
    destruct instructores as [|i ins]; [discriminate|].
    simpl in H. injection H as <-. cbn [d_num_grupos d_grupos d_num_instructores
      d_instructores d_ambientes d_curriculo_sessions d_curriculo_por_trimestre].
    destruct (ambientes_cargados_no_vacio ambientes_limpios) as [Ha Hb].
    repeat split; auto; try (simpl; lia).
    + destruct sesiones; discriminate.
    + intros Hs. destruct sesiones; [congruence|reflexivity].
Qed.

(** ** From the button to the rows *)

Lemma materializar_total a fecha0 Value :
  ambientes a <> [] ->
  (num_grupos a <= length (grupos a))%nat ->
  (num_instructores a <= length (instructores a))%nat ->
  horizonte_valido fecha0 (num_dias a) ->
  exists filas, materializar a fecha0 Value = Ok filas.
Proof.
  intros Hamb Hg Hi Hh. unfold materializar, resultados.
  match goal with |- context [recorrer ?f ?l] =>
    destruct (recorrer_existe f l) as [rs Hrs] end.
  2:{ rewrite Hrs, ligar_Ok. eexists. reflexivity. }
  intros d Hd. apply in_seq in Hd.
  rewrite (mas_dias_total fecha0 (num_dias a) d Hh) by lia. rewrite ligar_Ok.
  apply recorrer_existe. intros g Hgin. apply in_seq in Hgin.
  destruct (indexar_total (grupos a) g) as [grupo_info ->]; [lia|].
  rewrite ligar_Ok.
  apply recorrer_existe. intros i Hin. apply in_seq in Hin.
  destruct (Value (VAsig i d g) =? 1); [|eexists; reflexivity].
  destruct (fila_total a (fecha0 + Z.of_nat d) grupo_info d g i) as [f ->];
    [exact Hamb|lia|].
  rewrite ligar_Ok. eexists. reflexivity.
Qed.

(** X18.  Called as the page calls it, with the data of the loader and
    the non-working days of [calcular_dias_no_laborables], the engine
    never raises: whatever the solver answers, the call returns, for
    weekly limits in the int64 range (the sliders of the page give 20 to
    48 hours and 1 to 7 days) and a horizon of at least one day whose
    dates, and the date after it, Python can represent. *)
Theorem la_llamada_no_falla Solve grupos instructores ambientes_limpios sesiones horas
    datos festivos fecha_inicio num_dias max_horas_semana max_dias_semana forzar_equidad :
  datos_cargados grupos instructores ambientes_limpios sesiones horas = Some datos ->
  1 <= fecha_inicio ->
  fecha_inicio + Z.of_nat num_dias <= Datetime.max_ordinal ->
  (1 <= num_dias)%nat ->
  max_horas_semana <= INT_MAX ->
  INT_MIN <= max_dias_semana <= INT_MAX ->
  exists filas nombre stats,
    ejecutar Solve
      (generar_desde_datos datos festivos fecha_inicio num_dias
                           max_horas_semana max_dias_semana forzar_equidad)
    = Ok (filas, nombre, stats).
Proof.
  intros Hdatos H1 Hmax Hn Hhoras Hdias.
  assert (Hh : horizonte_valido fecha_inicio num_dias) by (split; lia).
  unfold generar_desde_datos, mas_timedelta, Datetime.valida.
  replace ((1 <=? fecha_inicio + Z.of_nat num_dias)
           && (fecha_inicio + Z.of_nat num_dias <=? Datetime.max_ordinal)) with true
    by (symmetry; apply andb_true_intro; split; [apply Z.leb_le|apply Z.leb_le]; lia).
  replace ((1 <=? fecha_inicio + (Z.of_nat num_dias - 1))
           && (fecha_inicio + (Z.of_nat num_dias - 1) <=? Datetime.max_ordinal)) with true
    by (symmetry; apply andb_true_intro; split; [apply Z.leb_le|apply Z.leb_le]; lia).
  destruct (calcular_total fecha_inicio num_dias festivos Hh)
    as (dnl & Hdnl).
  rewrite ligar_Ok, Hdnl, !ligar_Ok.
  set (a := argumentos datos dnl fecha_inicio num_dias max_horas_semana
                       max_dias_semana forzar_equidad).
  destruct (modelo_con_calendario fecha_inicio festivos a Hdnl) as (Hr1 & _).
  destruct (construir_modelo_int64 a Hr1 Hhoras Hdias) as [m Hm].
  unfold generar_horario_optimo. rewrite Hm.
  destruct (dias_laborables a <=? 0); [do 3 eexists; reflexivity|].
  cbn [ejecutar]. unfold tras_resolver.
  destruct ((status (Solve m) =? OPTIMAL) || (status (Solve m) =? FEASIBLE));
    [|do 3 eexists; reflexivity].
  unfold datos_cargados in Hdatos.
  destruct ((length grupos =? 0)%nat || (length instructores =? 0)%nat); [discriminate|].
  injection Hdatos as <-.
  destruct (materializar_total a fecha_inicio (Value (Solve m))) as [filas Hf].
  - apply ambientes_cargados_no_vacio.
  - simpl. lia.
  - simpl. lia.
  - exact Hh.
  - simpl in Hf |- *. rewrite Hf, ligar_Ok. do 3 eexists. reflexivity.
Qed.

(** X19.  The page reads the solver's time, conflicts and branches from
    [stats] right after the call: the read raises [KeyError] when the
    engine has answered NO_DIAS_LABORABLES, and succeeds after every run
    that went through the solver. *)
Theorem metricas_tras_la_llamada Solve hoy a filas nombre stats :
  ejecutar Solve (generar_horario_optimo hoy a) = Ok (filas, nombre, stats) ->
  (dias_laborables a <= 0 -> metricas_del_solver stats = Lanza KeyError) /\
  (0 < dias_laborables a ->
   exists m, construir_modelo a = Ok m /\
     metricas_del_solver stats
     = Ok (Flotante (WallTime (Solve m)), Entero (NumConflicts (Solve m)),
           Entero (NumBranches (Solve m)))).
Proof.
  intros H. apply ejecutar_generar_inv in H as [[Hd E]|(Hd & m & Hm & H)].
  - injection E as _ _ ->. split; [|lia]. intros _. reflexivity.
  - split; [lia|]. intros _. exists m. split; [exact Hm|].
    apply tras_resolver_nombre in H as [_ ->].
    unfold metricas_del_solver, subindice. by simplify_map_eq.
Qed.

(** ** Days and slots of the rows *)

Lemma get_dia_semana_habil f :
  Datetime.weekday f < 5 ->
  In (get_dia_semana f) [ "Lunes"; "Martes"; "Miércoles"; "Jueves"; "Viernes" ].
Proof.
  unfold get_dia_semana, Datetime.weekday. intros H.
  pose proof (Z.mod_pos_bound (f + 6) 7 ltac:(lia)) as Hb.
  assert (Hc : (f + 6) mod 7 = 0 \/ (f + 6) mod 7 = 1 \/ (f + 6) mod 7 = 2 \/
               (f + 6) mod 7 = 3 \/ (f + 6) mod 7 = 4) by lia.
  destruct Hc as [->|[->|[->|[->| ->]]]]; simpl; auto 6.
Qed.

(** X20.  With the non-working days of [calcular_dias_no_laborables], a
    run that returns with status OPTIMAL or FEASIBLE has every row on a
    day of the horizon that is neither a Saturday, nor a Sunday, nor a
    holiday: the day name of a row is one of Lunes to Viernes, and its
    Fecha is the [strftime("%Y-%m-%d")] text of that day. *)
Theorem filas_en_dias_habiles Solve hoy fecha0 festivos a filas nombre stats f :
  calcular_dias_no_laborables fecha0 (num_dias a) festivos = Ok (dias_no_laborables a) ->
  fecha_inicio a = Some fecha0 ->
  (forall m, construir_modelo a = Ok m -> entrega_solucion m (Solve m)) ->
  ejecutar Solve (generar_horario_optimo hoy a) = Ok (filas, nombre, stats) ->
  nombre = "OPTIMAL" \/ nombre = "FEASIBLE" ->
  In f filas ->
  In (Dia f) [ "Lunes"; "Martes"; "Miércoles"; "Jueves"; "Viernes" ] /\
  exists d, (d < num_dias a)%nat /\
    Fecha f = Datetime.strftime_Ymd (fecha0 + Z.of_nat d) /\
    Datetime.weekday (fecha0 + Z.of_nat d) < 5 /\
    fecha0 + Z.of_nat d ∉ festivos.
Proof.
  intros Hcal Hf0 Hsolve Hrun Hn Hf.
  destruct (corrida_resuelta _ _ _ _ _ _ Hsolve Hrun Hn)
    as (m & cs & rs & Hm & Hdl & Hsol & _ & _ & Hp & Hcs & _).
  rewrite Hf0 in Hcs. simpl in Hcs.
  destruct (Forall2_In_r _ _ _ _ Hcs Hf) as ([[d g] i] & Hc & Hfila).
  apply (Permutation_in _ (Permutation_sym Hp)), celdas_In in Hc as (Hd & Hg & Hi & Ev).
  destruct (fila_de_inv _ _ _ _ _ _ Hfila) as (_ & _ & _ & _ & _ & Hfecha & Hdia & _).
  assert (Hw : d ∉ dias_no_laborables a).
  { intros E. pose proof (sol_no_laborable a m _ Hm Hsol i d g E Hi Hg). lia. }
  destruct (calcular_fuera _ _ _ _ d _ Hcal Hd Hw (calcular_fechas _ _ _ _ d Hcal Hd))
    as [Hwd Hfest].
  split; [rewrite Hdia; apply get_dia_semana_habil, Hwd|].
  exists d. auto.
Qed.

(** X21.  Nothing in a row but the instructor's own columns depends on
    the instructor: two rows built for the same day and group agree on
    date, day, slot, hours, group, programme, session and environment. *)
Theorem fila_sin_instructor a fecha0 d g i i' f f' :
  fila_de a fecha0 (d, g, i) = Ok f ->
  fila_de a fecha0 (d, g, i') = Ok f' ->
  f' = {| Fecha := Fecha f; Dia := Dia f; Jornada := Jornada f; Ficha := Ficha f;
          Programa := Programa f; Trimestre := Trimestre f;
          Hora_Inicio := Hora_Inicio f; Hora_Fin := Hora_Fin f;
          Municipio := Municipio f; Asignatura := Asignatura f;
          Competencia := Competencia f;
          Resultados_de_Aprendizaje := Resultados_de_Aprendizaje f;
          Instructor := Instructor f';
          Jornada_del_Instructor := Jornada_del_Instructor f';
          Ambiente := Ambiente f; Estado := Estado f; Notas := Notas f;
          Festivo := Festivo f;
          Exclusiones_del_Instructor := Exclusiones_del_Instructor f' |}.
Proof.
  unfold fila_de. intros H H'.
  apply ligar_inv in H as (fecha_real & Hf & H). rewrite Hf, ligar_Ok in H'.
  apply ligar_inv in H as (grupo_info & Hg & H). rewrite Hg, ligar_Ok in H'.
  unfold fila in H, H'.
  apply ligar_inv in H as (ii & _ & H). apply ligar_inv in H' as (ii' & _ & H').
  apply ligar_inv in H as (amb_idx & Ha & H). rewrite Ha, ligar_Ok in H'.
  apply ligar_inv in H as (ambiente & Hamb & H). rewrite Hamb, ligar_Ok in H'.
  apply ligar_inv in H as (curr_idx & Hc & H). rewrite Hc, ligar_Ok in H'.
  apply ligar_inv in H as (curr_info & Hci & H). rewrite Hci, ligar_Ok in H'.
  apply ligar_inv in H as (jornada_idx & Hj & H). rewrite Hj, ligar_Ok in H'.
  apply ligar_inv in H as (jornada_dia & Hjd & H). rewrite Hjd, ligar_Ok in H'.
  destruct (if String.eqb jornada_dia "Mañana" then _ else _) as [h1 h2].
  injection H as <-. injection H' as <-. reflexivity.
Qed.

(** X22.  The time slot of a group turns with the days: the rows of one
    group on two consecutive days never have the same slot, and three
    days later the slot is the same again. *)
Theorem jornada_rota a fecha0 d g i i1 i3 f f1 f3 :
  fila_de a fecha0 (d, g, i) = Ok f ->
  fila_de a fecha0 (S d, g, i1) = Ok f1 ->
  fila_de a fecha0 (3 + d, g, i3)%nat = Ok f3 ->
  Jornada f1 <> Jornada f /\
  (Jornada f3, Hora_Inicio f3, Hora_Fin f3) = (Jornada f, Hora_Inicio f, Hora_Fin f).
Proof.
  intros H H1 H3.
  destruct (fila_de_inv _ _ _ _ _ _ H)
    as (_ & _ & _ & _ & _ & _ & _ & _ & _ & _ & _ & _ & Hj & Hs & _).
  destruct (fila_de_inv _ _ _ _ _ _ H1)
    as (_ & _ & _ & _ & _ & _ & _ & _ & _ & _ & _ & _ & Hj1 & _).
  destruct (fila_de_inv _ _ _ _ _ _ H3)
    as (_ & _ & _ & _ & _ & _ & _ & _ & _ & _ & _ & _ & Hj3 & Hs3 & _).
  replace ((3 + d + g) mod 3)%nat with ((d + g) mod 3)%nat in Hj3.
  2:{ replace (3 + d + g)%nat with ((d + g) + 1 * 3)%nat by lia.
      rewrite Nat.Div0.mod_add. reflexivity. }
  split.
  - intros E. rewrite E in Hj1.
    assert (Hidx : ((S d + g) mod 3 = (d + g) mod 3)%nat).
    { apply (proj1 (NoDup_nth_error jornada_options)).
      - unfold jornada_options. repeat constructor; simpl; intuition discriminate.
      - apply Nat.mod_upper_bound. discriminate.
      - rewrite Hj1, Hj. reflexivity. }
    pose proof (Nat.div_mod_eq (S d + g) 3). pose proof (Nat.div_mod_eq (d + g) 3).
    pose proof (Nat.mod_upper_bound (d + g) 3 ltac:(lia)). lia.
  - assert (Ej : Jornada f3 = Jornada f) by congruence.
    simpl in Hs, Hs3.
    destruct Hs as [Hs|[Hs|[Hs|[]]]]; destruct Hs3 as [Hs3|[Hs3|[Hs3|[]]]];
      injection Hs as E1 E2 E3; injection Hs3 as E1' E2' E3';
      rewrite <- E1, <- E2, <- E3, <- E1', <- E2', <- E3';
      try reflexivity; rewrite <- E1, <- E1' in Ej; discriminate Ej.
Qed.

(** ** Whole weeks *)

Lemma weekday_desplazado f j :
  Datetime.weekday (f + Z.of_nat j) = (Datetime.weekday f + Z.of_nat j) mod 7.
Proof.
  unfold Datetime.weekday.
  replace (f + Z.of_nat j + 6) with ((f + 6) + Z.of_nat j) by lia.
  rewrite Zplus_mod_idemp_l. reflexivity.
Qed.

Lemma fin_de_semana_por_semana f s :
  length (List.filter (fun d => 5 <=? Datetime.weekday (f + Z.of_nat d)) (seq s 7)) = 2%nat.
Proof.
  assert (E : seq s 7 = map (fun j => (s + j)%nat) (seq 0 7)).
  { simpl. repeat (f_equal; try lia). }
  rewrite E. clear E.
  assert (Hw : forall j, Datetime.weekday (f + Z.of_nat (s + j))
                 = (Datetime.weekday (f + Z.of_nat s) + Z.of_nat j) mod 7).
  { intros j. rewrite Nat2Z.inj_add, Z.add_assoc. apply weekday_desplazado. }
  pose proof (Z.mod_pos_bound (f + Z.of_nat s + 6) 7 ltac:(lia)) as Hb.
  fold (Datetime.weekday (f + Z.of_nat s)) in Hb.
  cbn [seq map List.filter]. rewrite !Hw.
  assert (Hc : Datetime.weekday (f + Z.of_nat s) = 0 \/ Datetime.weekday (f + Z.of_nat s) = 1 \/
               Datetime.weekday (f + Z.of_nat s) = 2 \/ Datetime.weekday (f + Z.of_nat s) = 3 \/
               Datetime.weekday (f + Z.of_nat s) = 4 \/ Datetime.weekday (f + Z.of_nat s) = 5 \/
               Datetime.weekday (f + Z.of_nat s) = 6) by lia.
  destruct Hc as [->|[->|[->|[->|[->|[->| ->]]]]]]; reflexivity.
Qed.

Lemma fines_de_semana f k :
  length (List.filter (fun d => 5 <=? Datetime.weekday (f + Z.of_nat d)) (seq 0 (7 * k)))
  = (2 * k)%nat.
Proof.
  induction k as [|k IH]; [reflexivity|].
  replace (7 * S k)%nat with (7 * k + 7)%nat by lia.
  rewrite seq_app, List.filter_app, length_app, IH, fin_de_semana_por_semana. lia.
Qed.

(** X23.  Without holiday in the horizon, a horizon of [k] whole weeks
    has exactly [5 * k] working days, whatever the day it starts: the
    engine expects [5 * k] sessions per group. *)
Theorem semanas_completas fecha0 festivos a k :
  calcular_dias_no_laborables fecha0 (num_dias a) festivos = Ok (dias_no_laborables a) ->
  num_dias a = (7 * k)%nat ->
  (forall d, (d < num_dias a)%nat -> fecha0 + Z.of_nat d ∉ festivos) ->
  dias_laborables a = 5 * Z.of_nat k /\
  total_asignaciones a = Z.of_nat (num_grupos a) * (5 * Z.of_nat k).
Proof.
  intros Hcal Hn Hfest.
  assert (Hdl : dias_laborables a = 5 * Z.of_nat k).
  { destruct (modelo_con_calendario fecha0 festivos a Hcal) as [_ ->].
    unfold dias_habiles.
    pose proof (List.filter_length (no_laborable a) (seq 0 (num_dias a))) as Hlen.
    rewrite length_seq in Hlen.
    assert (E : List.filter (no_laborable a) (seq 0 (num_dias a))
                = List.filter (fun d => 5 <=? Datetime.weekday (fecha0 + Z.of_nat d))
                              (seq 0 (num_dias a))).
    { apply List.filter_ext_in. intros d Hd. apply in_seq in Hd.
      destruct (no_laborable a d) eqn:Enl.
      - apply no_laborable_true in Enl.
        destruct (calcular_en_horizonte _ _ _ _ Hcal d Enl) as (_ & f & Hf & [Hw|Hw]).
        + apply mas_dias_inv in Hf. subst f. symmetry. apply Z.leb_le, Hw.
        + apply mas_dias_inv in Hf. subst f. exfalso. apply (Hfest d); [lia|exact Hw].
      - apply no_laborable_false in Enl.
        destruct (calcular_fuera _ _ _ _ d _ Hcal ltac:(lia) Enl
                    (calcular_fechas _ _ _ _ d Hcal ltac:(lia))) as [Hw _].
        symmetry. apply Z.leb_gt, Hw. }
    rewrite E in Hlen. rewrite Hn in *. rewrite fines_de_semana in Hlen. lia. }
  split; [exact Hdl|]. unfold total_asignaciones. rewrite Hdl. reflexivity.
Qed.

(** ** More groups than instructors *)

(** X24.  With more groups than instructors no timetable ever comes out:
    whatever a solver that keeps its contract answers, the run returns
    no row and a status that is neither OPTIMAL nor FEASIBLE. *)
Theorem mas_grupos_que_instructores Solve hoy a filas nombre stats :
  (forall m, construir_modelo a = Ok m -> entrega_solucion m (Solve m)) ->
  (num_instructores a < num_grupos a)%nat ->
  ejecutar Solve (generar_horario_optimo hoy a) = Ok (filas, nombre, stats) ->
  filas = [] /\ nombre <> "OPTIMAL" /\ nombre <> "FEASIBLE".
Proof.
  intros Hsolve Hlt Hrun.
  apply ejecutar_generar_inv in Hrun as [[_ E]|(Hdl & m & Hm & Hrun)].
  - injection E as -> -> _. split; [reflexivity|]. split; discriminate.
  - unfold tras_resolver in Hrun. rewrite status_name_casos in Hrun.
    destruct (status (Solve m) =? OPTIMAL) eqn:E4.
    { apply Z.eqb_eq in E4.
      pose proof (sol_grupos_le_instructores a m _ Hm (Hsolve m Hm (or_introl E4)) Hdl).
      lia. }
    destruct (status (Solve m) =? FEASIBLE) eqn:E2.
    { apply Z.eqb_eq in E2.
      pose proof (sol_grupos_le_instructores a m _ Hm (Hsolve m Hm (or_intror E2)) Hdl).
      lia. }
    simpl in Hrun. injection Hrun as <- <- _. split; [reflexivity|].
    destruct (status (Solve m) =? INFEASIBLE);
      [|destruct (status (Solve m) =? MODEL_INVALID)]; split; discriminate.
Qed.

(** ** The further properties on the sample inputs *)

Lemma calcular_semana :
  calcular_dias_no_laborables 738886 (num_dias a_semana) ∅ = Ok (dias_no_laborables a_semana).
Proof. vm_compute. reflexivity. Qed.

Lemma dias_no_laborables_calculados_testigo :
  exists dnl,
    calcular_dias_no_laborables 738886 7 festivos_enero = Ok dnl /\
    forall d, d ∈ dnl <->
      (d < 7)%nat /\
      (5 <= Datetime.weekday (738886 + Z.of_nat d) \/
       738886 + Z.of_nat d ∈ festivos_enero).
Proof.
  apply (dias_no_laborables_calculados 738886 7 festivos_enero).
  split; simpl; [lia|unfold Datetime.max_ordinal; lia].
Defined.

Lemma calendario_y_motor_testigo :
  dias_laborables a_semana = Z.of_nat (length (dias_habiles a_semana)) /\
  (forall hoy e, generar_horario_optimo hoy a_semana = Aborta e -> e = TypeError) /\
  (exists m, construir_modelo a_semana = Ok m) /\
  (forall hoy e, generar_horario_optimo hoy a_semana <> Aborta e).
Proof.
  destruct (calendario_y_motor 738886 ∅ a_semana) as (H1 & H2 & H3).
  - vm_compute. reflexivity.
  - split; [exact H1|]. split; [exact H2|]. apply H3.
    + unfold INT_MAX. simpl. lia.
    + unfold INT_MIN, INT_MAX. simpl. lia.
Defined.

Lemma tres_dias_sin_festivo_testigo :
  0 < dias_laborables a_semana /\
  (forall hoy r, generar_horario_optimo hoy a_semana <> Retorna r) /\
  forall hoy, exists m sigue, generar_horario_optimo hoy a_semana = Resuelve m sigue.
Proof.
  destruct (tres_dias_sin_festivo 738886 ∅ a_semana) as (H1 & H2 & H3).
  - vm_compute. reflexivity.
  - simpl. lia.
  - intros d _ H. exact (not_elem_of_empty _ H).
  - split; [exact H1|]. split; [exact H2|]. apply H3.
    + unfold INT_MAX. simpl. lia.
    + unfold INT_MIN, INT_MAX. simpl. lia.
Defined.

Lemma tope_de_dias_trabajados_testigo :
  Z.of_nat (length (dias_con_clase a_semana val_semana 0 0)) <= Z.max 0 (max_dias_semana a_semana) /\
  forall d, In d (dias_con_clase a_semana val_semana 0 0) -> d ∉ dias_no_laborables a_semana.
Proof.
  apply (tope_de_dias_trabajados a_semana (modelo_de a_semana) val_semana 0 0).
  - vm_compute. reflexivity.
  - vm_compute. reflexivity.
  - simpl. lia.
  - vm_compute. lia.
Defined.

Lemma objetivo_es_el_desbalance_testigo :
  (forall i, (i < num_instructores a_semana)%nat ->
     val_semana VMinCarga <= carga_de a_semana val_semana i <= val_semana VMaxCarga) /\
  (exists i, (i < num_instructores a_semana)%nat /\
     carga_de a_semana val_semana i = val_semana VMaxCarga) /\
  (exists i, (i < num_instructores a_semana)%nat /\
     carga_de a_semana val_semana i = val_semana VMinCarga) /\
  valor_objetivo (modelo_de a_semana) val_semana
    = val_semana VMaxCarga - val_semana VMinCarga /\
  0 <= valor_objetivo (modelo_de a_semana) val_semana.
Proof.
  apply (objetivo_es_el_desbalance a_semana (modelo_de a_semana) val_semana).
  - vm_compute. reflexivity.
  - vm_compute. reflexivity.
  - simpl. lia.
Defined.

Lemma las_cargas_suman_el_total_testigo :
  carga_de a_semana val_semana 0 + (carga_de a_semana val_semana 1 + 0) = 2 * 5.
Proof.
  apply (las_cargas_suman_el_total a_semana (modelo_de a_semana) val_semana).
  - vm_compute. reflexivity.
  - vm_compute. reflexivity.
Defined.

Lemma capacidad_necesaria_testigo :
  (0 < dias_laborables a_semana -> (num_grupos a_semana <= num_instructores a_semana)%nat) /\
  (forall w, (w < num_semanas a_semana)%nat ->
     Z.of_nat (num_grupos a_semana) * Z.of_nat (length (laborables_semana a_semana w))
     <= Z.of_nat (num_instructores a_semana) * max_asignaciones_semana a_semana).
Proof.
  apply (capacidad_necesaria a_semana (modelo_de a_semana) val_semana).
  - vm_compute. reflexivity.
  - vm_compute. reflexivity.
Defined.

Lemma filas_esperadas_testigo :
  length (filas_de (materializar a_semana 738886 val_semana))
    = (num_grupos a_semana * length (dias_habiles a_semana))%nat /\
  ({[ "status" := Texto "OPTIMAL";
      "tiempo_solver" := Flotante (1 # 4);
      "conflictos" := Entero 0;
      "ramas" := Entero 12;
      "dias_laborables" := Entero 5;
      "total_asignaciones_esperadas" := Entero 10 ]} : gmap string Valor)
    !! "total_asignaciones_esperadas"
  = Some (Entero (Z.of_nat (length (filas_de (materializar a_semana 738886 val_semana))))).
Proof.
  eapply (filas_esperadas (fun _ => solver_semana) 1 a_semana).
  - exact solver_semana_entrega.
  - exact ejecutar_semana.
  - left. reflexivity.
Defined.

Lemma filas_programadas_testigo :
  Forall (fun f =>
            Festivo f = "No" /\ Estado f = "Programado" /\
            In (Jornada f, Hora_Inicio f, Hora_Fin f)
               [ ("Mañana", "08:00", "13:00"); ("Tarde", "14:00", "18:00");
                 ("Noche", "18:00", "22:00") ])
         (filas_de (materializar a_semana 738886 val_semana)).
Proof.
  apply List.Forall_forall. intros f Hf.
  eapply (filas_programadas (fun _ => solver_semana) 1 a_semana).
  - exact solver_semana_entrega.
  - exact ejecutar_semana.
  - left. reflexivity.
  - exact Hf.
Defined.

Lemma ambientes_sin_choque_testigo :
  exists f f',
    fila_de a_semana 738886 (0%nat, 0%nat, 0%nat) = Ok f /\
    fila_de a_semana 738886 (0%nat, 1%nat, 1%nat) = Ok f' /\
    Ambiente f <> Ambiente f'.
Proof.
  eexists. eexists.
  split; [vm_compute; reflexivity|]. split; [vm_compute; reflexivity|].
  apply (ambientes_sin_choque a_semana 738886 0 0 1 0 1).
  - simpl. lia.
  - repeat constructor; simpl; intuition discriminate.
  - simpl. lia.
  - simpl. lia.
  - discriminate.
  - vm_compute. reflexivity.
  - vm_compute. reflexivity.
Defined.

Lemma orden_de_las_filas_testigo :
  StronglySorted (fun f1 f2 => clave_leb f1 f2 = true)
                 (filas_de (materializar a_semana 738886 val_semana)) /\
  exists rs,
    resultados a_semana 738886 val_semana = Ok rs /\
    Permutation rs (filas_de (materializar a_semana 738886 val_semana)).
Proof.
  apply (orden_de_las_filas a_semana 738886 val_semana). exact materializar_semana.
Defined.



Lemma modelo_sin_ambientes :
  construir_modelo a_sin_ambientes = Ok (modelo_de a_sin_ambientes).
Proof. vm_compute. reflexivity. Qed.

Lemma val_tope_sin_ambientes : es_solucion (modelo_de a_sin_ambientes) val_tope = true.
Proof. vm_compute. reflexivity. Qed.

Lemma sin_ambientes_division_por_cero_testigo :
  ejecutar (fun _ => solver_tope) (generar_horario_optimo 738886 a_sin_ambientes)
  = Lanza ZeroDivisionError.
Proof.
  apply (sin_ambientes_division_por_cero (fun _ => solver_tope) 738886 a_sin_ambientes
           (modelo_de a_sin_ambientes)).
  - exact modelo_sin_ambientes.
  - intros _. exact val_tope_sin_ambientes.
  - left. reflexivity.
  - reflexivity.
  - vm_compute. reflexivity.
  - simpl. lia.
  - simpl. lia.
  - simpl. lia.
  - split; simpl; [lia|unfold Datetime.max_ordinal; lia].
Defined.

Lemma indice_por_trimestre_testigo :
  agrupar_por_trimestre [ sesion_algebra; sesion_cocina; sesion_redes ] !! "1"
    = Some [ sesion_algebra; sesion_redes ] /\
  ([ sesion_algebra; sesion_redes ] <> [] /\
   [ sesion_algebra; sesion_redes ]
     = List.filter (fun sess => String.eqb (tri_key sess) "1")
                   [ sesion_algebra; sesion_cocina; sesion_redes ]) /\
  agrupar_por_trimestre [ sesion_algebra; sesion_cocina; sesion_redes ] !! "2" = None /\
  exists bucket,
    agrupar_por_trimestre [ sesion_algebra; sesion_cocina; sesion_redes ]
      !! tri_key sesion_cocina = Some bucket /\
    In sesion_cocina bucket.
Proof.
  assert (H : agrupar_por_trimestre [ sesion_algebra; sesion_cocina; sesion_redes ] !! "1"
              = Some [ sesion_algebra; sesion_redes ]) by (vm_compute; reflexivity).
  split; [exact H|]. split; [|split].
  - exact (proj1 (indice_por_trimestre [ sesion_algebra; sesion_cocina; sesion_redes ])
                 "1" _ H).
  - apply (proj1 (proj2 (indice_por_trimestre [ sesion_algebra; sesion_cocina; sesion_redes ]))
                 "2").
    intros sess [<-|[<-|[<-|[]]]]; vm_compute; discriminate.
  - apply (proj2 (proj2 (indice_por_trimestre [ sesion_algebra; sesion_cocina; sesion_redes ]))).
    right. left. reflexivity.
Defined.

Lemma sesiones_con_indice_cargado_testigo :
  sesiones_trimestre a_semana "3"
    = match List.filter (fun sess => String.eqb (tri_key sess) "3")
                        (curriculo_sessions a_semana) with
      | [] => curriculo_sessions a_semana
      | del_grupo => del_grupo
      end /\
  (forall sess, In sess (sesiones_trimestre a_semana "3") ->
                In sess (curriculo_sessions a_semana)) /\
  ((exists sess, In sess (curriculo_sessions a_semana) /\ tri_key sess = "3") ->
   forall sess, In sess (sesiones_trimestre a_semana "3") -> tri_key sess = "3").
Proof.
  apply (sesiones_con_indice_cargado a_semana "3").
  - vm_compute. reflexivity.
  - discriminate.
Defined.

Lemma datos_cargados_validos_testigo :
  exists datos,
    datos_cargados (grupos a_semana) (instructores a_semana) ambientes_leidos [] 4
      = Some datos /\
    d_ambientes datos = [ "A1"; "Lab" ] /\
    d_num_grupos datos = length (d_grupos datos) /\
    d_num_instructores datos = length (d_instructores datos) /\
    (0 < d_num_grupos datos)%nat /\ (0 < d_num_instructores datos)%nat /\
    d_ambientes datos <> [] /\
    (forall x, In x (d_ambientes datos) -> x <> "") /\
    d_curriculo_sessions datos <> [] /\
    (@nil Dict <> [] -> d_curriculo_sessions datos = []) /\
    d_curriculo_por_trimestre datos = agrupar_por_trimestre (d_curriculo_sessions datos).
Proof.
  eexists. split; [reflexivity|]. split; [reflexivity|].
  apply (proj2 (datos_cargados_validos (grupos a_semana) (instructores a_semana)
                                       ambientes_leidos [] 4)).
  reflexivity.
Defined.

Lemma la_llamada_no_falla_testigo :
  exists datos,
    datos_cargados (grupos a_semana) (instructores a_semana) ambientes_leidos
                   (curriculo_sessions a_semana) 4 = Some datos /\
    exists filas nombre stats,
      ejecutar (fun _ => solver_semana)
               (generar_desde_datos datos festivos_enero 738886 7 40 6 true)
      = Ok (filas, nombre, stats).
Proof.
  eexists. split; [reflexivity|].
  eapply (la_llamada_no_falla (fun _ => solver_semana) (grupos a_semana) (instructores a_semana)
                             ambientes_leidos (curriculo_sessions a_semana) 4).
  - reflexivity.
  - lia.
  - unfold Datetime.max_ordinal. simpl. lia.
  - lia.
  - unfold INT_MAX. lia.
  - unfold INT_MIN, INT_MAX. lia.
Defined.

Lemma metricas_tras_la_llamada_testigo :
  metricas_del_solver ∅ = Lanza KeyError /\
  exists m, construir_modelo a_semana = Ok m /\
    metricas_del_solver
      {[ "status" := Texto "OPTIMAL";
         "tiempo_solver" := Flotante (1 # 4);
         "conflictos" := Entero 0;
         "ramas" := Entero 12;
         "dias_laborables" := Entero 5;
         "total_asignaciones_esperadas" := Entero 10 ]}
    = Ok (Flotante (WallTime solver_semana), Entero (NumConflicts solver_semana),
          Entero (NumBranches solver_semana)).
Proof.
  split.
  - apply (proj1 (metricas_tras_la_llamada (fun _ => solver_semana) 738891 a_sin_dias
                   [] "NO_DIAS_LABORABLES" ∅ ltac:(reflexivity))).
    vm_compute. discriminate.
  - apply (proj2 (metricas_tras_la_llamada (fun _ => solver_semana) 1 a_semana
                   _ _ _ ejecutar_semana)).
    reflexivity.
Defined.

Lemma filas_en_dias_habiles_testigo :
  Forall (fun f =>
            In (Dia f) [ "Lunes"; "Martes"; "Miércoles"; "Jueves"; "Viernes" ] /\
            exists d, (d < num_dias a_semana)%nat /\
              Fecha f = Datetime.strftime_Ymd (738886 + Z.of_nat d) /\
              Datetime.weekday (738886 + Z.of_nat d) < 5 /\
              738886 + Z.of_nat d ∉ (∅ : gset Datetime.date))
         (filas_de (materializar a_semana 738886 val_semana)).
Proof.
  apply List.Forall_forall. intros f Hf.
  eapply (filas_en_dias_habiles (fun _ => solver_semana) 1 738886 ∅ a_semana).
  - vm_compute. reflexivity.
  - reflexivity.
  - exact solver_semana_entrega.
  - exact ejecutar_semana.
  - left. reflexivity.
  - exact Hf.
Defined.

Lemma fila_sin_instructor_testigo :
  exists f f',
    fila_de a_semana 738886 (0%nat, 0%nat, 0%nat) = Ok f /\
    fila_de a_semana 738886 (0%nat, 0%nat, 1%nat) = Ok f' /\
    Instructor f = "Ana" /\ Instructor f' = "Luis" /\
    f' = {| Fecha := Fecha f; Dia := Dia f; Jornada := Jornada f; Ficha := Ficha f;
            Programa := Programa f; Trimestre := Trimestre f;
            Hora_Inicio := Hora_Inicio f; Hora_Fin := Hora_Fin f;
            Municipio := Municipio f; Asignatura := Asignatura f;
            Competencia := Competencia f;
            Resultados_de_Aprendizaje := Resultados_de_Aprendizaje f;
            Instructor := Instructor f';
            Jornada_del_Instructor := Jornada_del_Instructor f';
            Ambiente := Ambiente f; Estado := Estado f; Notas := Notas f;
            Festivo := Festivo f;
            Exclusiones_del_Instructor := Exclusiones_del_Instructor f' |}.
Proof.
  eexists. eexists.
  split; [vm_compute; reflexivity|]. split; [vm_compute; reflexivity|].
  split; [reflexivity|]. split; [reflexivity|].
  apply (fila_sin_instructor a_semana 738886 0 0 0 1); vm_compute; reflexivity.
Defined.

Lemma jornada_rota_testigo :
  exists f f1 f3,
    fila_de a_semana 738886 (0%nat, 0%nat, 0%nat) = Ok f /\
    fila_de a_semana 738886 (1%nat, 0%nat, 1%nat) = Ok f1 /\
    fila_de a_semana 738886 (3%nat, 0%nat, 1%nat) = Ok f3 /\
    Jornada f1 <> Jornada f /\
    (Jornada f3, Hora_Inicio f3, Hora_Fin f3) = (Jornada f, Hora_Inicio f, Hora_Fin f).
Proof.
  eexists. eexists. eexists.
  split; [vm_compute; reflexivity|]. split; [vm_compute; reflexivity|].
  split; [vm_compute; reflexivity|].
  apply (jornada_rota a_semana 738886 0 0 0 1 1); vm_compute; reflexivity.
Defined.

Lemma semanas_completas_testigo :
  dias_laborables a_semana = 5 * Z.of_nat 1 /\
  total_asignaciones a_semana = Z.of_nat (num_grupos a_semana) * (5 * Z.of_nat 1).
Proof.
  apply (semanas_completas 738886 ∅ a_semana 1).
  - vm_compute. reflexivity.
  - reflexivity.
  - intros d _ H. exact (not_elem_of_empty _ H).
Defined.

Lemma mas_grupos_que_instructores_testigo :
  exists filas nombre stats,
    ejecutar (fun _ => solver_infactible) (generar_horario_optimo 738886 a_dos_grupos)
      = Ok (filas, nombre, stats) /\
    filas = [] /\ nombre <> "OPTIMAL" /\ nombre <> "FEASIBLE".
Proof.
  assert (H : ejecutar (fun _ => solver_infactible) (generar_horario_optimo 738886 a_dos_grupos)
              = tras_resolver a_dos_grupos 738886 solver_infactible) by reflexivity.
  do 3 eexists. split; [rewrite H; reflexivity|].
  eapply (mas_grupos_que_instructores (fun _ => solver_infactible) 738886 a_dos_grupos).
  - intros m _ [E|E]; discriminate E.
  - simpl. lia.
  - rewrite H. reflexivity.
Defined.
